(** * vold KeyUtil: installing and evicting fscrypt keys

    A shallow embedding of [KeyUtil.cpp].  Every function of the source
    becomes a program of the monad [Prog]: a finite tree whose nodes are the
    calls the function makes to the kernel, to libkeyutils and to the
    storage collaborators, whose edges are the values those calls may
    return, and whose leaves are the function's return value together with
    the final contents of its output parameters.  A program is run against
    an arbitrary environment ([run]); theorems quantify over every
    environment, and concrete environments serve as examples.

    Conventions.
    - An output parameter ([KeyBuffer* key], [EncryptionPolicy* policy],
      [fscrypt_key_specifier* spec]) is passed in and returned next to the
      [bool] result, so that "unchanged on failure" can be stated.
    - A single thread's calls are recorded.  Destructors are not recorded:
      the release of [fscrypt_keyring_mutex] by [std::lock_guard], the
      closing of a [unique_fd] and the zeroing of a [KeyBuffer].
    - [size_t] values are [nat]; [int], [key_serial_t], [__u32] and
      [std::chrono::milliseconds] counts are [Z], with the conversions of
      the source written out where a value changes type. *)

From Stdlib Require Import ZArith String Ascii Bool Lia List.
From Stdlib.Strings Require Import Byte.
Import ListNotations.
Local Open Scope Z_scope.

Set Implicit Arguments.

(** ** Constants of the kernel interface

    The values below are those of [<linux/fscrypt.h>], [<errno.h>],
    [<keyutils.h>] and [<openssl/sha.h>], which the source includes. *)

(** Modelled from the spec: the descriptor of a version-1 policy is 8 bytes
    long ([FSCRYPT_KEY_DESCRIPTOR_SIZE] of [<linux/fscrypt.h>], not under
    src/). *)
Definition FSCRYPT_KEY_DESCRIPTOR_SIZE : nat := 8.

(** Modelled from the spec: the identifier of a version-2 policy is 16 bytes
    long ([FSCRYPT_KEY_IDENTIFIER_SIZE] of [<linux/fscrypt.h>], not under
    src/). *)
Definition FSCRYPT_KEY_IDENTIFIER_SIZE : nat := 16.

(** The fixed maximum key size; the comment in [installKey] (two halves of
    32 bytes) agrees with the header's 64. *)
Definition FSCRYPT_MAX_KEY_SIZE : nat := 64.

Definition SHA512_DIGEST_LENGTH : nat := 64.

Definition FSCRYPT_KEY_SPEC_TYPE_DESCRIPTOR : Z := 1.
Definition FSCRYPT_KEY_SPEC_TYPE_IDENTIFIER : Z := 2.
Definition FSCRYPT_KEY_REMOVAL_STATUS_FLAG_FILES_BUSY : Z := 1.
Definition FSCRYPT_KEY_REMOVAL_STATUS_FLAG_OTHER_USERS : Z := 2.
Definition FSCRYPT_KEY_STATUS_INCOMPLETELY_REMOVED : Z := 3.
Definition __FSCRYPT_ADD_KEY_FLAG_HW_WRAPPED : Z := 1.
Definition KEY_SPEC_SESSION_KEYRING : Z := -3.
Definition ENOTTY : Z := 25.
Definition EFAULT : Z := 14.
Definition INT_MAX : Z := 2147483647.

(** Conversion of an integer to [int] (two's complement, 32 bits). *)
Definition to_int (z : Z) : Z := (z + 2 ^ 31) mod 2 ^ 32 - 2 ^ 31.

(** Conversion of an integer to [__u32]. *)
Definition to_u32 (z : Z) : Z := z mod 2 ^ 32.

(** ** Data *)

(** [KeyBuffer] is a [std::vector<char>] with a zeroing allocator. *)
Definition KeyBuffer : Type := list byte.

(** [KeyBuffer(size)]: [size] value-initialised bytes. *)
Definition KeyBuffer_new (size : nat) : KeyBuffer := repeat x00 size.

(** What a buffer holds after a callee has stored [src] at its start: the
    callee never writes past the end of the buffer. *)
Definition overwrite (dst src : list byte) : list byte :=
  let written := firstn (length dst) src in
  written ++ skipn (length written) dst.

(** [memcpy(dst, src, n)] on a buffer at least [n] bytes long. *)
Definition memcpy (dst src : list byte) (n : nat) : list byte :=
  overwrite dst (firstn n src).

(** Modelled from the spec: [KeyGeneration] of [KeyUtil.h] (not under
    src/): desired size in bytes, whether generation is permitted, whether
    a hardware-wrapped key is required.  The field order is that of
    [neverGen]. *)
Record KeyGeneration : Type := {
  keysize : nat;
  allow_gen : bool;
  use_hw_wrapped_key : bool
}.

Definition neverGen : KeyGeneration :=
  {| keysize := 0; allow_gen := false; use_hw_wrapped_key := false |}.

(** Modelled from the spec: [KeyAuthentication] of [KeyStorage.h] (not under
    src/), an opaque authentication token. *)
Definition KeyAuthentication : Type := string.

Module fscrypt.

(** Modelled from the spec: [EncryptionOptions] of libfscrypt (not under
    src/): the policy version, whether the key is hardware-wrapped, and
    the other filesystem-policy flags. *)
Record EncryptionOptions : Type := {
  version : Z;
  contents_mode : Z;
  filenames_mode : Z;
  flags : Z;
  use_hw_wrapped_key : bool
}.

(** Modelled from the spec: [EncryptionPolicy] of libfscrypt (not under
    src/): the options and the key reference, a byte string. *)
Record EncryptionPolicy : Type := {
  options : EncryptionOptions;
  key_raw_ref : list byte
}.

End fscrypt.

Import fscrypt (EncryptionOptions, EncryptionPolicy).

(** [struct fscrypt_key_specifier]: a type and a 32-byte union [u] whose
    members [descriptor] and [identifier] both start at its first byte. *)
Record fscrypt_key_specifier : Type := {
  spec_type : Z;
  spec_u : list byte
}.

Definition fscrypt_key_specifier_zero : fscrypt_key_specifier :=
  {| spec_type := 0; spec_u := repeat x00 32 |}.

(** [struct fscrypt_key], the payload of a legacy keyring entry. *)
Record fscrypt_key : Type := {
  mode : Z;
  raw : list byte;
  size : Z
}.

Definition fscrypt_key_zero : fscrypt_key :=
  {| mode := 0; raw := repeat x00 FSCRYPT_MAX_KEY_SIZE; size := 0 |}.

(** [struct fscrypt_add_key_arg]; [__flags] is the first reserved word. *)
Record fscrypt_add_key_arg : Type := {
  key_spec : fscrypt_key_specifier;
  raw_size : Z;
  __flags : Z;
  arg_raw : list byte
}.

(** ** Diagnostics *)

Inductive Severity : Type := DEBUG | INFO | WARNING | ERROR.

(** One constructor per [LOG]/[PLOG] statement of the source, with the
    values it prints; the error text [PLOG] appends and the process id
    printed with [Added_key] are left out. *)
Inductive LogMsg : Type :=
| Random_read_failed
| Generating_storage_key_not_allowed
| Cannot_generate_a_wrapped_key (keysize : nat)
| Generating_wrapped_storage_key
| Generating_standard_storage_key
| Kernel_doesnt_support_ADD_ENCRYPTION_KEY
| Unexpected_error_from_ADD_ENCRYPTION_KEY
| Detected_support_for_ADD_ENCRYPTION_KEY
| Wrong_size_key (n : nat)
| Unable_to_find_device_keyring
| Failed_to_insert_key_into_keyring (device_keyring : Z)
| Added_key (key_id : Z) (ref : string) (device_keyring : Z)
| Invalid_key_specifier_size_v1 (n : nat)
| Invalid_key_specifier_size_v2 (n : nat)
| Invalid_encryption_policy_version (v : Z)
| Failed_to_open_to_install_key (mountpoint : string)
| Failed_to_install_fscrypt_key (mountpoint : string)
| Installed_fscrypt_key (ref mountpoint : string)
| Failed_to_unlink_key (key_serial : Z) (ref : string)
| Unlinked_key (key_serial : Z) (ref : string)
| Failed_to_open_to_evict_key (mountpoint : string)
| Failed_to_get_status (ref mountpoint : string)
| Key_status_changed (ref : string)
| Failed_to_clean_up_busy_files (ref mountpoint : string)
| Still_added_by_other_users (ref : string)
| Successfully_cleaned_up_busy_files (ref : string) (total_wait_time : Z)
| Files_still_open_after_waiting (total_wait_time : Z) (ref : string)
| Waiting_never_completed (ref : string)
| Failed_to_evict_fscrypt_key (ref mountpoint : string)
| Evicted_fscrypt_key (ref mountpoint : string)
| Files_still_open_punting (ref : string)
| Key_exists_using (key_path : string)
| No_key_found_in (key_path : string)
| Creating_new_key_in (key_path : string).

(** ** Calls to the environment

    [Sys X] is a call whose answer has type [X].  A call that writes
    through a pointer answers with what it wrote. *)
Inductive Sys : Type -> Type :=
(* Utils.h: the status, and the bytes delivered into the buffer *)
| ReadRandomBytes (n : nat) : Sys (Z * list byte)
(* KeyStorage.h: the result, and the new contents of [*key] *)
| generateWrappedStorageKey (key : KeyBuffer) : Sys (bool * KeyBuffer)
| retrieveKey (key_path : string) (auth : KeyAuthentication) (key : KeyBuffer)
    : Sys (bool * KeyBuffer)
| storeKeyAtomically (key_path tmp_path : string) (auth : KeyAuthentication)
    (key : KeyBuffer) : Sys bool
| pathExists (path : string) : Sys bool
(* open(path, O_RDONLY | O_DIRECTORY | O_CLOEXEC): the descriptor or -1 *)
| open (path : string) : Sys Z
(* ioctl(fd, FS_IOC_ADD_ENCRYPTION_KEY, NULL): the value of errno after it *)
| ioctl_ADD_ENCRYPTION_KEY_NULL (fd : Z) : Sys Z
(* ioctl(fd, FS_IOC_ADD_ENCRYPTION_KEY, arg): the return value, and the
   identifier the kernel stores in arg->key_spec.u.identifier when the
   specifier is identifier-typed *)
| ioctl_ADD_ENCRYPTION_KEY (fd : Z) (arg : fscrypt_add_key_arg)
    : Sys (Z * list byte)
(* ioctl(fd, FS_IOC_REMOVE_ENCRYPTION_KEY, arg): the return value and
   arg->removal_status_flags *)
| ioctl_REMOVE_ENCRYPTION_KEY (fd : Z) (key_spec : fscrypt_key_specifier)
    : Sys (Z * Z)
(* ioctl(fd, FS_IOC_GET_ENCRYPTION_KEY_STATUS, arg): the return value and
   arg->status *)
| ioctl_GET_ENCRYPTION_KEY_STATUS (fd : Z) (key_spec : fscrypt_key_specifier)
    : Sys (Z * Z)
(* keyutils.h: keyctl_search(ringid, type, description, 0) and
   add_key(type, description, &fs_key, sizeof(fs_key), ringid) answer a
   serial or -1, keyctl_unlink(id, ringid) answers 0 or -1 *)
| keyctl_search (ringid : Z) (type description : string) : Sys Z
| add_key (type description : string) (payload : fscrypt_key) (ringid : Z)
    : Sys Z
| keyctl_unlink (id ringid : Z) : Sys Z
(* std::this_thread::sleep_for, in milliseconds *)
| sleep_for (wait_time : Z) : Sys unit
(* std::thread(waitForBusyFiles, key_spec, ref, mountpoint).detach() *)
| thread_waitForBusyFiles (key_spec : fscrypt_key_specifier)
    (ref mountpoint : string) : Sys unit.

(** What a run leaves behind: the calls with their answers, and the
    diagnostics, in program order. *)
Inductive Event : Type :=
| Ev {X : Type} (c : Sys X) (r : X)
| Logged (s : Severity) (m : LogMsg).

(** ** Programs *)

(** [GetStatic]/[SetStatic] read and initialise the function-local
    [static bool supported] of [isFsKeyringSupported]. *)
Inductive Prog (A : Type) : Type :=
| Ret (a : A)
| Call {X : Type} (c : Sys X) (k : X -> Prog A)
| Log (s : Severity) (m : LogMsg) (k : Prog A)
| GetStatic (k : option bool -> Prog A)
| SetStatic (v : bool) (k : Prog A).

Arguments Ret {A} a.
Arguments Call {A X} c k.
Arguments Log {A} s m k.
Arguments GetStatic {A} k.
Arguments SetStatic {A} v k.

Fixpoint bind {A B : Type} (p : Prog A) (f : A -> Prog B) : Prog B :=
  match p with
  | Ret a => f a
  | Call c k => Call c (fun r => bind (k r) f)
  | Log s m k => Log s m (bind k f)
  | GetStatic k => GetStatic (fun v => bind (k v) f)
  | SetStatic v k => SetStatic v (bind k f)
  end.

Definition call {X : Type} (c : Sys X) : Prog X := Call c Ret.
Definition LOG (s : Severity) (m : LogMsg) : Prog unit := Log s m (Ret tt).

Declare Scope prog_scope.
Delimit Scope prog_scope with prog.
Notation "x <- p ;; q" := (bind p (fun x => q))
  (at level 61, p at next level, right associativity) : prog_scope.
Notation "' pat <- p ;; q" := (bind p (fun x => match x with pat => q end))
  (at level 61, pat pattern, p at next level, right associativity) : prog_scope.
Notation "p ;; q" := (bind p (fun _ => q))
  (at level 61, right associativity) : prog_scope.
Local Open Scope prog_scope.
Bind Scope prog_scope with Prog.

(** ** Running a program in an environment *)

Section Run.

(** The environment: a state of its own and an answer to every call. *)
Variable W : Type.
Variable handler : forall X : Type, Sys X -> W -> X * W.

(** The process: the static of [isFsKeyringSupported] ([None] until its
    first call) and the environment. *)
Record State : Type := {
  supported : option bool;
  world : W
}.

Fixpoint run {A : Type} (p : Prog A) (s : State) : A * list Event * State :=
  match p with
  | Ret a => (a, [], s)
  | Call c k =>
      let '(r, w) := handler c (world s) in
      let '(a, tr, s') := run (k r) {| supported := supported s; world := w |} in
      (a, Ev c r :: tr, s')
  | Log sev m k =>
      let '(a, tr, s') := run k s in (a, Logged sev m :: tr, s')
  | GetStatic k => run (k (supported s)) s
  | SetStatic v k => run k {| supported := Some v; world := world s |}
  end.

Definition result {A : Type} (p : Prog A) (s : State) : A := fst (fst (run p s)).
Definition trace {A : Type} (p : Prog A) (s : State) : list Event := snd (fst (run p s)).
Definition final {A : Type} (p : Prog A) (s : State) : State := snd (run p s).

End Run.

(** ** The source, function by function *)

Definition randomKey (size : nat) (key : KeyBuffer) : Prog (bool * KeyBuffer) :=
  let key := KeyBuffer_new size in
  '(status, bytes) <- call (ReadRandomBytes (length key)) ;;
  let key := overwrite key bytes in
  if negb (status =? 0) then
    LOG ERROR Random_read_failed ;;
    Ret (false, key)
  else Ret (true, key).

Definition generateStorageKey (gen : KeyGeneration) (key : KeyBuffer)
  : Prog (bool * KeyBuffer) :=
  if negb (allow_gen gen) then
    LOG ERROR Generating_storage_key_not_allowed ;;
    Ret (false, key)
  else if use_hw_wrapped_key gen then
    if negb (Nat.eqb (keysize gen) FSCRYPT_MAX_KEY_SIZE) then
      LOG ERROR (Cannot_generate_a_wrapped_key (keysize gen)) ;;
      Ret (false, key)
    else
      LOG DEBUG Generating_wrapped_storage_key ;;
      call (generateWrappedStorageKey key)
  else
    LOG DEBUG Generating_standard_storage_key ;;
    randomKey (keysize gen) key.

Definition isFsKeyringSupportedImpl : Prog bool :=
  fd <- call (open "/data") ;;
  errno <- call (ioctl_ADD_ENCRYPTION_KEY_NULL fd) ;;
  if errno =? ENOTTY then
    LOG INFO Kernel_doesnt_support_ADD_ENCRYPTION_KEY ;;
    Ret false
  else
    (if negb (errno =? EFAULT)
     then LOG WARNING Unexpected_error_from_ADD_ENCRYPTION_KEY
     else Ret tt) ;;
    LOG DEBUG Detected_support_for_ADD_ENCRYPTION_KEY ;;
    Ret true.

(** [static bool supported = isFsKeyringSupportedImpl();]: the probe runs on
    the first call only. *)
Definition isFsKeyringSupported : Prog bool :=
  GetStatic (fun cached =>
    match cached with
    | Some supported => Ret supported
    | None =>
        supported <- isFsKeyringSupportedImpl ;;
        SetStatic supported (Ret supported)
    end).

Definition NAME_PREFIXES : list string := ["ext4"; "f2fs"; "fscrypt"]%string.

Definition hex_digit (n : N) : ascii :=
  nth (N.to_nat n) (list_ascii_of_string "0123456789abcdef") "0"%char.

(** [std::hex << std::setw(2) << std::setfill('0') << (int)i] for every
    byte [i] of the reference. *)
Definition keyrefstring (raw_ref : list byte) : string :=
  fold_right
    (fun i o =>
       String (hex_digit (Byte.to_N i / 16))
         (String (hex_digit (Byte.to_N i mod 16)) o))
    EmptyString raw_ref.

Definition buildLegacyKeyName (prefix : string) (raw_ref : list byte) : string :=
  (prefix ++ ":" ++ keyrefstring raw_ref)%string.

Definition fillKey (key : KeyBuffer) (fs_key : fscrypt_key)
  : Prog (bool * fscrypt_key) :=
  if negb (Nat.eqb (length key) FSCRYPT_MAX_KEY_SIZE) then
    LOG ERROR (Wrong_size_key (length key)) ;;
    Ret (false, fs_key)
  else
    Ret (true, {| mode := 0;
                  raw := memcpy (raw fs_key) key (length key);
                  size := to_u32 (Z.of_nat (length key)) |}).

(** The answer of [keyctl_search] is the serial stored in
    [*device_keyring]. *)
Definition fscryptKeyring : Prog (bool * Z) :=
  device_keyring <- call (keyctl_search KEY_SPEC_SESSION_KEYRING "keyring" "fscrypt") ;;
  if device_keyring =? -1 then
    LOG ERROR Unable_to_find_device_keyring ;;
    Ret (false, device_keyring)
  else Ret (true, device_keyring).

(** The [for] loop of [installKeyLegacy], from [name_prefix] on. *)
Fixpoint installKeyLegacy_loop (name_prefix : list string) (raw_ref : list byte)
  (fs_key : fscrypt_key) (device_keyring : Z) : Prog bool :=
  match name_prefix with
  | [] => Ret true
  | prefix :: name_prefix =>
      let ref := buildLegacyKeyName prefix raw_ref in
      key_id <- call (add_key "logon" ref fs_key device_keyring) ;;
      if key_id =? -1 then
        LOG ERROR (Failed_to_insert_key_into_keyring device_keyring) ;;
        Ret false
      else
        LOG DEBUG (Added_key key_id ref device_keyring) ;;
        installKeyLegacy_loop name_prefix raw_ref fs_key device_keyring
  end.

Definition installKeyLegacy (key : KeyBuffer) (raw_ref : list byte) : Prog bool :=
  '(ok, fs_key) <- fillKey key fscrypt_key_zero ;;
  if negb ok then Ret false else
  '(ok, device_keyring) <- fscryptKeyring ;;
  if negb ok then Ret false else
  installKeyLegacy_loop NAME_PREFIXES raw_ref fs_key device_keyring.

Definition buildKeySpecifier (spec : fscrypt_key_specifier) (policy : EncryptionPolicy)
  : Prog (bool * fscrypt_key_specifier) :=
  let key_raw_ref := fscrypt.key_raw_ref policy in
  let version := fscrypt.version (fscrypt.options policy) in
  if version =? 1 then
    if negb (Nat.eqb (length key_raw_ref) FSCRYPT_KEY_DESCRIPTOR_SIZE) then
      LOG ERROR (Invalid_key_specifier_size_v1 (length key_raw_ref)) ;;
      Ret (false, spec)
    else
      Ret (true, {| spec_type := FSCRYPT_KEY_SPEC_TYPE_DESCRIPTOR;
                    spec_u := memcpy (spec_u spec) key_raw_ref FSCRYPT_KEY_DESCRIPTOR_SIZE |})
  else if version =? 2 then
    if negb (Nat.eqb (length key_raw_ref) FSCRYPT_KEY_IDENTIFIER_SIZE) then
      LOG ERROR (Invalid_key_specifier_size_v2 (length key_raw_ref)) ;;
      Ret (false, spec)
    else
      Ret (true, {| spec_type := FSCRYPT_KEY_SPEC_TYPE_IDENTIFIER;
                    spec_u := memcpy (spec_u spec) key_raw_ref FSCRYPT_KEY_IDENTIFIER_SIZE |})
  else
    LOG ERROR (Invalid_encryption_policy_version version) ;;
    Ret (false, spec).

(** The [for] loop of [evictKeyLegacy], from [name_prefix] on, with the
    current value of [success]. *)
Fixpoint evictKeyLegacy_loop (name_prefix : list string) (raw_ref : list byte)
  (device_keyring : Z) (success : bool) : Prog bool :=
  match name_prefix with
  | [] => Ret success
  | prefix :: name_prefix =>
      let ref := buildLegacyKeyName prefix raw_ref in
      key_serial <- call (keyctl_search device_keyring "logon" ref) ;;
      r <- call (keyctl_unlink key_serial device_keyring) ;;
      if negb (r =? 0) then
        LOG ERROR (Failed_to_unlink_key key_serial ref) ;;
        evictKeyLegacy_loop name_prefix raw_ref device_keyring false
      else
        LOG DEBUG (Unlinked_key key_serial ref) ;;
        evictKeyLegacy_loop name_prefix raw_ref device_keyring success
  end.

Definition evictKeyLegacy (raw_ref : list byte) : Prog bool :=
  '(ok, device_keyring) <- fscryptKeyring ;;
  if negb ok then Ret false else
  evictKeyLegacy_loop NAME_PREFIXES raw_ref device_keyring true.

(** The [while] loop of [waitForBusyFiles].  One unit of [fuel] is one
    evaluation of the loop condition; [None] means the fuel ran out before
    the loop was left. *)
Fixpoint waitForBusyFiles_loop (fuel : nat) (fd : Z)
  (key_spec : fscrypt_key_specifier) (ref mountpoint : string)
  (wait_time total_wait_time : Z) : Prog (option unit) :=
  match fuel with
  | O => Ret None
  | S fuel =>
      if wait_time <=? 51200 then
        let total_wait_time := total_wait_time + wait_time in
        call (sleep_for wait_time) ;;
        '(ret, status) <- call (ioctl_GET_ENCRYPTION_KEY_STATUS fd key_spec) ;;
        if negb (ret =? 0) then
          LOG ERROR (Failed_to_get_status ref mountpoint) ;;
          Ret (Some tt)
        else if negb (status =? FSCRYPT_KEY_STATUS_INCOMPLETELY_REMOVED) then
          LOG DEBUG (Key_status_changed ref) ;;
          Ret (Some tt)
        else
          '(ret, removal_status_flags) <- call (ioctl_REMOVE_ENCRYPTION_KEY fd key_spec) ;;
          if negb (ret =? 0) then
            LOG ERROR (Failed_to_clean_up_busy_files ref mountpoint) ;;
            Ret (Some tt)
          else
            let again :=
              LOG WARNING (Files_still_open_after_waiting total_wait_time ref) ;;
              waitForBusyFiles_loop fuel fd key_spec ref mountpoint
                (wait_time * 2) total_wait_time in
            if negb (Z.land removal_status_flags
                       FSCRYPT_KEY_REMOVAL_STATUS_FLAG_OTHER_USERS =? 0) then
              LOG ERROR (Still_added_by_other_users ref) ;;
              again
            else if Z.land removal_status_flags
                      FSCRYPT_KEY_REMOVAL_STATUS_FLAG_FILES_BUSY =? 0 then
              LOG INFO (Successfully_cleaned_up_busy_files ref total_wait_time) ;;
              Ret (Some tt)
            else again
      else
        LOG ERROR (Waiting_never_completed ref) ;;
        Ret (Some tt)
  end.

(** [fuel] bounds the evaluations of the loop condition; the source has no
    such bound, and [waitForBusyFiles_backoff] shows that six are always
    enough. *)
Definition waitForBusyFiles (fuel : nat) (key_spec : fscrypt_key_specifier)
  (ref mountpoint : string) : Prog (option unit) :=
  fd <- call (open mountpoint) ;;
  if fd =? -1 then
    LOG ERROR (Failed_to_open_to_evict_key mountpoint) ;;
    Ret (Some tt)
  else waitForBusyFiles_loop fuel fd key_spec ref mountpoint 3200 0.

Definition evictKey (mountpoint : string) (policy : EncryptionPolicy) : Prog bool :=
  legacy <- (if fscrypt.version (fscrypt.options policy) =? 1
             then supported <- isFsKeyringSupported ;; Ret (negb supported)
             else Ret false) ;;
  if legacy then evictKeyLegacy (fscrypt.key_raw_ref policy) else
  fd <- call (open mountpoint) ;;
  if fd =? -1 then
    LOG ERROR (Failed_to_open_to_evict_key mountpoint) ;;
    Ret false
  else
  '(ok, key_spec) <- buildKeySpecifier fscrypt_key_specifier_zero policy ;;
  if negb ok then Ret false else
  let ref := keyrefstring (fscrypt.key_raw_ref policy) in
  '(ret, removal_status_flags) <- call (ioctl_REMOVE_ENCRYPTION_KEY fd key_spec) ;;
  if negb (ret =? 0) then
    LOG ERROR (Failed_to_evict_fscrypt_key ref mountpoint) ;;
    Ret false
  else
  LOG DEBUG (Evicted_fscrypt_key ref mountpoint) ;;
  (if negb (Z.land removal_status_flags
              FSCRYPT_KEY_REMOVAL_STATUS_FLAG_OTHER_USERS =? 0) then
     LOG ERROR (Still_added_by_other_users ref)
   else if negb (Z.land removal_status_flags
                   FSCRYPT_KEY_REMOVAL_STATUS_FLAG_FILES_BUSY =? 0) then
     LOG WARNING (Files_still_open_punting ref) ;;
     call (thread_waitForBusyFiles key_spec ref mountpoint)
   else Ret tt) ;;
  Ret true.

Definition retrieveOrGenerateKey (key_path tmp_path : string)
  (key_authentication : KeyAuthentication) (gen : KeyGeneration) (key : KeyBuffer)
  : Prog (bool * KeyBuffer) :=
  exists_ <- call (pathExists key_path) ;;
  if (exists_ : bool) then
    LOG DEBUG (Key_exists_using key_path) ;;
    '(ok, key) <- call (retrieveKey key_path key_authentication key) ;;
    if negb ok then Ret (false, key) else Ret (true, key)
  else
    if negb (allow_gen gen) then
      LOG ERROR (No_key_found_in key_path) ;;
      Ret (false, key)
    else
      LOG INFO (Creating_new_key_in key_path) ;;
      '(ok, key) <- generateStorageKey gen key ;;
      if negb ok then Ret (false, key) else
      ok <- call (storeKeyAtomically key_path tmp_path key_authentication key) ;;
      if negb ok then Ret (false, key) else
      Ret (true, key).

Section Hash.

(** [SHA512_Init], [SHA512_Update] on one message, [SHA512_Final]. *)
Variable SHA512 : list byte -> list byte.

(** The digest arrays [key_ref1] and [key_ref2] hold [SHA512_DIGEST_LENGTH]
    bytes; [length] is the [int] parameter, which [SHA512_Update] takes as a
    [size_t].  A negative [length] would make the source read past the key;
    the properties below are about lengths that fit an [int]. *)
Definition generateKeyRef (key : list byte) (length : Z) : list byte :=
  let key_ref1 := SHA512 (firstn (Z.to_nat length) key) in
  let key_ref2 := SHA512 (firstn SHA512_DIGEST_LENGTH key_ref1) in
  firstn FSCRYPT_KEY_DESCRIPTOR_SIZE key_ref2.

(** The part of [installKey] after the [switch]: fill in the argument, open
    the mountpoint, add the key. *)
Definition installKey_ioctl (mountpoint : string) (options : EncryptionOptions)
  (key : KeyBuffer) (arg : fscrypt_add_key_arg) (policy : EncryptionPolicy)
  : Prog (bool * EncryptionPolicy) :=
  let arg :=
    if fscrypt.use_hw_wrapped_key options
    then {| key_spec := key_spec arg; raw_size := raw_size arg;
            __flags := Z.lor (__flags arg) __FSCRYPT_ADD_KEY_FLAG_HW_WRAPPED;
            arg_raw := arg_raw arg |}
    else arg in
  let arg :=
    {| key_spec := key_spec arg;
       raw_size := to_u32 (Z.of_nat (length key));
       __flags := __flags arg;
       arg_raw := memcpy (arg_raw arg) key (length key) |} in
  fd <- call (open mountpoint) ;;
  if fd =? -1 then
    LOG ERROR (Failed_to_open_to_install_key mountpoint) ;;
    Ret (false, policy)
  else
  '(ret, identifier) <- call (ioctl_ADD_ENCRYPTION_KEY fd arg) ;;
  if negb (ret =? 0) then
    LOG ERROR (Failed_to_install_fscrypt_key mountpoint) ;;
    Ret (false, policy)
  else
  let policy :=
    if spec_type (key_spec arg) =? FSCRYPT_KEY_SPEC_TYPE_IDENTIFIER then
      let u := memcpy (spec_u (key_spec arg)) identifier FSCRYPT_KEY_IDENTIFIER_SIZE in
      {| fscrypt.options := fscrypt.options policy;
         fscrypt.key_raw_ref := firstn FSCRYPT_KEY_IDENTIFIER_SIZE u |}
    else policy in
  LOG DEBUG (Installed_fscrypt_key (keyrefstring (fscrypt.key_raw_ref policy)) mountpoint) ;;
  Ret (true, policy).

Definition installKey (mountpoint : string) (options : EncryptionOptions)
  (key : KeyBuffer) (policy : EncryptionPolicy) : Prog (bool * EncryptionPolicy) :=
  let policy := {| fscrypt.options := options;
                   fscrypt.key_raw_ref := fscrypt.key_raw_ref policy |} in
  let arg := {| key_spec := fscrypt_key_specifier_zero; raw_size := 0; __flags := 0;
                arg_raw := repeat x00 (length key) |} in
  if fscrypt.version options =? 1 then
    let policy :=
      {| fscrypt.options := fscrypt.options policy;
         fscrypt.key_raw_ref :=
           if fscrypt.use_hw_wrapped_key options
           then generateKeyRef key (to_int (Z.of_nat (length key / 2)))
           else generateKeyRef key (to_int (Z.of_nat (length key))) |} in
    supported <- isFsKeyringSupported ;;
    if negb supported then
      ok <- installKeyLegacy key (fscrypt.key_raw_ref policy) ;;
      Ret (ok, policy)
    else
    '(ok, spec) <- buildKeySpecifier (key_spec arg) policy ;;
    if negb ok then Ret (false, policy) else
    let arg := {| key_spec := spec; raw_size := raw_size arg; __flags := __flags arg;
                  arg_raw := arg_raw arg |} in
    installKey_ioctl mountpoint options key arg policy
  else if fscrypt.version options =? 2 then
    let arg := {| key_spec := {| spec_type := FSCRYPT_KEY_SPEC_TYPE_IDENTIFIER;
                                 spec_u := spec_u (key_spec arg) |};
                  raw_size := raw_size arg; __flags := __flags arg;
                  arg_raw := arg_raw arg |} in
    installKey_ioctl mountpoint options key arg policy
  else
    LOG ERROR (Invalid_encryption_policy_version (fscrypt.version options)) ;;
    Ret (false, policy).

End Hash.

(** ** Reading a trace

    Each reading takes from every event what it is about, and nothing from
    the others. *)

Definition sleep_of (e : Event) : list Z :=
  match e with
  | Ev c _ => match c with sleep_for t => [t] | _ => [] end
  | Logged _ _ => []
  end.

Definition insertion_of (e : Event) : list (string * Z) :=
  match e with
  | @Ev X c r =>
      match c in Sys X return X -> list (string * Z) with
      | add_key _ description _ _ => fun key_id => [(description, key_id)]
      | _ => fun _ => []
      end r
  | Logged _ _ => []
  end.

Definition search_of (e : Event) : list (string * Z) :=
  match e with
  | @Ev X c r =>
      match c in Sys X return X -> list (string * Z) with
      | keyctl_search _ _ description => fun serial => [(description, serial)]
      | _ => fun _ => []
      end r
  | Logged _ _ => []
  end.

Definition unlink_of (e : Event) : list (Z * Z) :=
  match e with
  | @Ev X c r =>
      match c in Sys X return X -> list (Z * Z) with
      | keyctl_unlink id _ => fun ret => [(id, ret)]
      | _ => fun _ => []
      end r
  | Logged _ _ => []
  end.

Definition removal_of (e : Event) : list (fscrypt_key_specifier * (Z * Z)) :=
  match e with
  | @Ev X c r =>
      match c in Sys X return X -> list (fscrypt_key_specifier * (Z * Z)) with
      | ioctl_REMOVE_ENCRYPTION_KEY _ key_spec => fun ans => [(key_spec, ans)]
      | _ => fun _ => []
      end r
  | Logged _ _ => []
  end.

Definition reaper_of (e : Event) : list (fscrypt_key_specifier * string * string) :=
  match e with
  | Ev c _ =>
      match c with
      | thread_waitForBusyFiles key_spec ref mountpoint => [(key_spec, ref, mountpoint)]
      | _ => []
      end
  | Logged _ _ => []
  end.

Definition log_of (e : Event) : list (Severity * LogMsg) :=
  match e with
  | Ev _ _ => []
  | Logged s m => [(s, m)]
  end.

(** The delays handed to [sleep_for], in order. *)
Definition sleeps (tr : list Event) : list Z := flat_map sleep_of tr.

(** The descriptions handed to [add_key], each with its answer. *)
Definition insertions (tr : list Event) : list (string * Z) := flat_map insertion_of tr.

(** The descriptions searched for in a keyring, each with its answer. *)
Definition searches (tr : list Event) : list (string * Z) := flat_map search_of tr.

(** The serials handed to [keyctl_unlink], each with its answer. *)
Definition unlinks (tr : list Event) : list (Z * Z) := flat_map unlink_of tr.

(** The specifiers handed to the remove-key ioctl, each with the value
    returned and the flags. *)
Definition removals (tr : list Event) : list (fscrypt_key_specifier * (Z * Z)) :=
  flat_map removal_of tr.

(** The reapers started. *)
Definition reapers (tr : list Event) : list (fscrypt_key_specifier * string * string) :=
  flat_map reaper_of tr.

(** The diagnostics, without the calls. *)
Definition logged (tr : list Event) : list (Severity * LogMsg) := flat_map log_of tr.

Definition call_of (e : Event) : list Event :=
  match e with
  | Ev _ _ => [e]
  | Logged _ _ => []
  end.

(** The calls, without the diagnostics. *)
Definition calls (tr : list Event) : list Event := flat_map call_of tr.

(** Is the call one that generates a key: the hardware collaborator, the
    random source? *)
Definition is_generation_call (e : Event) : bool :=
  match e with
  | Ev c _ =>
      match c with
      | generateWrappedStorageKey _ | ReadRandomBytes _ => true
      | _ => false
      end
  | Logged _ _ => false
  end.

(** Is the call one of libkeyutils? *)
Definition is_keyring_call (e : Event) : bool :=
  match e with
  | Ev c _ =>
      match c with
      | keyctl_search _ _ _ | add_key _ _ _ _ | keyctl_unlink _ _ => true
      | _ => false
      end
  | Logged _ _ => false
  end.

(** The keyring entries of a key: one name per filesystem type. *)
Definition aliases (raw_ref : list byte) : list string :=
  map (fun prefix => buildLegacyKeyName prefix raw_ref) NAME_PREFIXES.

(** The payload [installKeyLegacy] inserts under every alias. *)
Definition legacy_payload (key : KeyBuffer) : fscrypt_key :=
  {| mode := 0;
     raw := memcpy (raw fscrypt_key_zero) key (length key);
     size := to_u32 (Z.of_nat (length key)) |}.

(** An insertion that [add_key] accepted; an unlink that succeeded. *)
Definition inserted (i : string * Z) : Prop := snd i <> -1.
Definition unlinked (u : Z * Z) : Prop := snd u = 0.

(** The two flags [evictKey] and the reaper test in
    [removal_status_flags]. *)
Definition other_users (removal_status_flags : Z) : bool :=
  negb (Z.land removal_status_flags FSCRYPT_KEY_REMOVAL_STATUS_FLAG_OTHER_USERS =? 0).

Definition files_busy (removal_status_flags : Z) : bool :=
  negb (Z.land removal_status_flags FSCRYPT_KEY_REMOVAL_STATUS_FLAG_FILES_BUSY =? 0).

(** The outcomes of a removal the kernel accepted, as [evictKey] tells them
    apart: it tests the other-users flag first. *)
Inductive Removal : Type :=
| Fully_removed
| Still_used_by_others
| Blocked_by_open_files.

Definition removal_outcome (removal_status_flags : Z) : Removal :=
  if other_users removal_status_flags then Still_used_by_others
  else if files_busy removal_status_flags then Blocked_by_open_files
  else Fully_removed.

(** The argument [installKey] hands to the add-key ioctl, from the argument
    the [switch] left: the hardware-wrapped flag, the size and the bytes of
    the key. *)
Definition add_key_arg_filled (options : EncryptionOptions) (key : KeyBuffer)
  (arg : fscrypt_add_key_arg) : fscrypt_add_key_arg :=
  {| key_spec := key_spec arg;
     raw_size := to_u32 (Z.of_nat (length key));
     __flags := if fscrypt.use_hw_wrapped_key options
                then Z.lor (__flags arg) __FSCRYPT_ADD_KEY_FLAG_HW_WRAPPED
                else __flags arg;
     arg_raw := memcpy (arg_raw arg) key (length key) |}.

(** The delays of the reaper, in the order they are used. *)
Definition backoff : list Z := [3200; 6400; 12800; 25600; 51200].

(** What the reaper does, call by call. *)
Inductive Step : Type :=
| Opened
| Slept (wait_time : Z)
| Checked
| Retried
| Other.

Definition step_of (e : Event) : list Step :=
  match e with
  | Ev c _ =>
      match c with
      | open _ => [Opened]
      | sleep_for t => [Slept t]
      | ioctl_GET_ENCRYPTION_KEY_STATUS _ _ => [Checked]
      | ioctl_REMOVE_ENCRYPTION_KEY _ _ => [Retried]
      | _ => [Other]
      end
  | Logged _ _ => []
  end.

Definition steps (tr : list Event) : list Step := flat_map step_of tr.

(** One attempt: sleep, ask for the status of the key, remove it again. *)
Definition attempt (wait_time : Z) : list Step := [Slept wait_time; Checked; Retried].

(** The longest run of the reaper: the mountpoint is opened, then one
    attempt is made per delay. *)
Definition schedule : list Step := Opened :: flat_map attempt backoff.

(** [n] delays from [wait_time] on, each twice the one before. *)
Fixpoint doubling (n : nat) (wait_time : Z) : list Z :=
  match n with
  | O => []
  | S n => wait_time :: doubling n (wait_time * 2)
  end.

Definition slept_of (st : Step) : list Z :=
  match st with
  | Slept t => [t]
  | _ => []
  end.

(** ** An environment to run examples in

    A small kernel and key store, configured by a record. *)
Record Toy : Type := {
  toy_errno : Z;                        (* errno after the probing ioctl *)
  toy_fd : Z;                           (* what open answers *)
  toy_add_ret : Z;                      (* what the add-key ioctl returns *)
  toy_device_keyring : Z;               (* serial of the fscrypt keyring *)
  toy_refused : list string;            (* descriptions add_key refuses *)
  toy_keys : list string;               (* descriptions in the keyring *)
  toy_remove_flags : list Z;            (* flags of the coming removals *)
  toy_files : list (string * KeyBuffer);(* the key store *)
  toy_wrapped : option KeyBuffer;       (* the blob the hardware makes *)
  toy_random_status : Z                 (* status of the random source *)
}.

Definition toy_lookup (path : string) (files : list (string * KeyBuffer))
  : option KeyBuffer :=
  option_map snd (find (fun f => String.eqb (fst f) path) files).

Definition toy_mem (description : string) (l : list string) : bool :=
  existsb (String.eqb description) l.

Definition toy_handler (X : Type) (c : Sys X) (w : Toy) : X * Toy :=
  match c in Sys X return X * Toy with
  | ReadRandomBytes n => ((toy_random_status w, repeat x2a n), w)
  | generateWrappedStorageKey key =>
      match toy_wrapped w with
      | Some blob => ((true, blob), w)
      | None => ((false, key), w)
      end
  | retrieveKey key_path _ key =>
      match toy_lookup key_path (toy_files w) with
      | Some stored => ((true, stored), w)
      | None => ((false, key), w)
      end
  | storeKeyAtomically key_path _ _ key =>
      (true,
       {| toy_errno := toy_errno w; toy_fd := toy_fd w; toy_add_ret := toy_add_ret w;
          toy_device_keyring := toy_device_keyring w; toy_refused := toy_refused w;
          toy_keys := toy_keys w; toy_remove_flags := toy_remove_flags w;
          toy_files := (key_path, key) :: toy_files w;
          toy_wrapped := toy_wrapped w;
          toy_random_status := toy_random_status w |})
  | pathExists path =>
      (match toy_lookup path (toy_files w) with Some _ => true | None => false end, w)
  | open _ => (toy_fd w, w)
  | ioctl_ADD_ENCRYPTION_KEY_NULL _ => (toy_errno w, w)
  | ioctl_ADD_ENCRYPTION_KEY _ arg =>
      ((toy_add_ret w, firstn FSCRYPT_KEY_IDENTIFIER_SIZE (rev (arg_raw arg))), w)
  | ioctl_REMOVE_ENCRYPTION_KEY _ _ =>
      ((0, hd 0 (toy_remove_flags w)),
       {| toy_errno := toy_errno w; toy_fd := toy_fd w; toy_add_ret := toy_add_ret w;
          toy_device_keyring := toy_device_keyring w; toy_refused := toy_refused w;
          toy_keys := toy_keys w; toy_remove_flags := tl (toy_remove_flags w);
          toy_files := toy_files w; toy_wrapped := toy_wrapped w;
          toy_random_status := toy_random_status w |})
  | ioctl_GET_ENCRYPTION_KEY_STATUS _ _ =>
      ((0, match toy_remove_flags w with
           | [] => 1
           | _ :: _ => FSCRYPT_KEY_STATUS_INCOMPLETELY_REMOVED
           end), w)
  | keyctl_search _ type description =>
      (if String.eqb type "keyring" then toy_device_keyring w
       else if toy_mem description (toy_keys w) then 1000 + Z.of_nat (String.length description)
       else -1, w)
  | add_key _ description _ _ =>
      if toy_mem description (toy_refused w) then (-1, w)
      else
        (1000 + Z.of_nat (String.length description),
         {| toy_errno := toy_errno w; toy_fd := toy_fd w; toy_add_ret := toy_add_ret w;
            toy_device_keyring := toy_device_keyring w; toy_refused := toy_refused w;
            toy_keys := description :: toy_keys w;
            toy_remove_flags := toy_remove_flags w;
            toy_files := toy_files w; toy_wrapped := toy_wrapped w;
            toy_random_status := toy_random_status w |})
  | keyctl_unlink id _ => (if id =? -1 then -1 else 0, w)
  | sleep_for _ => (tt, w)
  | thread_waitForBusyFiles _ _ _ => (tt, w)
  end.

(** A kernel with the key-management ioctls, and one without them; both with
    an empty keyring and an empty key store. *)
Definition toy_modern : Toy :=
  {| toy_errno := EFAULT; toy_fd := 3; toy_add_ret := 0; toy_device_keyring := 77;
     toy_refused := []; toy_keys := []; toy_remove_flags := []; toy_files := [];
     toy_wrapped := Some (repeat x5a FSCRYPT_MAX_KEY_SIZE); toy_random_status := 0 |}.

Definition toy_legacy : Toy :=
  {| toy_errno := ENOTTY; toy_fd := 3; toy_add_ret := 0; toy_device_keyring := 77;
     toy_refused := []; toy_keys := []; toy_remove_flags := []; toy_files := [];
     toy_wrapped := Some (repeat x5a FSCRYPT_MAX_KEY_SIZE); toy_random_status := 0 |}.

(** A kernel under which the files of a key stay open for the ten removals
    to come. *)
Definition toy_busy : Toy :=
  {| toy_errno := EFAULT; toy_fd := 3; toy_add_ret := 0; toy_device_keyring := 77;
     toy_refused := []; toy_keys := [];
     toy_remove_flags := repeat FSCRYPT_KEY_REMOVAL_STATUS_FLAG_FILES_BUSY 10;
     toy_files := [];
     toy_wrapped := Some (repeat x5a FSCRYPT_MAX_KEY_SIZE); toy_random_status := 0 |}.

(** A kernel under which no directory can be opened, and one that refuses
    every key. *)
Definition toy_closed : Toy :=
  {| toy_errno := EFAULT; toy_fd := -1; toy_add_ret := 0; toy_device_keyring := 77;
     toy_refused := []; toy_keys := []; toy_remove_flags := []; toy_files := [];
     toy_wrapped := Some (repeat x5a FSCRYPT_MAX_KEY_SIZE); toy_random_status := 0 |}.

Definition toy_refusing : Toy :=
  {| toy_errno := EFAULT; toy_fd := 3; toy_add_ret := -1; toy_device_keyring := 77;
     toy_refused := []; toy_keys := []; toy_remove_flags := []; toy_files := [];
     toy_wrapped := Some (repeat x5a FSCRYPT_MAX_KEY_SIZE); toy_random_status := 0 |}.

(** A kernel with the ioctls whose next removal answers with the given
    flags. *)
Definition toy_flags (removal_status_flags : Z) : Toy :=
  {| toy_errno := EFAULT; toy_fd := 3; toy_add_ret := 0; toy_device_keyring := 77;
     toy_refused := []; toy_keys := []; toy_remove_flags := [removal_status_flags];
     toy_files := [];
     toy_wrapped := Some (repeat x5a FSCRYPT_MAX_KEY_SIZE); toy_random_status := 0 |}.

(** A kernel with the ioctls whose next two removals answer with the given
    flags. *)
Definition toy_flags_twice (removal_status_flags : Z) : Toy :=
  {| toy_errno := EFAULT; toy_fd := 3; toy_add_ret := 0; toy_device_keyring := 77;
     toy_refused := []; toy_keys := [];
     toy_remove_flags := [removal_status_flags; removal_status_flags];
     toy_files := [];
     toy_wrapped := Some (repeat x5a FSCRYPT_MAX_KEY_SIZE); toy_random_status := 0 |}.


Definition toy_refusing_f2fs : Toy :=
  {| toy_errno := ENOTTY; toy_fd := 3; toy_add_ret := 0; toy_device_keyring := 77;
     toy_refused := ["f2fs:0101010101010101"%string]; toy_keys := [];
     toy_remove_flags := []; toy_files := [];
     toy_wrapped := Some (repeat x5a FSCRYPT_MAX_KEY_SIZE); toy_random_status := 0 |}.


(** Hardware whose wrapped blob is 32 bytes long. *)
Definition toy_short_blob : Toy :=
  {| toy_errno := EFAULT; toy_fd := 3; toy_add_ret := 0; toy_device_keyring := 77;
     toy_refused := []; toy_keys := []; toy_remove_flags := []; toy_files := [];
     toy_wrapped := Some (repeat x5a 32); toy_random_status := 0 |}.

(** Options of a given version, for a plain or a hardware-wrapped key. *)
Definition toy_options (version : Z) (wrapped : bool) : EncryptionOptions :=
  {| fscrypt.version := version; fscrypt.contents_mode := 1;
     fscrypt.filenames_mode := 4; fscrypt.flags := 0;
     fscrypt.use_hw_wrapped_key := wrapped |}.

(** The policy a caller holds before [installKey] fills it in. *)
Definition toy_blank_policy : EncryptionPolicy :=
  {| fscrypt.options := toy_options 0 false; fscrypt.key_raw_ref := [] |}.

(** A process that has not yet probed the kernel. *)
Definition boot (w : Toy) : State Toy := {| supported := None; world := w |}.

(** A version-1 policy with the reference 01 01 01 01 01 01 01 01. *)
Definition toy_policy_v1 : EncryptionPolicy :=
  {| fscrypt.options := toy_options 1 false; fscrypt.key_raw_ref := repeat x01 8 |}.

(** A request for a hardware-wrapped key of the fixed maximum size. *)
Definition toy_wrapped_request : KeyGeneration :=
  {| keysize := FSCRYPT_MAX_KEY_SIZE; allow_gen := true; use_hw_wrapped_key := true |}.

(** A request for a hardware-wrapped key of 32 bytes, which is not the
    fixed maximum size. *)
Definition toy_short_request : KeyGeneration :=
  {| keysize := 32; allow_gen := true; use_hw_wrapped_key := true |}.

(** A stand-in for SHA-512 in examples: a rolling checksum of the message,
    spread over the digest length. *)
Definition toy_SHA512 (m : list byte) : list byte :=
  let sum := fold_left (fun acc b => (acc * 31 + Byte.to_N b + 1) mod 251)%N m 0%N in
  map (fun i => match Byte.of_N ((sum + N.of_nat i) mod 256) with
                | Some b => b
                | None => x00
                end)
      (seq 0 SHA512_DIGEST_LENGTH).

(** ** Runs, spelled out

    What the longer functions do, as a function of the answers they get;
    the lemmas [run_evictKey] and [run_installKey] below show that this is
    how the programs above run. *)

Section Descriptions.

Variable W : Type.
Variable handler : forall X : Type, Sys X -> W -> X * W.
Variable SHA512 : list byte -> list byte.

(** What [evictKey] does once the legacy path is ruled out, from the state
    [s1] in which it opens the mountpoint. *)
Definition evict_modern_run (mountpoint : string) (policy : EncryptionPolicy)
  (s1 : State W) : bool * list Event * State W :=
  let ref := keyrefstring (fscrypt.key_raw_ref policy) in
  let '(fd, w1) := handler (open mountpoint) (world s1) in
  let s1' := {| supported := supported s1; world := w1 |} in
  if fd =? -1 then
    (false, [Ev (open mountpoint) fd; Logged ERROR (Failed_to_open_to_evict_key mountpoint)],
     s1')
  else
    let '((ok, key_spec), built, _) :=
      run handler (buildKeySpecifier fscrypt_key_specifier_zero policy) s1' in
    if negb ok then (false, Ev (open mountpoint) fd :: built, s1') else
    let remove := ioctl_REMOVE_ENCRYPTION_KEY fd key_spec in
    let '((ret, removal_status_flags), w2) := handler remove w1 in
    let s2 := {| supported := supported s1; world := w2 |} in
    let removed := [Ev (open mountpoint) fd; Ev remove (ret, removal_status_flags)] in
    if negb (ret =? 0) then
      (false, removed ++ [Logged ERROR (Failed_to_evict_fscrypt_key ref mountpoint)], s2)
    else
      let evicted := removed ++ [Logged DEBUG (Evicted_fscrypt_key ref mountpoint)] in
      match removal_outcome removal_status_flags with
      | Still_used_by_others =>
          (true, evicted ++ [Logged ERROR (Still_added_by_other_users ref)], s2)
      | Blocked_by_open_files =>
          let reaper := thread_waitForBusyFiles key_spec ref mountpoint in
          let '(u, w3) := handler reaper w2 in
          (true, evicted ++ [Logged WARNING (Files_still_open_punting ref); Ev reaper u],
           {| supported := supported s1; world := w3 |})
      | Fully_removed => (true, evicted, s2)
      end.

(** The reference [installKey] computes for a version-1 policy. *)
Definition derived_ref (options : EncryptionOptions) (key : KeyBuffer) : list byte :=
  if fscrypt.use_hw_wrapped_key options
  then generateKeyRef SHA512 key (to_int (Z.of_nat (length key / 2)))
  else generateKeyRef SHA512 key (to_int (Z.of_nat (length key))).

(** What the part of [installKey] after the [switch] does. *)
Definition install_ioctl_run (mountpoint : string) (options : EncryptionOptions)
  (key : KeyBuffer) (arg : fscrypt_add_key_arg) (policy : EncryptionPolicy)
  (s : State W) : bool * EncryptionPolicy * list Event * State W :=
  let arg := add_key_arg_filled options key arg in
  let '(fd, w1) := handler (open mountpoint) (world s) in
  if fd =? -1 then
    ((false, policy),
     [Ev (open mountpoint) fd; Logged ERROR (Failed_to_open_to_install_key mountpoint)],
     {| supported := supported s; world := w1 |})
  else
    let add := ioctl_ADD_ENCRYPTION_KEY fd arg in
    let '((ret, identifier), w2) := handler add w1 in
    let s2 := {| supported := supported s; world := w2 |} in
    if negb (ret =? 0) then
      ((false, policy),
       [Ev (open mountpoint) fd; Ev add (ret, identifier);
        Logged ERROR (Failed_to_install_fscrypt_key mountpoint)], s2)
    else
      let policy' :=
        if spec_type (key_spec arg) =? FSCRYPT_KEY_SPEC_TYPE_IDENTIFIER then
          {| fscrypt.options := fscrypt.options policy;
             fscrypt.key_raw_ref :=
               firstn FSCRYPT_KEY_IDENTIFIER_SIZE
                 (memcpy (spec_u (key_spec arg)) identifier FSCRYPT_KEY_IDENTIFIER_SIZE) |}
        else policy in
      ((true, policy'),
       [Ev (open mountpoint) fd; Ev add (ret, identifier);
        Logged DEBUG
          (Installed_fscrypt_key (keyrefstring (fscrypt.key_raw_ref policy')) mountpoint)],
       s2).

(** The argument after the [switch], for a version-1 policy whose specifier
    was built, and for a version-2 policy. *)
Definition add_key_arg_v1 (key : KeyBuffer) (spec : fscrypt_key_specifier)
  : fscrypt_add_key_arg :=
  {| key_spec := spec; raw_size := 0; __flags := 0; arg_raw := repeat x00 (length key) |}.

Definition add_key_arg_v2 (key : KeyBuffer) : fscrypt_add_key_arg :=
  add_key_arg_v1 key
    {| spec_type := FSCRYPT_KEY_SPEC_TYPE_IDENTIFIER;
       spec_u := spec_u fscrypt_key_specifier_zero |}.

End Descriptions.

(** ** Further readings

    What else the properties of the second part read off a trace, and the
    inverse of [keyrefstring]. *)

(** The directories opened, each with the descriptor answered. *)
Definition opening_of (e : Event) : list (string * Z) :=
  match e with
  | @Ev X c r =>
      match c in Sys X return X -> list (string * Z) with
      | open path => fun fd => [(path, fd)]
      | _ => fun _ => []
      end r
  | Logged _ _ => []
  end.

Definition openings (tr : list Event) : list (string * Z) := flat_map opening_of tr.

(** The arguments handed to the add-key ioctl, each with the descriptor it
    was issued on. *)
Definition addition_of (e : Event) : list (Z * fscrypt_add_key_arg) :=
  match e with
  | Ev c _ =>
      match c with
      | ioctl_ADD_ENCRYPTION_KEY fd arg => [(fd, arg)]
      | _ => []
      end
  | Logged _ _ => []
  end.

Definition additions (tr : list Event) : list (Z * fscrypt_add_key_arg) :=
  flat_map addition_of tr.

(** The keyring entries handed to [add_key]: type, payload and keyring. *)
Definition entry_of (e : Event) : list (string * fscrypt_key * Z) :=
  match e with
  | Ev c _ =>
      match c with
      | add_key type _ payload ringid => [(type, payload, ringid)]
      | _ => []
      end
  | Logged _ _ => []
  end.

Definition entries (tr : list Event) : list (string * fscrypt_key * Z) :=
  flat_map entry_of tr.

(** The probes of the kernel: the descriptors the add-key ioctl was issued
    on with a null argument. *)
Definition probe_of (e : Event) : list Z :=
  match e with
  | Ev c _ =>
      match c with
      | ioctl_ADD_ENCRYPTION_KEY_NULL fd => [fd]
      | _ => []
      end
  | Logged _ _ => []
  end.

Definition probes (tr : list Event) : list Z := flat_map probe_of tr.

(** Does every remove-key ioctl of the trace come right after a status
    query that succeeded and reported the key incompletely removed?
    [checked] tells whether the call before was such a query. *)
Fixpoint removals_guarded (checked : bool) (tr : list Event) : bool :=
  match tr with
  | [] => true
  | Logged _ _ :: tr => removals_guarded checked tr
  | @Ev X c r :: tr =>
      match c in Sys X return X -> bool with
      | ioctl_GET_ENCRYPTION_KEY_STATUS _ _ =>
          fun ans =>
            removals_guarded
              ((fst ans =? 0) && (snd ans =? FSCRYPT_KEY_STATUS_INCOMPLETELY_REMOVED))
              tr
      | ioctl_REMOVE_ENCRYPTION_KEY _ _ => fun _ => checked && removals_guarded false tr
      | _ => fun _ => removals_guarded false tr
      end r
  end.

(** The sum of the delays slept. *)
Definition total_sleep (tr : list Event) : Z := fold_right Z.add 0 (sleeps tr).

(** The value of a hexadecimal digit as [keyrefstring] writes it. *)
Definition hex_value (c : ascii) : option N :=
  let n := N_of_ascii c in
  if ((48 <=? n) && (n <=? 57))%N then Some (n - 48)%N
  else if ((97 <=? n) && (n <=? 102))%N then Some (n - 87)%N
  else None.

Definition is_hex_digit (c : ascii) : bool :=
  match hex_value c with
  | Some _ => true
  | None => false
  end.

(** Reading a reference back from its hexadecimal form. *)
Fixpoint keyref_of_string (ref : string) : option (list byte) :=
  match ref with
  | EmptyString => Some []
  | String hi (String lo ref) =>
      match hex_value hi, hex_value lo, keyref_of_string ref with
      | Some h, Some l, Some raw_ref =>
          option_map (fun i => i :: raw_ref) (Byte.of_N (h * 16 + l))
      | _, _, _ => None
      end
  | String _ EmptyString => None
  end.

(** Does a program leave the static of [isFsKeyringSupported] as it is,
    whatever the environment answers? *)
Fixpoint static_free {A : Type} (p : Prog A) : Prop :=
  match p with
  | Ret _ => True
  | Call _ k => forall r, static_free (k r)
  | Log _ _ k => static_free k
  | GetStatic k => forall v, static_free (k v)
  | SetStatic _ _ => False
  end.

(** Does every call and diagnostic of a program satisfy [P], whatever the
    environment answers? *)
Fixpoint every_event {A : Type} (P : Event -> Prop) (p : Prog A) : Prop :=
  match p with
  | Ret _ => True
  | Call c k => forall r, P (Ev c r) /\ every_event P (k r)
  | Log s m k => P (Logged s m) /\ every_event P k
  | GetStatic k => forall v, every_event P (k v)
  | SetStatic _ k => every_event P k
  end.

(** Is the call one to the filesystem (opening a directory, a
    key-management ioctl, starting the reaper); is it one to the key store
    or the random source? *)
Definition is_filesystem_call (e : Event) : bool :=
  match e with
  | Ev c _ =>
      match c with
      | open _ | ioctl_ADD_ENCRYPTION_KEY_NULL _ | ioctl_ADD_ENCRYPTION_KEY _ _
      | ioctl_REMOVE_ENCRYPTION_KEY _ _ | ioctl_GET_ENCRYPTION_KEY_STATUS _ _
      | thread_waitForBusyFiles _ _ _ => true
      | _ => false
      end
  | Logged _ _ => false
  end.

Definition is_storage_call (e : Event) : bool :=
  match e with
  | Ev c _ =>
      match c with
      | ReadRandomBytes _ | generateWrappedStorageKey _ | retrieveKey _ _ _
      | storeKeyAtomically _ _ _ _ | pathExists _ => true
      | _ => false
      end
  | Logged _ _ => false
  end.

(** Neither the kernel nor the keyring: what the storage functions keep
    to. *)
Definition storage_only (e : Event) : Prop :=
  is_keyring_call e = false /\ is_filesystem_call e = false /\ sleep_of e = [].

(** Neither the filesystem nor the key store: what the keyring functions
    keep to. *)
Definition keyring_only (e : Event) : Prop :=
  is_filesystem_call e = false /\ is_storage_call e = false /\ sleep_of e = [].

(** The answers to the status queries: the value returned and the status
    of the key. *)
Definition status_of (e : Event) : list (Z * Z) :=
  match e with
  | @Ev X c r =>
      match c in Sys X return X -> list (Z * Z) with
      | ioctl_GET_ENCRYPTION_KEY_STATUS _ _ => fun ans => [ans]
      | _ => fun _ => []
      end r
  | Logged _ _ => []
  end.

Definition statuses (tr : list Event) : list (Z * Z) := flat_map status_of tr.

(** A status query after which the reaper goes on to remove the key: it
    succeeded and found the key incompletely removed. *)
Definition still_incomplete (ans : Z * Z) : bool :=
  (fst ans =? 0) && (snd ans =? FSCRYPT_KEY_STATUS_INCOMPLETELY_REMOVED).

(** A removal after which the reaper goes on to the next delay: it
    succeeded and the key is still used by others or by open files. *)
Definition stays_busy (removed : fscrypt_key_specifier * (Z * Z)) : bool :=
  (fst (snd removed) =? 0)
  && (other_users (snd (snd removed)) || files_busy (snd (snd removed))).

Section Reaper.

Variable W : Type.
Variable handler : forall X : Type, Sys X -> W -> X * W.

(** The reaper as a walk through a list of delays, one attempt per delay:
    sleep, ask for the status of the key, remove it again; the walk ends
    with the first attempt that fails, finds the status changed or finds
    the key cleaned up, and with the list.  [total_wait_time] is the time
    waited before. *)
Fixpoint reaper_attempts (delays : list Z) (fd : Z) (key_spec : fscrypt_key_specifier)
  (ref mountpoint : string) (total_wait_time : Z) (s : State W)
  : list Event * State W :=
  match delays with
  | [] => ([Logged ERROR (Waiting_never_completed ref)], s)
  | wait_time :: delays =>
      let total := total_wait_time + wait_time in
      let get := ioctl_GET_ENCRYPTION_KEY_STATUS fd key_spec in
      let remove := ioctl_REMOVE_ENCRYPTION_KEY fd key_spec in
      let '(u, w1) := handler (sleep_for wait_time) (world s) in
      let '((ret, status), w2) := handler get w1 in
      let s2 := {| supported := supported s; world := w2 |} in
      let checked := [Ev (sleep_for wait_time) u; Ev get (ret, status)] in
      if negb (ret =? 0) then
        (checked ++ [Logged ERROR (Failed_to_get_status ref mountpoint)], s2)
      else if negb (status =? FSCRYPT_KEY_STATUS_INCOMPLETELY_REMOVED) then
        (checked ++ [Logged DEBUG (Key_status_changed ref)], s2)
      else
        let '((ret', removal_status_flags), w3) := handler remove w2 in
        let s3 := {| supported := supported s; world := w3 |} in
        let retried := checked ++ [Ev remove (ret', removal_status_flags)] in
        if negb (ret' =? 0) then
          (retried ++ [Logged ERROR (Failed_to_clean_up_busy_files ref mountpoint)], s3)
        else
          let '(tr, s') :=
            reaper_attempts delays fd key_spec ref mountpoint total s3 in
          if other_users removal_status_flags then
            (retried ++ [Logged ERROR (Still_added_by_other_users ref);
                         Logged WARNING (Files_still_open_after_waiting total ref)] ++ tr, s')
          else if files_busy removal_status_flags then
            (retried ++ [Logged WARNING (Files_still_open_after_waiting total ref)] ++ tr, s')
          else
            (retried ++ [Logged INFO (Successfully_cleaned_up_busy_files ref total)], s3)
  end.

End Reaper.

(** ** Proof tools *)

Create Rewrite HintDb trace.

(** Split a conjunction of implications into its cases and try the
    routine ways of closing each. *)
Ltac cases :=
  repeat match goal with
         | |- _ /\ _ => split
         | |- _ <-> _ => split
         | |- _ -> _ => intro
         end;
  subst;
  try solve [ discriminate | contradiction | reflexivity | assumption
            | congruence | lia | tauto
            | intuition (try discriminate; try congruence; try lia; auto) ].

(** Read a trace whose first events are known. *)
Ltac observe :=
  autorewrite with trace;
  cbn [app sleep_of insertion_of search_of unlink_of removal_of reaper_of log_of
       call_of step_of].

(** * Properties *)

(** ** Buffers *)

Lemma overwrite_length (dst src : list byte) :
  length (overwrite dst src) = length dst.
Proof.
  unfold overwrite.
  rewrite length_app, length_skipn, length_firstn.
  lia.
Qed.

Lemma overwrite_full (dst src : list byte) :
  length src = length dst -> overwrite dst src = src.
Proof.
  intros H. unfold overwrite.
  rewrite <- H, firstn_all, H, skipn_all, app_nil_r.
  reflexivity.
Qed.

Lemma memcpy_prefix (dst src : list byte) (n : nat) :
  (n <= length src)%nat -> (n <= length dst)%nat ->
  firstn n (memcpy dst src n) = firstn n src.
Proof.
  intros Hs Hd. unfold memcpy, overwrite.
  assert (L : length (firstn n src) = n) by (rewrite length_firstn; lia).
  rewrite (firstn_all2 (n := length dst) (firstn n src)) by lia.
  rewrite firstn_app, L, Nat.sub_diag, firstn_O, app_nil_r.
  apply firstn_all2. lia.
Qed.

Lemma KeyBuffer_new_length (n : nat) : length (KeyBuffer_new n) = n.
Proof. apply repeat_length. Qed.

(** ** Traces *)

Lemma sleeps_nil : sleeps [] = [].
Proof. reflexivity. Qed.

Lemma sleeps_cons (e : Event) (tr : list Event) : sleeps (e :: tr) = sleep_of e ++ sleeps tr.
Proof. reflexivity. Qed.

Lemma sleeps_app (tr tr' : list Event) : sleeps (tr ++ tr') = sleeps tr ++ sleeps tr'.
Proof. apply flat_map_app. Qed.

#[global] Hint Rewrite sleeps_nil sleeps_cons sleeps_app : trace.

Lemma insertions_nil : insertions [] = [].
Proof. reflexivity. Qed.

Lemma insertions_cons (e : Event) (tr : list Event) : insertions (e :: tr) = insertion_of e ++ insertions tr.
Proof. reflexivity. Qed.

Lemma insertions_app (tr tr' : list Event) : insertions (tr ++ tr') = insertions tr ++ insertions tr'.
Proof. apply flat_map_app. Qed.

#[global] Hint Rewrite insertions_nil insertions_cons insertions_app : trace.

Lemma searches_nil : searches [] = [].
Proof. reflexivity. Qed.

Lemma searches_cons (e : Event) (tr : list Event) : searches (e :: tr) = search_of e ++ searches tr.
Proof. reflexivity. Qed.

Lemma searches_app (tr tr' : list Event) : searches (tr ++ tr') = searches tr ++ searches tr'.
Proof. apply flat_map_app. Qed.

#[global] Hint Rewrite searches_nil searches_cons searches_app : trace.

Lemma unlinks_nil : unlinks [] = [].
Proof. reflexivity. Qed.

Lemma unlinks_cons (e : Event) (tr : list Event) : unlinks (e :: tr) = unlink_of e ++ unlinks tr.
Proof. reflexivity. Qed.

Lemma unlinks_app (tr tr' : list Event) : unlinks (tr ++ tr') = unlinks tr ++ unlinks tr'.
Proof. apply flat_map_app. Qed.

#[global] Hint Rewrite unlinks_nil unlinks_cons unlinks_app : trace.

Lemma removals_nil : removals [] = [].
Proof. reflexivity. Qed.

Lemma removals_cons (e : Event) (tr : list Event) : removals (e :: tr) = removal_of e ++ removals tr.
Proof. reflexivity. Qed.

Lemma removals_app (tr tr' : list Event) : removals (tr ++ tr') = removals tr ++ removals tr'.
Proof. apply flat_map_app. Qed.

#[global] Hint Rewrite removals_nil removals_cons removals_app : trace.

Lemma reapers_nil : reapers [] = [].
Proof. reflexivity. Qed.

Lemma reapers_cons (e : Event) (tr : list Event) : reapers (e :: tr) = reaper_of e ++ reapers tr.
Proof. reflexivity. Qed.

Lemma reapers_app (tr tr' : list Event) : reapers (tr ++ tr') = reapers tr ++ reapers tr'.
Proof. apply flat_map_app. Qed.

#[global] Hint Rewrite reapers_nil reapers_cons reapers_app : trace.

Lemma logged_nil : logged [] = [].
Proof. reflexivity. Qed.

Lemma logged_cons (e : Event) (tr : list Event) : logged (e :: tr) = log_of e ++ logged tr.
Proof. reflexivity. Qed.

Lemma logged_app (tr tr' : list Event) : logged (tr ++ tr') = logged tr ++ logged tr'.
Proof. apply flat_map_app. Qed.

#[global] Hint Rewrite logged_nil logged_cons logged_app : trace.

Lemma calls_nil : calls [] = [].
Proof. reflexivity. Qed.

Lemma calls_cons (e : Event) (tr : list Event) : calls (e :: tr) = call_of e ++ calls tr.
Proof. reflexivity. Qed.

Lemma calls_app (tr tr' : list Event) : calls (tr ++ tr') = calls tr ++ calls tr'.
Proof. apply flat_map_app. Qed.

#[global] Hint Rewrite calls_nil calls_cons calls_app : trace.

Lemma steps_nil : steps [] = [].
Proof. reflexivity. Qed.

Lemma steps_cons (e : Event) (tr : list Event) : steps (e :: tr) = step_of e ++ steps tr.
Proof. reflexivity. Qed.

Lemma steps_app (tr tr' : list Event) : steps (tr ++ tr') = steps tr ++ steps tr'.
Proof. apply flat_map_app. Qed.

#[global] Hint Rewrite steps_nil steps_cons steps_app : trace.

(** The delays of a trace are those of its steps. *)
Lemma sleeps_steps (tr : list Event) : sleeps tr = flat_map slept_of (steps tr).
Proof.
  induction tr as [ | e tr IH ]; [ reflexivity | ].
  rewrite sleeps_cons, steps_cons, flat_map_app, <- IH.
  f_equal. destruct e as [X c r | sev m]; [ destruct c | ]; reflexivity.
Qed.

Lemma openings_nil : openings [] = [].
Proof. reflexivity. Qed.

Lemma openings_cons (e : Event) (tr : list Event) : openings (e :: tr) = opening_of e ++ openings tr.
Proof. reflexivity. Qed.

Lemma openings_app (tr tr' : list Event) : openings (tr ++ tr') = openings tr ++ openings tr'.
Proof. apply flat_map_app. Qed.

#[global] Hint Rewrite openings_nil openings_cons openings_app : trace.

Lemma additions_nil : additions [] = [].
Proof. reflexivity. Qed.

Lemma additions_cons (e : Event) (tr : list Event) : additions (e :: tr) = addition_of e ++ additions tr.
Proof. reflexivity. Qed.

Lemma additions_app (tr tr' : list Event) : additions (tr ++ tr') = additions tr ++ additions tr'.
Proof. apply flat_map_app. Qed.

#[global] Hint Rewrite additions_nil additions_cons additions_app : trace.

Lemma entries_nil : entries [] = [].
Proof. reflexivity. Qed.

Lemma entries_cons (e : Event) (tr : list Event) : entries (e :: tr) = entry_of e ++ entries tr.
Proof. reflexivity. Qed.

Lemma entries_app (tr tr' : list Event) : entries (tr ++ tr') = entries tr ++ entries tr'.
Proof. apply flat_map_app. Qed.

#[global] Hint Rewrite entries_nil entries_cons entries_app : trace.

Lemma probes_nil : probes [] = [].
Proof. reflexivity. Qed.

Lemma probes_cons (e : Event) (tr : list Event) : probes (e :: tr) = probe_of e ++ probes tr.
Proof. reflexivity. Qed.

Lemma probes_app (tr tr' : list Event) : probes (tr ++ tr') = probes tr ++ probes tr'.
Proof. apply flat_map_app. Qed.

#[global] Hint Rewrite probes_nil probes_cons probes_app : trace.

Lemma filter_keyring_nil : filter is_keyring_call [] = [].
Proof. reflexivity. Qed.

Lemma filter_keyring_app (tr tr' : list Event) :
  filter is_keyring_call (tr ++ tr')
  = filter is_keyring_call tr ++ filter is_keyring_call tr'.
Proof. apply filter_app. Qed.

Lemma statuses_nil : statuses [] = [].
Proof. reflexivity. Qed.

Lemma statuses_cons (e : Event) (tr : list Event) : statuses (e :: tr) = status_of e ++ statuses tr.
Proof. reflexivity. Qed.

Lemma statuses_app (tr tr' : list Event) : statuses (tr ++ tr') = statuses tr ++ statuses tr'.
Proof. apply flat_map_app. Qed.

#[global] Hint Rewrite statuses_nil statuses_cons statuses_app : trace.

(** Read a trace with the further readings as well. *)
Ltac observe_all :=
  observe;
  cbn [app opening_of addition_of entry_of probe_of status_of].

(** ** Key names *)

Lemma hex_value_hex_digit (n : N) : (n < 16)%N -> hex_value (hex_digit n) = Some n.
Proof.
  intros H.
  assert (C : In n (map N.of_nat (seq 0 16))).
  { apply in_map_iff. exists (N.to_nat n). split; [ lia | ]. apply in_seq. lia. }
  cbn in C.
  repeat (destruct C as [C | C]; [ subst n; reflexivity | ]).
  contradiction.
Qed.

Lemma byte_split (i : byte) :
  (Byte.to_N i / 16 < 16)%N /\ (Byte.to_N i mod 16 < 16)%N
  /\ Byte.of_N (Byte.to_N i / 16 * 16 + Byte.to_N i mod 16) = Some i.
Proof.
  assert (B : (Byte.to_N i < 256)%N) by (pose proof (Byte.to_N_bounded i); lia).
  split; [ apply N.Div0.div_lt_upper_bound; lia | ].
  split; [ apply N.mod_lt; lia | ].
  replace (Byte.to_N i / 16 * 16 + Byte.to_N i mod 16)%N with (Byte.to_N i).
  - apply Byte.of_to_N.
  - rewrite (N.div_mod (Byte.to_N i) 16) at 1 by lia. lia.
Qed.

(** X1.  The hexadecimal form of a reference has two characters per byte,
    each one of 0-9 or a-f. *)
Theorem keyrefstring_format (raw_ref : list byte) :
  String.length (keyrefstring raw_ref) = (2 * length raw_ref)%nat
  /\ forallb is_hex_digit (list_ascii_of_string (keyrefstring raw_ref)) = true.
Proof.
  induction raw_ref as [ | i raw_ref [IHl IHd] ]; [ split; reflexivity | ].
  destruct (byte_split i) as (Hhi & Hlo & _).
  split.
  - cbn [keyrefstring fold_right String.length length].
    fold (keyrefstring raw_ref). rewrite IHl. lia.
  - cbn [keyrefstring fold_right list_ascii_of_string forallb].
    fold (keyrefstring raw_ref). rewrite IHd.
    unfold is_hex_digit. rewrite !hex_value_hex_digit by assumption. reflexivity.
Qed.

Lemma keyref_of_keyrefstring (raw_ref : list byte) :
  keyref_of_string (keyrefstring raw_ref) = Some raw_ref.
Proof.
  induction raw_ref as [ | i raw_ref IH ]; [ reflexivity | ].
  destruct (byte_split i) as (Hhi & Hlo & Hi).
  cbn [keyrefstring fold_right keyref_of_string].
  fold (keyrefstring raw_ref).
  rewrite !hex_value_hex_digit by assumption.
  rewrite IH, Hi. reflexivity.
Qed.

Lemma keyrefstring_inj (raw_ref raw_ref' : list byte) :
  keyrefstring raw_ref = keyrefstring raw_ref' -> raw_ref = raw_ref'.
Proof.
  intros H.
  assert (E : Some raw_ref = Some raw_ref')
    by (rewrite <- !keyref_of_keyrefstring, H; reflexivity).
  congruence.
Qed.

(** X2.  A reference can be read back from its hexadecimal form, so two
    references with the same form are the same reference. *)
Theorem keyrefstring_round_trip (raw_ref : list byte) :
  keyref_of_string (keyrefstring raw_ref) = Some raw_ref
  /\ (forall raw_ref', keyrefstring raw_ref = keyrefstring raw_ref' -> raw_ref = raw_ref').
Proof.
  split; [ apply keyref_of_keyrefstring | apply keyrefstring_inj ].
Qed.

Lemma buildLegacyKeyName_inj (prefix prefix' : string) (raw_ref raw_ref' : list byte) :
  In prefix NAME_PREFIXES -> In prefix' NAME_PREFIXES ->
  buildLegacyKeyName prefix raw_ref = buildLegacyKeyName prefix' raw_ref' ->
  prefix = prefix' /\ raw_ref = raw_ref'.
Proof.
  unfold NAME_PREFIXES, buildLegacyKeyName.
  intros [P | [P | [P | []]]] [P' | [P' | [P' | []]]] H; subst prefix prefix';
    cbn [String.append] in H; try discriminate H.
  all: split; [ reflexivity | ].
  all: apply keyrefstring_inj.
  all: repeat (injection H as H); exact H.
Qed.

(** X3.  The three keyring names of a reference are distinct, and a name
    belongs to one reference only: keys with different references never
    meet in the keyring, whatever the filesystem prefix. *)
Theorem aliases_separate (raw_ref : list byte) :
  NoDup (aliases raw_ref)
  /\ length (aliases raw_ref) = length NAME_PREFIXES
  /\ (forall raw_ref' description,
        In description (aliases raw_ref) -> In description (aliases raw_ref') ->
        raw_ref = raw_ref').
Proof.
  split; [ | split ].
  - unfold aliases, NAME_PREFIXES, buildLegacyKeyName. cbn [map String.append].
    repeat constructor; cbn [In]; intros H;
      repeat (destruct H as [H | H]; [ discriminate H | ]); exact H.
  - unfold aliases. apply length_map.
  - unfold aliases. intros raw_ref' description H H'.
    apply in_map_iff in H. destruct H as (p & Hp & Hin).
    apply in_map_iff in H'. destruct H' as (p' & Hp' & Hin').
    rewrite <- Hp' in Hp.
    apply buildLegacyKeyName_inj in Hp; [ tauto | assumption | assumption ].
Qed.

(** ** Running programs *)

Section Properties.

Variable W : Type.
Variable handler : forall X : Type, Sys X -> W -> X * W.

Lemma run_bind (A B : Type) (p : Prog A) (f : A -> Prog B) (s : State W) :
  run handler (bind p f) s =
  let '(a, tr, s1) := run handler p s in
  let '(b, tr', s2) := run handler (f a) s1 in
  (b, tr ++ tr', s2).
Proof.
  revert s. induction p as [a | X c k IH | sev m k IH | k IH | v k IH]; intros s; simpl.
  - destruct (run handler (f a) s) as [[b tr'] s2]. reflexivity.
  - destruct (handler c (world s)) as [r w].
    rewrite IH.
    destruct (run handler (k r) _) as [[a tr] s1].
    destruct (run handler (f a) s1) as [[b tr'] s2]. reflexivity.
  - rewrite IH.
    destruct (run handler k s) as [[a tr] s1].
    destruct (run handler (f a) s1) as [[b tr'] s2]. reflexivity.
  - apply IH.
  - apply IH.
Qed.

Lemma run_Call (A X : Type) (c : Sys X) (k : X -> Prog A) (s : State W) :
  run handler (Call c k) s =
  let '(r, w) := handler c (world s) in
  let '(a, tr, s') := run handler (k r) {| supported := supported s; world := w |} in
  (a, Ev c r :: tr, s').
Proof. reflexivity. Qed.

Lemma run_Log (A : Type) (sev : Severity) (m : LogMsg) (k : Prog A) (s : State W) :
  run handler (Log sev m k) s =
  let '(a, tr, s') := run handler k s in (a, Logged sev m :: tr, s').
Proof. reflexivity. Qed.

Lemma run_Ret (A : Type) (a : A) (s : State W) : run handler (Ret a) s = (a, [], s).
Proof. reflexivity. Qed.

(** *** [buildKeySpecifier] *)

(** [buildKeySpecifier] makes no call: its run is decided by the policy. *)
Lemma run_buildKeySpecifier (spec : fscrypt_key_specifier) (policy : EncryptionPolicy)
  (s : State W) :
  run handler (buildKeySpecifier spec policy) s =
  let key_raw_ref := fscrypt.key_raw_ref policy in
  let version := fscrypt.version (fscrypt.options policy) in
  if version =? 1 then
    if Nat.eqb (length key_raw_ref) FSCRYPT_KEY_DESCRIPTOR_SIZE
    then (true, {| spec_type := FSCRYPT_KEY_SPEC_TYPE_DESCRIPTOR;
                   spec_u := memcpy (spec_u spec) key_raw_ref FSCRYPT_KEY_DESCRIPTOR_SIZE |},
          [], s)
    else (false, spec, [Logged ERROR (Invalid_key_specifier_size_v1 (length key_raw_ref))], s)
  else if version =? 2 then
    if Nat.eqb (length key_raw_ref) FSCRYPT_KEY_IDENTIFIER_SIZE
    then (true, {| spec_type := FSCRYPT_KEY_SPEC_TYPE_IDENTIFIER;
                   spec_u := memcpy (spec_u spec) key_raw_ref FSCRYPT_KEY_IDENTIFIER_SIZE |},
          [], s)
    else (false, spec, [Logged ERROR (Invalid_key_specifier_size_v2 (length key_raw_ref))], s)
  else (false, spec, [Logged ERROR (Invalid_encryption_policy_version version)], s).
Proof.
  unfold buildKeySpecifier. cbv zeta.
  destruct (fscrypt.version (fscrypt.options policy) =? 1).
  - destruct (Nat.eqb _ FSCRYPT_KEY_DESCRIPTOR_SIZE); reflexivity.
  - destruct (fscrypt.version (fscrypt.options policy) =? 2).
    + destruct (Nat.eqb _ FSCRYPT_KEY_IDENTIFIER_SIZE); reflexivity.
    + reflexivity.
Qed.

(** C3.  Building a key specifier succeeds exactly when the policy is of
    version 1 with a reference of 8 bytes, or of version 2 with a reference
    of 16 bytes.  On success the specifier is descriptor-typed for version 1
    and identifier-typed for version 2 and, the union being large enough,
    starts with the reference; in every other case (another length, another
    version) the result is [false], the specifier is left as it was and
    nothing but the diagnostic happens. *)
Theorem buildKeySpecifier_succeeds_iff (spec : fscrypt_key_specifier)
  (policy : EncryptionPolicy) (s : State W) :
  let version := fscrypt.version (fscrypt.options policy) in
  let key_raw_ref := fscrypt.key_raw_ref policy in
  let ok := fst (result handler (buildKeySpecifier spec policy) s) in
  let spec' := snd (result handler (buildKeySpecifier spec policy) s) in
  (ok = true <->
     (version = 1 /\ length key_raw_ref = 8%nat) \/
     (version = 2 /\ length key_raw_ref = 16%nat))
  /\ (ok = true -> version = 1 ->
        spec_type spec' = FSCRYPT_KEY_SPEC_TYPE_DESCRIPTOR /\
        ((8 <= length (spec_u spec))%nat -> firstn 8 (spec_u spec') = key_raw_ref))
  /\ (ok = true -> version = 2 ->
        spec_type spec' = FSCRYPT_KEY_SPEC_TYPE_IDENTIFIER /\
        ((16 <= length (spec_u spec))%nat -> firstn 16 (spec_u spec') = key_raw_ref))
  /\ (ok = false ->
        spec' = spec /\ calls (trace handler (buildKeySpecifier spec policy) s) = []).
Proof.
  unfold result, trace. rewrite run_buildKeySpecifier. cbv zeta.
  unfold FSCRYPT_KEY_DESCRIPTOR_SIZE, FSCRYPT_KEY_IDENTIFIER_SIZE.
  destruct (Z.eqb_spec (fscrypt.version (fscrypt.options policy)) 1) as [V1 | V1];
    [ destruct (Nat.eqb_spec (length (fscrypt.key_raw_ref policy)) 8) as [L | L]
    | destruct (Z.eqb_spec (fscrypt.version (fscrypt.options policy)) 2) as [V2 | V2];
      [ destruct (Nat.eqb_spec (length (fscrypt.key_raw_ref policy)) 16) as [L | L] | ] ];
    cbn [fst snd spec_type spec_u];
    (split; [ | split; [ | split ] ]).
  all: try (intros; exfalso; solve [discriminate | lia]).
  all: try (split; [ tauto | intros; exfalso; lia ]).
  all: try (split; [ discriminate | intros [[? ?] | [? ?]]; exfalso; lia ]).
  all: try (intros _; split; reflexivity).
  - split; [ intros _; left; split; assumption | reflexivity ].
  - intros _ _. split; [ reflexivity | ].
    intros Hu. rewrite memcpy_prefix by lia. apply firstn_all2. lia.
  - split; [ intros _; right; split; assumption | reflexivity ].
  - intros _ _. split; [ reflexivity | ].
    intros Hu. rewrite memcpy_prefix by lia. apply firstn_all2. lia.
Qed.


(** *** [generateStorageKey] *)

Lemma run_randomKey (size : nat) (key : KeyBuffer) (s : State W) :
  run handler (randomKey size key) s =
  let '((status, bytes), w) := handler (ReadRandomBytes size) (world s) in
  let key' := overwrite (KeyBuffer_new size) bytes in
  let s' := {| supported := supported s; world := w |} in
  if status =? 0
  then (true, key', [Ev (ReadRandomBytes size) (status, bytes)], s')
  else (false, key',
        [Ev (ReadRandomBytes size) (status, bytes); Logged ERROR Random_read_failed], s').
Proof.
  unfold randomKey. cbv zeta. rewrite KeyBuffer_new_length. simpl.
  destruct (handler (ReadRandomBytes size) (world s)) as [[status bytes] w]. simpl.
  destruct (status =? 0); reflexivity.
Qed.

Lemma run_generateStorageKey (gen : KeyGeneration) (key : KeyBuffer) (s : State W) :
  run handler (generateStorageKey gen key) s =
  if negb (allow_gen gen) then
    (false, key, [Logged ERROR Generating_storage_key_not_allowed], s)
  else if use_hw_wrapped_key gen then
    if negb (Nat.eqb (keysize gen) FSCRYPT_MAX_KEY_SIZE) then
      (false, key, [Logged ERROR (Cannot_generate_a_wrapped_key (keysize gen))], s)
    else
      let '(ans, w) := handler (generateWrappedStorageKey key) (world s) in
      (ans,
       [Logged DEBUG Generating_wrapped_storage_key; Ev (generateWrappedStorageKey key) ans],
       {| supported := supported s; world := w |})
  else
    let '(r, tr, s') := run handler (randomKey (keysize gen) key) s in
    (r, Logged DEBUG Generating_standard_storage_key :: tr, s').
Proof.
  unfold generateStorageKey.
  destruct (allow_gen gen); simpl; [ | reflexivity ].
  destruct (use_hw_wrapped_key gen); simpl.
  - destruct (Nat.eqb (keysize gen) FSCRYPT_MAX_KEY_SIZE); simpl; [ | reflexivity ].
    destruct (handler (generateWrappedStorageKey key) (world s)) as [ans w]. reflexivity.
  - change (LOG DEBUG Generating_standard_storage_key;; randomKey (keysize gen) key)
      with (Log DEBUG Generating_standard_storage_key (randomKey (keysize gen) key)).
    simpl. destruct (run handler (randomKey (keysize gen) key) s) as [[r tr] s']. reflexivity.
Qed.

(** C7, as amended.  [generateStorageKey] fails exactly when generation is
    not allowed, or a hardware-wrapped key of a size other than the fixed
    maximum is asked for, or the hardware collaborator fails, or the random
    source fails.  In the first two cases it makes no call at all and leaves
    the buffer as it was.  When it succeeds for a request that is not
    hardware-wrapped, the key has the requested size; when it succeeds for a
    hardware-wrapped request, the key is the collaborator's blob as it came,
    whatever its size. *)
Theorem generateStorageKey_fails_exactly_when (gen : KeyGeneration) (key : KeyBuffer)
  (s : State W) :
  let ok := fst (result handler (generateStorageKey gen key) s) in
  let key' := snd (result handler (generateStorageKey gen key) s) in
  let tr := trace handler (generateStorageKey gen key) s in
  let hardware := fst (handler (generateWrappedStorageKey key) (world s)) in
  let random := fst (handler (ReadRandomBytes (keysize gen)) (world s)) in
  (ok = false <->
     allow_gen gen = false
     \/ (use_hw_wrapped_key gen = true /\ keysize gen <> FSCRYPT_MAX_KEY_SIZE)
     \/ (use_hw_wrapped_key gen = true /\ fst hardware = false)
     \/ (use_hw_wrapped_key gen = false /\ fst random <> 0))
  /\ (allow_gen gen = false -> calls tr = [] /\ key' = key)
  /\ (use_hw_wrapped_key gen = true -> keysize gen <> FSCRYPT_MAX_KEY_SIZE ->
        calls tr = [] /\ key' = key)
  /\ (ok = true -> use_hw_wrapped_key gen = false -> length key' = keysize gen)
  /\ (ok = true -> use_hw_wrapped_key gen = true -> key' = snd hardware).
Proof.
  unfold result, trace. rewrite run_generateStorageKey.
  destruct (allow_gen gen) eqn:Ea; cbn [negb]; [ | cases; auto ].
  destruct (use_hw_wrapped_key gen) eqn:Eh.
  - destruct (Nat.eqb_spec (keysize gen) FSCRYPT_MAX_KEY_SIZE) as [Es | Es]; cbn [negb].
    + destruct (handler (generateWrappedStorageKey key) (world s)) as [[ok blob] w].
      cbn [fst snd]. cases.
    + cases.
  - rewrite run_randomKey.
    destruct (handler (ReadRandomBytes (keysize gen)) (world s)) as [[status bytes] w].
    cbn [fst snd].
    destruct (Z.eqb_spec status 0) as [E0 | E0]; cbn [fst snd]; cases.
    rewrite overwrite_length. apply KeyBuffer_new_length.
Qed.

(** *** [retrieveOrGenerateKey] *)

Lemma run_retrieveOrGenerateKey (key_path tmp_path : string)
  (auth : KeyAuthentication) (gen : KeyGeneration) (key : KeyBuffer) (s : State W) :
  run handler (retrieveOrGenerateKey key_path tmp_path auth gen key) s =
  let '(exists_, w1) := handler (pathExists key_path) (world s) in
  let s1 := {| supported := supported s; world := w1 |} in
  if exists_ then
    let '(retrieved, w2) := handler (retrieveKey key_path auth key) w1 in
    (retrieved,
     [Ev (pathExists key_path) true; Logged DEBUG (Key_exists_using key_path);
      Ev (retrieveKey key_path auth key) retrieved],
     {| supported := supported s; world := w2 |})
  else if negb (allow_gen gen) then
    ((false, key),
     [Ev (pathExists key_path) false; Logged ERROR (No_key_found_in key_path)], s1)
  else
    let '((ok, key'), tr, s2) := run handler (generateStorageKey gen key) s1 in
    let intro := [Ev (pathExists key_path) false;
                  Logged INFO (Creating_new_key_in key_path)] in
    if ok then
      let '(stored, w3) := handler (storeKeyAtomically key_path tmp_path auth key') (world s2) in
      ((stored, key'),
       intro ++ tr ++ [Ev (storeKeyAtomically key_path tmp_path auth key') stored],
       {| supported := supported s2; world := w3 |})
    else ((false, key'), intro ++ tr, s2).
Proof.
  unfold retrieveOrGenerateKey. simpl.
  destruct (handler (pathExists key_path) (world s)) as [exists_ w1].
  destruct exists_; simpl.
  - destruct (handler (retrieveKey key_path auth key) w1) as [[ok key'] w2]. simpl.
    destruct ok; reflexivity.
  - destruct (allow_gen gen); simpl; [ | reflexivity ].
    change (Log INFO (Creating_new_key_in key_path) ?k) with k.
    match goal with
    | |- context [run handler (bind ?p ?f) ?s1] => rewrite (run_bind p f s1)
    end.
    destruct (run handler (generateStorageKey gen key) _) as [[[ok key'] tr] s2].
    destruct ok; simpl.
    + destruct (handler (storeKeyAtomically key_path tmp_path auth key') (world s2))
        as [stored w3]. simpl.
      destruct stored; simpl; reflexivity.
    + rewrite app_nil_r. reflexivity.
Qed.

(** C6, as amended.  [retrieveOrGenerateKey] is a three-way branch on what
    [pathExists] answers and on [allow_gen].
    - The path exists: the result, flag and key, is what the storage
      collaborator's [retrieveKey] answers, and no generation is attempted.
    - The path does not exist and generation is allowed: the key is generated
      by [generateStorageKey]; if that succeeds, that very key is handed to
      [storeKeyAtomically] and is the key returned, and the call succeeds
      when the store does; if generation fails, nothing is stored.
    - The path does not exist and generation is not allowed: the call fails
      after the existence test alone, and the buffer is left as it was. *)
Theorem retrieveOrGenerateKey_three_way (key_path tmp_path : string)
  (auth : KeyAuthentication) (gen : KeyGeneration) (key : KeyBuffer) (s : State W) :
  let exists_ := fst (handler (pathExists key_path) (world s)) in
  let s1 := {| supported := supported s;
               world := snd (handler (pathExists key_path) (world s)) |} in
  let res := result handler (retrieveOrGenerateKey key_path tmp_path auth gen key) s in
  let tr := trace handler (retrieveOrGenerateKey key_path tmp_path auth gen key) s in
  let generated := result handler (generateStorageKey gen key) s1 in
  let s2 := final handler (generateStorageKey gen key) s1 in
  let store := storeKeyAtomically key_path tmp_path auth (snd generated) in
  (exists_ = true ->
     res = fst (handler (retrieveKey key_path auth key) (world s1)) /\
     calls tr = [Ev (pathExists key_path) true; Ev (retrieveKey key_path auth key) res] /\
     filter is_generation_call tr = [])
  /\ (exists_ = false -> allow_gen gen = true ->
        snd res = snd generated /\
        fst res = (fst generated && fst (handler store (world s2)))%bool /\
        calls tr =
          Ev (pathExists key_path) false
          :: calls (trace handler (generateStorageKey gen key) s1)
          ++ (if fst generated
              then [Ev store (fst (handler store (world s2)))]
              else []))
  /\ (exists_ = false -> allow_gen gen = false ->
        res = (false, key) /\ calls tr = [Ev (pathExists key_path) false]).
Proof.
  unfold result, trace, final. rewrite run_retrieveOrGenerateKey.
  destruct (handler (pathExists key_path) (world s)) as [exists_ w1]. cbn [fst snd].
  destruct exists_.
  - cbn [world].
    destruct (handler (retrieveKey key_path auth key) w1) as [retrieved w2].
    cbn [fst snd]. cases.
  - destruct (allow_gen gen); cbn [negb]; [ | cases ].
    destruct (run handler (generateStorageKey gen key) _) as [[[ok key'] tr] s2].
    cbn [fst snd]. destruct ok.
    + destruct (handler (storeKeyAtomically key_path tmp_path auth key') (world s2))
        as [stored w3].
      cbn [fst snd]. cases.
      observe. reflexivity.
    + cbn [fst snd]. cases.
      observe. rewrite app_nil_r. reflexivity.
Qed.

(** *** [installKeyLegacy] *)

(** The insertion loop over any list of prefixes: either every name is
    inserted, or the insertions stop at the first one refused. *)
Lemma run_installKeyLegacy_loop (name_prefix : list string) (raw_ref : list byte)
  (fs_key : fscrypt_key) (device_keyring : Z) (s : State W) :
  let r := run handler (installKeyLegacy_loop name_prefix raw_ref fs_key device_keyring) s in
  let ins := insertions (snd (fst r)) in
  let names := map (fun prefix => buildLegacyKeyName prefix raw_ref) name_prefix in
  unlinks (snd (fst r)) = [] /\
  searches (snd (fst r)) = [] /\
  ((fst (fst r) = true /\ map fst ins = names /\ Forall inserted ins)
   \/ (fst (fst r) = false /\
       exists done description,
         ins = done ++ [(description, -1)] /\ Forall inserted done /\
         map fst ins = firstn (S (length done)) names)).
Proof.
  revert s. induction name_prefix as [ | prefix rest IH ]; intros s.
  - cbn. repeat split. left. repeat split. constructor.
  - cbn [installKeyLegacy_loop bind call].
    rewrite run_Call.
    destruct (handler _ (world s)) as [key_id w].
    destruct (Z.eqb_spec key_id (-1)) as [E | E].
    + subst key_id. cbn. repeat split. right. split; [ reflexivity | ].
      exists [], (buildLegacyKeyName prefix raw_ref). repeat split. constructor.
    + cbn [bind LOG]. rewrite run_Log.
      specialize (IH {| supported := supported s; world := w |}). cbv zeta in IH.
      destruct (run handler (installKeyLegacy_loop rest raw_ref fs_key device_keyring) _)
        as [[ok tr] s'].
      cbn [fst snd] in *. observe.
      destruct IH as (Hu & Hs & [ (Hok & Hn & Hi) | (Hok & done & d & Hd & Hi & Hn) ]).
      * split; [ exact Hu | split; [ exact Hs | left ] ].
        split; [ exact Hok | split ].
        -- cbn [map fst]. f_equal. exact Hn.
        -- constructor; [ exact E | exact Hi ].
      * split; [ exact Hu | split; [ exact Hs | right ] ].
        split; [ exact Hok | ].
        exists ((buildLegacyKeyName prefix raw_ref, key_id) :: done), d.
        split; [ rewrite Hd; reflexivity | split ].
        -- constructor; [ exact E | exact Hi ].
        -- cbn [map fst length firstn]. f_equal. exact Hn.
Qed.

Lemma run_fillKey (key : KeyBuffer) (fs_key : fscrypt_key) (s : State W) :
  run handler (fillKey key fs_key) s =
  if Nat.eqb (length key) FSCRYPT_MAX_KEY_SIZE
  then ((true, {| mode := 0;
                  raw := memcpy (raw fs_key) key (length key);
                  size := to_u32 (Z.of_nat (length key)) |}), [], s)
  else ((false, fs_key), [Logged ERROR (Wrong_size_key (length key))], s).
Proof.
  unfold fillKey. destruct (Nat.eqb (length key) FSCRYPT_MAX_KEY_SIZE); reflexivity.
Qed.

Lemma run_fscryptKeyring (s : State W) :
  run handler fscryptKeyring s =
  let search := keyctl_search KEY_SPEC_SESSION_KEYRING "keyring" "fscrypt" in
  let '(device_keyring, w) := handler search (world s) in
  let s' := {| supported := supported s; world := w |} in
  if device_keyring =? -1
  then ((false, device_keyring),
        [Ev search device_keyring; Logged ERROR Unable_to_find_device_keyring], s')
  else ((true, device_keyring), [Ev search device_keyring], s').
Proof.
  unfold fscryptKeyring. cbn [bind call]. rewrite run_Call. cbv zeta.
  destruct (handler _ (world s)) as [device_keyring w].
  destruct (device_keyring =? -1); reflexivity.
Qed.

Lemma run_installKeyLegacy (key : KeyBuffer) (raw_ref : list byte) (s : State W) :
  run handler (installKeyLegacy key raw_ref) s =
  let search := keyctl_search KEY_SPEC_SESSION_KEYRING "keyring" "fscrypt" in
  if Nat.eqb (length key) FSCRYPT_MAX_KEY_SIZE then
    let '(device_keyring, w) := handler search (world s) in
    let s1 := {| supported := supported s; world := w |} in
    if device_keyring =? -1 then
      (false, [Ev search device_keyring; Logged ERROR Unable_to_find_device_keyring], s1)
    else
      let '(ok, tr, s2) :=
        run handler
          (installKeyLegacy_loop NAME_PREFIXES raw_ref (legacy_payload key) device_keyring)
          s1 in
      (ok, Ev search device_keyring :: tr, s2)
  else (false, [Logged ERROR (Wrong_size_key (length key))], s).
Proof.
  unfold installKeyLegacy.
  rewrite run_bind, run_fillKey.
  destruct (Nat.eqb (length key) FSCRYPT_MAX_KEY_SIZE); cbn [negb].
  - rewrite run_bind, run_fscryptKeyring. cbv zeta.
    destruct (handler _ (world s)) as [device_keyring w].
    destruct (device_keyring =? -1); cbn [negb].
    + reflexivity.
    + fold (legacy_payload key).
      destruct (run handler _ _) as [[ok tr] s2]. reflexivity.
  - reflexivity.
Qed.

Lemma entries_insertions (tr : list Event) : length (entries tr) = length (insertions tr).
Proof.
  induction tr as [ | e tr IH ]; [ reflexivity | ].
  rewrite entries_cons, insertions_cons, !length_app, IH.
  f_equal. destruct e as [X c r | sev m]; [ destruct c | ]; reflexivity.
Qed.

(** The payload of a key of the fixed size is the key itself. *)
Lemma legacy_payload_full (key : KeyBuffer) :
  length key = FSCRYPT_MAX_KEY_SIZE ->
  legacy_payload key = {| mode := 0; raw := key; size := 64 |}.
Proof.
  intros L. unfold legacy_payload, memcpy.
  rewrite firstn_all, overwrite_full, L; [ reflexivity | ].
  rewrite L. symmetry. apply repeat_length.
Qed.

(** Every entry the loop adds is a logon key with the payload and in the
    keyring it was given. *)
Lemma installKeyLegacy_loop_entries (name_prefix : list string) (raw_ref : list byte)
  (fs_key : fscrypt_key) (device_keyring : Z) (s : State W) :
  Forall (eq ("logon"%string, fs_key, device_keyring))
    (entries
       (snd (fst (run handler
                    (installKeyLegacy_loop name_prefix raw_ref fs_key device_keyring) s)))).
Proof.
  revert s. induction name_prefix as [ | prefix rest IH ]; intros s; [ constructor | ].
  cbn [installKeyLegacy_loop bind call]. rewrite run_Call.
  destruct (handler _ (world s)) as [key_id w].
  destruct (key_id =? -1).
  - cbn. repeat constructor.
  - cbn [bind LOG]. rewrite run_Log.
    specialize (IH {| supported := supported s; world := w |}).
    destruct (run handler (installKeyLegacy_loop rest raw_ref fs_key device_keyring) _)
      as [[ok tr] s'].
    cbn [fst snd] in *. observe_all. constructor; [ reflexivity | exact IH ].
Qed.

(** C4.  Legacy install inserts the key under one name per filesystem-type
    prefix, the three names ["ext4:<hex>"], ["f2fs:<hex>"] and
    ["fscrypt:<hex>"], in this order and each at most once.  It returns
    success exactly when all three insertions were made and accepted.  If an
    insertion is refused the result is failure; the insertions made before
    it were accepted, and nothing is unlinked afterwards: there is no
    rollback.

    The insertions are made: with a key of 64 bytes and the keyring found,
    the first alias is tried, and each further alias is tried exactly when
    the one before was accepted, so that either all three were accepted and
    the result is success, or the last one tried was refused and the result
    is failure.  Every insertion is a logon key in the keyring the search
    found, whose payload is the whole key.  A key of another size is turned
    down before any call, and without the keyring nothing is inserted. *)
Theorem installKeyLegacy_all_or_failure (key : KeyBuffer) (raw_ref : list byte)
  (s : State W) :
  let ok := result handler (installKeyLegacy key raw_ref) s in
  let tr := trace handler (installKeyLegacy key raw_ref) s in
  let ins := insertions tr in
  let device_keyring :=
    fst (handler (keyctl_search KEY_SPEC_SESSION_KEYRING "keyring" "fscrypt") (world s)) in
  aliases raw_ref =
    [("ext4:" ++ keyrefstring raw_ref)%string;
     ("f2fs:" ++ keyrefstring raw_ref)%string;
     ("fscrypt:" ++ keyrefstring raw_ref)%string]
  /\ (exists n, map fst ins = firstn n (aliases raw_ref))
  /\ (ok = true <-> map fst ins = aliases raw_ref /\ Forall inserted ins)
  /\ (forall description, In (description, -1) ins -> ok = false)
  /\ (ok = false -> Forall inserted (removelast ins))
  /\ unlinks tr = []
  /\ (length key <> FSCRYPT_MAX_KEY_SIZE -> ok = false /\ calls tr = [])
  /\ (length key = FSCRYPT_MAX_KEY_SIZE ->
        searches tr = [("fscrypt"%string, device_keyring)]
        /\ (device_keyring = -1 -> ok = false /\ ins = [])
        /\ (device_keyring <> -1 ->
              ins <> []
              /\ ((ok = true /\ map fst ins = aliases raw_ref /\ Forall inserted ins)
                  \/ (ok = false /\
                      exists done description,
                        ins = done ++ [(description, -1)] /\ Forall inserted done /\
                        map fst ins = firstn (S (length done)) (aliases raw_ref)))
              /\ (Forall inserted ins -> ok = true /\ length ins = 3%nat)))
  /\ Forall (eq ("logon"%string, {| mode := 0; raw := key; size := 64 |}, device_keyring))
       (entries tr)
  /\ length (entries tr) = length ins.
Proof.
  cbv zeta.
  assert (Hcore :
    let ok := result handler (installKeyLegacy key raw_ref) s in
    let ins := insertions (trace handler (installKeyLegacy key raw_ref) s) in
    unlinks (trace handler (installKeyLegacy key raw_ref) s) = [] /\
    ((ok = true /\ map fst ins = aliases raw_ref /\ Forall inserted ins)
     \/ (ok = false /\ ins = [])
     \/ (ok = false /\
         exists done description,
           ins = done ++ [(description, -1)] /\ Forall inserted done /\
           map fst ins = firstn (S (length done)) (aliases raw_ref)))).
  { unfold result, trace. rewrite run_installKeyLegacy. cbv zeta.
    destruct (Nat.eqb (length key) FSCRYPT_MAX_KEY_SIZE).
    - destruct (handler _ (world s)) as [device_keyring w].
      destruct (device_keyring =? -1).
      + cbn [fst snd]. observe. split; [ reflexivity | right; left; split; reflexivity ].
      + pose proof (run_installKeyLegacy_loop NAME_PREFIXES raw_ref (legacy_payload key)
                      device_keyring {| supported := supported s; world := w |}) as H.
        cbv zeta in H.
        destruct (run handler _ _) as [[ok tr] s2].
        cbn [fst snd] in *. observe.
        destruct H as (Hu & _ & [ H | H ]).
        * split; [ exact Hu | left; exact H ].
        * split; [ exact Hu | right; right; exact H ].
    - cbn [fst snd]. observe. split; [ reflexivity | right; left; split; reflexivity ]. }
  assert (Hmade :
    let ok := result handler (installKeyLegacy key raw_ref) s in
    let tr := trace handler (installKeyLegacy key raw_ref) s in
    let ins := insertions tr in
    let device_keyring :=
      fst (handler (keyctl_search KEY_SPEC_SESSION_KEYRING "keyring" "fscrypt") (world s)) in
    (length key <> FSCRYPT_MAX_KEY_SIZE -> ok = false /\ calls tr = [])
    /\ (length key = FSCRYPT_MAX_KEY_SIZE ->
          searches tr = [("fscrypt"%string, device_keyring)]
          /\ (device_keyring = -1 -> ok = false /\ ins = [])
          /\ (device_keyring <> -1 ->
                ins <> []
                /\ ((ok = true /\ map fst ins = aliases raw_ref /\ Forall inserted ins)
                    \/ (ok = false /\
                        exists done description,
                          ins = done ++ [(description, -1)] /\ Forall inserted done /\
                          map fst ins = firstn (S (length done)) (aliases raw_ref)))
                /\ (Forall inserted ins -> ok = true /\ length ins = 3%nat)))
    /\ Forall (eq ("logon"%string, {| mode := 0; raw := key; size := 64 |}, device_keyring))
         (entries tr)
    /\ length (entries tr) = length ins).
  { cbv zeta. unfold result, trace. rewrite run_installKeyLegacy. cbv zeta.
    destruct (Nat.eqb_spec (length key) FSCRYPT_MAX_KEY_SIZE) as [L | L].
    2: { cbn [fst snd]. observe_all.
         split; [ intros _; split; reflexivity | ].
         split; [ intros L'; contradiction | split; [ constructor | reflexivity ] ]. }
    destruct (handler (keyctl_search KEY_SPEC_SESSION_KEYRING "keyring" "fscrypt") (world s))
      as [device_keyring w].
    cbn [fst].
    destruct (Z.eqb_spec device_keyring (-1)) as [E | E].
    { cbn [fst snd]. observe_all.
      split; [ intros L'; contradiction | ].
      split; [ | split; [ constructor | reflexivity ] ].
      intros _. split; [ reflexivity | ].
      split; [ intros _; split; reflexivity | intros E'; contradiction ]. }
    pose proof (run_installKeyLegacy_loop NAME_PREFIXES raw_ref (legacy_payload key)
                  device_keyring {| supported := supported s; world := w |}) as H.
    pose proof (installKeyLegacy_loop_entries NAME_PREFIXES raw_ref (legacy_payload key)
                  device_keyring {| supported := supported s; world := w |}) as He.
    cbv zeta in H.
    destruct (run handler _ _) as [[ok tr] s2].
    cbn [fst snd] in *. rewrite legacy_payload_full in He by exact L.
    observe_all.
    destruct H as (_ & Hs & H). rewrite Hs.
    split; [ intros L'; contradiction | ].
    split; [ | split; [ exact He | apply entries_insertions ] ].
    intros _. split; [ reflexivity | ].
    split; [ intros E'; contradiction | intros _ ].
    destruct H as [ (Hok & Hn & Hi) | (Hok & done & d & Hd & Hi & Hn) ].
    - split; [ intros Hnil; rewrite Hnil in Hn; discriminate Hn | ].
      split; [ left; repeat split; assumption | ].
      intros _. split; [ exact Hok | ].
      rewrite <- (length_map fst), Hn. reflexivity.
    - split; [ rewrite Hd; intros Hnil; destruct done; discriminate Hnil | ].
      split; [ right; split; [ exact Hok | exists done, d; repeat split; assumption ] | ].
      intros Hall. exfalso. rewrite Hd in Hall.
      apply Forall_app in Hall. destruct Hall as [_ Hlast].
      inversion Hlast as [ | x l Hx _ ]. apply Hx. reflexivity. }
  cbv zeta in Hcore, Hmade.
  assert (Hold :
    aliases raw_ref =
      [("ext4:" ++ keyrefstring raw_ref)%string;
       ("f2fs:" ++ keyrefstring raw_ref)%string;
       ("fscrypt:" ++ keyrefstring raw_ref)%string]
    /\ (exists n, map fst (insertions (trace handler (installKeyLegacy key raw_ref) s))
                  = firstn n (aliases raw_ref))
    /\ (result handler (installKeyLegacy key raw_ref) s = true <->
        map fst (insertions (trace handler (installKeyLegacy key raw_ref) s))
        = aliases raw_ref
        /\ Forall inserted (insertions (trace handler (installKeyLegacy key raw_ref) s)))
    /\ (forall description,
          In (description, -1) (insertions (trace handler (installKeyLegacy key raw_ref) s)) ->
          result handler (installKeyLegacy key raw_ref) s = false)
    /\ (result handler (installKeyLegacy key raw_ref) s = false ->
        Forall inserted
          (removelast (insertions (trace handler (installKeyLegacy key raw_ref) s))))
    /\ unlinks (trace handler (installKeyLegacy key raw_ref) s) = []).
  { destruct Hcore
      as (Hu & [ (Hok & Hn & Hi) | [ (Hok & Hn) | (Hok & done & d & Hd & Hi & Hn) ] ]).
    - split; [ reflexivity | ].
      split; [ exists 3%nat; exact Hn | ].
      split; [ split; [ intros _; split; assumption | intros _; exact Hok ] | ].
      split.
      { intros description Hin. exfalso.
        rewrite Forall_forall in Hi. apply (Hi _ Hin). reflexivity. }
      split; [ rewrite Hok; discriminate | exact Hu ].
    - split; [ reflexivity | ].
      split; [ exists 0%nat; rewrite Hn; reflexivity | ].
      split; [ split; [ rewrite Hok; discriminate | rewrite Hn; intros [H _]; discriminate H ] | ].
      split; [ intros; exact Hok | ].
      split; [ intros _; rewrite Hn; constructor | exact Hu ].
    - split; [ reflexivity | ].
      split; [ exists (S (length done)); exact Hn | ].
      split.
      { split; [ rewrite Hok; discriminate | ].
        intros [_ Hall]. exfalso. rewrite Hd in Hall.
        apply Forall_app in Hall. destruct Hall as [_ Hlast].
        inversion Hlast as [ | x l Hx _ ]. apply Hx. reflexivity. }
      split; [ intros; exact Hok | ].
      split; [ intros _; rewrite Hd, removelast_last; exact Hi | exact Hu ]. }
  destruct Hold as (H1 & H2 & H3 & H4 & H5 & H6).
  split; [ exact H1 | split; [ exact H2 | split; [ exact H3 | split; [ exact H4 | ] ] ] ].
  split; [ exact H5 | split; [ exact H6 | exact Hmade ] ].
Qed.

(** *** [evictKeyLegacy] *)

(** The unlinking loop over any list of prefixes: every name is looked up
    and the serial found is unlinked, whatever the earlier unlinks
    answered. *)
Lemma run_evictKeyLegacy_loop (name_prefix : list string) (raw_ref : list byte)
  (device_keyring : Z) (success : bool) (s : State W) :
  let r := run handler (evictKeyLegacy_loop name_prefix raw_ref device_keyring success) s in
  let tr := snd (fst r) in
  map fst (searches tr) = map (fun prefix => buildLegacyKeyName prefix raw_ref) name_prefix
  /\ map fst (unlinks tr) = map snd (searches tr)
  /\ length (unlinks tr) = length name_prefix
  /\ (fst (fst r) = true <-> success = true /\ Forall unlinked (unlinks tr))
  /\ insertions tr = [].
Proof.
  revert success s. induction name_prefix as [ | prefix rest IH ]; intros success s.
  - cbn. repeat split; auto. intros [H _]. exact H.
  - cbn [evictKeyLegacy_loop bind call].
    rewrite run_Call.
    destruct (handler _ (world s)) as [key_serial w].
    rewrite run_Call. cbn [supported world].
    destruct (handler _ w) as [ret w'].
    destruct (Z.eqb_spec ret 0) as [E | E]; cbn [negb bind LOG]; rewrite run_Log.
    + specialize (IH success {| supported := supported s; world := w' |}). cbv zeta in IH.
      destruct (run handler (evictKeyLegacy_loop rest raw_ref device_keyring success) _)
        as [[ok tr] s'].
      cbn [fst snd] in *. observe. cbn [map fst snd length].
      destruct IH as (Hs & Hu & Hl & Hok & Hi).
      split; [ f_equal; exact Hs | ].
      split; [ f_equal; exact Hu | ].
      split; [ f_equal; exact Hl | ].
      split; [ | exact Hi ].
      rewrite Hok. split.
      * intros [H1 H2]. split; [ exact H1 | constructor; [ exact E | exact H2 ] ].
      * intros [H1 H2]. split; [ exact H1 | inversion H2; assumption ].
    + specialize (IH false {| supported := supported s; world := w' |}). cbv zeta in IH.
      destruct (run handler (evictKeyLegacy_loop rest raw_ref device_keyring false) _)
        as [[ok tr] s'].
      cbn [fst snd] in *. observe. cbn [map fst snd length].
      destruct IH as (Hs & Hu & Hl & Hok & Hi).
      split; [ f_equal; exact Hs | ].
      split; [ f_equal; exact Hu | ].
      split; [ f_equal; exact Hl | ].
      split; [ | exact Hi ].
      rewrite Hok. split.
      * intros [H1 _]. discriminate H1.
      * intros [_ H2]. exfalso. inversion H2 as [ | x l Hx _ ]. apply E. exact Hx.
Qed.

Lemma run_evictKeyLegacy (raw_ref : list byte) (s : State W) :
  run handler (evictKeyLegacy raw_ref) s =
  let search := keyctl_search KEY_SPEC_SESSION_KEYRING "keyring" "fscrypt" in
  let '(device_keyring, w) := handler search (world s) in
  let s1 := {| supported := supported s; world := w |} in
  if device_keyring =? -1 then
    (false, [Ev search device_keyring; Logged ERROR Unable_to_find_device_keyring], s1)
  else
    let '(ok, tr, s2) :=
      run handler (evictKeyLegacy_loop NAME_PREFIXES raw_ref device_keyring true) s1 in
    (ok, Ev search device_keyring :: tr, s2).
Proof.
  unfold evictKeyLegacy.
  rewrite run_bind, run_fscryptKeyring. cbv zeta.
  destruct (handler _ (world s)) as [device_keyring w].
  destruct (device_keyring =? -1); cbn [negb].
  - reflexivity.
  - destruct (run handler _ _) as [[ok tr] s2]. reflexivity.
Qed.


(** *** [waitForBusyFiles] *)

(** One evaluation of the loop condition and, if it holds, one attempt. *)
Lemma run_waitForBusyFiles_loop_S (fuel : nat) (fd : Z) (key_spec : fscrypt_key_specifier)
  (ref mountpoint : string) (wait_time total_wait_time : Z) (s : State W) :
  run handler
    (waitForBusyFiles_loop (S fuel) fd key_spec ref mountpoint wait_time total_wait_time) s =
  if wait_time <=? 51200 then
    let total := total_wait_time + wait_time in
    let get := ioctl_GET_ENCRYPTION_KEY_STATUS fd key_spec in
    let remove := ioctl_REMOVE_ENCRYPTION_KEY fd key_spec in
    let '(u, w1) := handler (sleep_for wait_time) (world s) in
    let '((ret, status), w2) := handler get w1 in
    let s2 := {| supported := supported s; world := w2 |} in
    let checked := [Ev (sleep_for wait_time) u; Ev get (ret, status)] in
    if negb (ret =? 0) then
      (Some tt, checked ++ [Logged ERROR (Failed_to_get_status ref mountpoint)], s2)
    else if negb (status =? FSCRYPT_KEY_STATUS_INCOMPLETELY_REMOVED) then
      (Some tt, checked ++ [Logged DEBUG (Key_status_changed ref)], s2)
    else
      let '((ret', removal_status_flags), w3) := handler remove w2 in
      let s3 := {| supported := supported s; world := w3 |} in
      let retried := checked ++ [Ev remove (ret', removal_status_flags)] in
      if negb (ret' =? 0) then
        (Some tt, retried ++ [Logged ERROR (Failed_to_clean_up_busy_files ref mountpoint)], s3)
      else
        let '(r, tr, s') :=
          run handler
            (waitForBusyFiles_loop fuel fd key_spec ref mountpoint (wait_time * 2) total) s3 in
        if negb (Z.land removal_status_flags
                   FSCRYPT_KEY_REMOVAL_STATUS_FLAG_OTHER_USERS =? 0) then
          (r, retried ++ [Logged ERROR (Still_added_by_other_users ref);
                          Logged WARNING (Files_still_open_after_waiting total ref)] ++ tr, s')
        else if Z.land removal_status_flags
                  FSCRYPT_KEY_REMOVAL_STATUS_FLAG_FILES_BUSY =? 0 then
          (Some tt, retried ++ [Logged INFO (Successfully_cleaned_up_busy_files ref total)], s3)
        else
          (r, retried ++ [Logged WARNING (Files_still_open_after_waiting total ref)] ++ tr, s')
  else (Some tt, [Logged ERROR (Waiting_never_completed ref)], s).
Proof.
  cbn [waitForBusyFiles_loop].
  destruct (wait_time <=? 51200); [ | reflexivity ].
  cbn [bind call]. rewrite run_Call. cbv zeta.
  destruct (handler (sleep_for wait_time) (world s)) as [u w1].
  rewrite run_Call. cbn [world supported].
  destruct (handler (ioctl_GET_ENCRYPTION_KEY_STATUS fd key_spec) w1) as [[ret status] w2].
  destruct (ret =? 0); cbn [negb]; [ | reflexivity ].
  destruct (status =? FSCRYPT_KEY_STATUS_INCOMPLETELY_REMOVED); cbn [negb]; [ | reflexivity ].
  cbn [bind call]. rewrite run_Call. cbn [world supported].
  destruct (handler (ioctl_REMOVE_ENCRYPTION_KEY fd key_spec) w2)
    as [[ret' removal_status_flags] w3].
  destruct (ret' =? 0); cbn [negb]; [ | reflexivity ].
  destruct (Z.land removal_status_flags FSCRYPT_KEY_REMOVAL_STATUS_FLAG_OTHER_USERS =? 0);
    cbn [negb].
  - destruct (Z.land removal_status_flags FSCRYPT_KEY_REMOVAL_STATUS_FLAG_FILES_BUSY =? 0).
    + cbn [bind LOG]. rewrite run_Log, run_Ret.
      destruct (run handler _ _) as [[r tr] s']. reflexivity.
    + cbn [bind LOG]. rewrite run_Log.
      destruct (run handler _ _) as [[r tr] s']. reflexivity.
  - cbn [bind LOG]. rewrite !run_Log.
    destruct (run handler _ _) as [[r tr] s']. reflexivity.
Qed.

(** From a delay that doubles past the limit after [n] attempts, the loop is
    left within [n] attempts: [S n] evaluations of its condition are enough,
    more change nothing, and the attempts made are the first of the [n]. *)
Lemma waitForBusyFiles_loop_bounded (n : nat) :
  forall (wait_time total_wait_time : Z) (more : nat) (fd : Z)
         (key_spec : fscrypt_key_specifier) (ref mountpoint : string) (s : State W),
  0 < wait_time ->
  Forall (fun t => t <= 51200) (doubling n wait_time) ->
  51200 < wait_time * 2 ^ Z.of_nat n ->
  let enough :=
    run handler
      (waitForBusyFiles_loop (S n) fd key_spec ref mountpoint wait_time total_wait_time) s in
  run handler
    (waitForBusyFiles_loop (S n + more) fd key_spec ref mountpoint wait_time total_wait_time) s
    = enough
  /\ fst (fst enough) = Some tt
  /\ exists m, steps (snd (fst enough)) = firstn m (flat_map attempt (doubling n wait_time)).
Proof.
  induction n as [ | n IH ]; intros wait_time total_wait_time more fd key_spec ref mountpoint s
    Hpos Hle Hgt; cbv zeta.
  - change (1 + more)%nat with (S more).
    rewrite !run_waitForBusyFiles_loop_S.
    change (2 ^ Z.of_nat 0) with 1 in Hgt.
    destruct (Z.leb_spec wait_time 51200) as [H | H]; [ lia | ].
    split; [ reflexivity | split; [ reflexivity | exists 0%nat; reflexivity ] ].
  - change (S (S n) + more)%nat with (S (S n + more)).
    rewrite !run_waitForBusyFiles_loop_S.
    inversion Hle as [ | t ts Hhead Htail ]; subst.
    destruct (Z.leb_spec wait_time 51200) as [H | H]; [ clear H | lia ].
    cbv zeta.
    destruct (handler (sleep_for wait_time) (world s)) as [u w1].
    destruct (handler (ioctl_GET_ENCRYPTION_KEY_STATUS fd key_spec) w1) as [[ret status] w2].
    destruct (ret =? 0); cbn [negb].
    2: { split; [ reflexivity | split; [ reflexivity | exists 2%nat; reflexivity ] ]. }
    destruct (status =? FSCRYPT_KEY_STATUS_INCOMPLETELY_REMOVED); cbn [negb].
    2: { split; [ reflexivity | split; [ reflexivity | exists 2%nat; reflexivity ] ]. }
    destruct (handler (ioctl_REMOVE_ENCRYPTION_KEY fd key_spec) w2)
      as [[ret' removal_status_flags] w3].
    destruct (ret' =? 0); cbn [negb].
    2: { split; [ reflexivity | split; [ reflexivity | exists 3%nat; reflexivity ] ]. }
    assert (Hgt' : 51200 < wait_time * 2 * 2 ^ Z.of_nat n).
    { rewrite Nat2Z.inj_succ, Z.pow_succ_r in Hgt by lia. lia. }
    destruct (IH (wait_time * 2) (total_wait_time + wait_time) more fd key_spec ref mountpoint
                {| supported := supported s; world := w3 |} ltac:(lia) Htail Hgt')
      as (Hsame & Hres & m & Hm).
    rewrite Hsame. clear Hsame.
    destruct (run handler _ _) as [[r tr] s'].
    cbn [fst snd] in Hres, Hm.
    destruct (Z.land removal_status_flags FSCRYPT_KEY_REMOVAL_STATUS_FLAG_OTHER_USERS =? 0);
      cbn [negb].
    + destruct (Z.land removal_status_flags FSCRYPT_KEY_REMOVAL_STATUS_FLAG_FILES_BUSY =? 0).
      * split; [ reflexivity | split; [ reflexivity | exists 3%nat; reflexivity ] ].
      * split; [ reflexivity | split; [ exact Hres | ] ].
        exists (3 + m)%nat. cbn [fst snd]. observe. rewrite Hm. reflexivity.
    + split; [ reflexivity | split; [ exact Hres | ] ].
      exists (3 + m)%nat. cbn [fst snd]. observe. rewrite Hm. reflexivity.
Qed.

(** The delays of a prefix of the schedule are a prefix of the backoff
    sequence. *)
Lemma slept_of_schedule (m : nat) :
  let delays := flat_map slept_of (firstn m schedule) in
  delays = firstn (length delays) backoff /\ (length delays <= 5)%nat.
Proof.
  do 17 (destruct m as [ | m ]; [ cbn; split; [ reflexivity | lia ] | ]).
  cbv zeta. rewrite firstn_all2 by (cbn; lia).
  cbn. split; [ reflexivity | lia ].
Qed.

(** With enough fuel the loop is the walk through the delays it doubles
    through. *)
Lemma waitForBusyFiles_loop_attempts (n : nat) :
  forall (wait_time total_wait_time : Z) (more : nat) (fd : Z)
         (key_spec : fscrypt_key_specifier) (ref mountpoint : string) (s : State W),
  0 < wait_time ->
  Forall (fun t => t <= 51200) (doubling n wait_time) ->
  51200 < wait_time * 2 ^ Z.of_nat n ->
  run handler
    (waitForBusyFiles_loop (S n + more) fd key_spec ref mountpoint wait_time total_wait_time) s
  = (Some tt,
     fst (reaper_attempts handler (doubling n wait_time) fd key_spec ref mountpoint
            total_wait_time s),
     snd (reaper_attempts handler (doubling n wait_time) fd key_spec ref mountpoint
            total_wait_time s)).
Proof.
  induction n as [ | n IH ]; intros wait_time total_wait_time more fd key_spec ref mountpoint s
    Hpos Hle Hgt.
  - change (1 + more)%nat with (S more).
    rewrite run_waitForBusyFiles_loop_S.
    change (2 ^ Z.of_nat 0) with 1 in Hgt.
    destruct (Z.leb_spec wait_time 51200) as [H | H]; [ lia | reflexivity ].
  - change (S (S n) + more)%nat with (S (S n + more)).
    rewrite run_waitForBusyFiles_loop_S.
    inversion Hle as [ | t ts Hhead Htail ]; subst.
    destruct (Z.leb_spec wait_time 51200) as [H | H]; [ clear H | lia ].
    cbn [doubling reaper_attempts]. cbv zeta.
    destruct (handler (sleep_for wait_time) (world s)) as [u w1].
    destruct (handler (ioctl_GET_ENCRYPTION_KEY_STATUS fd key_spec) w1) as [[ret status] w2].
    destruct (ret =? 0); cbn [negb]; [ | reflexivity ].
    destruct (status =? FSCRYPT_KEY_STATUS_INCOMPLETELY_REMOVED); cbn [negb];
      [ | reflexivity ].
    destruct (handler (ioctl_REMOVE_ENCRYPTION_KEY fd key_spec) w2)
      as [[ret' removal_status_flags] w3].
    destruct (ret' =? 0); cbn [negb]; [ | reflexivity ].
    assert (Hgt' : 51200 < wait_time * 2 * 2 ^ Z.of_nat n).
    { rewrite Nat2Z.inj_succ, Z.pow_succ_r in Hgt by lia. lia. }
    rewrite (IH (wait_time * 2) (total_wait_time + wait_time) more fd key_spec ref mountpoint
               {| supported := supported s; world := w3 |} ltac:(lia) Htail Hgt').
    destruct (reaper_attempts handler _ _ _ _ _ _ _) as [tr s'].
    unfold other_users, files_busy. cbn [fst snd].
    destruct (Z.land removal_status_flags FSCRYPT_KEY_REMOVAL_STATUS_FLAG_OTHER_USERS =? 0);
      cbn [negb]; [ | reflexivity ].
    destruct (Z.land removal_status_flags FSCRYPT_KEY_REMOVAL_STATUS_FLAG_FILES_BUSY =? 0);
      reflexivity.
Qed.

(** How far the walk gets: one status query per sleep, one removal per
    query that found the key incompletely removed, and one more sleep per
    removal that left the key busy, as long as there is a delay left. *)
Lemma reaper_attempts_counts (delays : list Z) (fd : Z) (key_spec : fscrypt_key_specifier)
  (ref mountpoint : string) :
  forall (total_wait_time : Z) (s : State W),
  let tr := fst (reaper_attempts handler delays fd key_spec ref mountpoint total_wait_time s) in
  length (statuses tr) = length (sleeps tr)
  /\ length (removals tr) = length (filter still_incomplete (statuses tr))
  /\ length (sleeps tr)
     = Nat.min (length delays) (S (length (filter stays_busy (removals tr)))).
Proof.
  induction delays as [ | wait_time delays IH ]; intros total_wait_time s; cbv zeta.
  { cbn. repeat split; lia. }
  cbn [reaper_attempts]. cbv zeta.
  destruct (handler (sleep_for wait_time) (world s)) as [u w1].
  destruct (handler (ioctl_GET_ENCRYPTION_KEY_STATUS fd key_spec) w1) as [[ret status] w2].
  destruct (ret =? 0) eqn:Eret; cbn [negb].
  2: { cbn [fst]. observe_all. unfold still_incomplete. cbn [filter fst snd length].
       rewrite Eret. cbn [andb length]. repeat split; lia. }
  destruct (status =? FSCRYPT_KEY_STATUS_INCOMPLETELY_REMOVED) eqn:Est; cbn [negb].
  2: { cbn [fst]. observe_all. unfold still_incomplete. cbn [filter fst snd length].
       rewrite Eret, Est. cbn [andb length]. repeat split; lia. }
  destruct (handler (ioctl_REMOVE_ENCRYPTION_KEY fd key_spec) w2)
    as [[ret' removal_status_flags] w3].
  destruct (ret' =? 0) eqn:Eret'; cbn [negb].
  2: { cbn [fst]. observe_all. unfold still_incomplete, stays_busy.
       cbn [filter fst snd length]. rewrite Eret, Est, Eret'. cbn [andb length].
       repeat split; lia. }
  specialize (IH (total_wait_time + wait_time) {| supported := supported s; world := w3 |}).
  cbv zeta in IH.
  destruct (reaper_attempts handler delays _ _ _ _ _ _) as [tr s'].
  cbn [fst] in IH. destruct IH as (I1 & I2 & I3).
  destruct (other_users removal_status_flags) eqn:Eo;
    [ | destruct (files_busy removal_status_flags) eqn:Eb ];
    cbn [fst]; observe_all; unfold still_incomplete, stays_busy;
    cbn [filter fst snd length]; rewrite Eret, Est, Eret', Eo; try rewrite Eb;
    cbn [andb orb length filter].
  - fold still_incomplete stays_busy. repeat split; lia.
  - fold still_incomplete stays_busy. repeat split; lia.
  - repeat split; lia.
Qed.

(** C2.  Whatever the kernel answers, the reaper [waitForBusyFiles] comes to
    an end: six evaluations of the loop condition are enough and more change
    nothing.  Its calls are the first of the schedule "open, then for each
    of the delays 3200, 6400, 12800, 25600, 51200 ms one attempt: sleep for
    that delay, check the status of the key, retry its removal"; so the
    delays slept are the first of that sequence, in that order, none is
    above 51200 ms and at most five attempts are made.  Under a kernel that
    keeps reporting busy files, all five delays are used.

    How far a run gets is fixed by the answers it is given.  If the
    mountpoint cannot be opened nothing is slept.  Otherwise the run is the
    walk [reaper_attempts] through the five delays: the first delay is
    always slept, every sleep is followed by one status query, a removal is
    retried exactly after the queries that succeeded and found the key
    incompletely removed, and the next delay is slept exactly after the
    removals that succeeded and left the key busy, until the five delays
    are used up.  So under every kernel that keeps answering so, the delays
    slept are all five. *)
Theorem waitForBusyFiles_backoff (more : nat) (key_spec : fscrypt_key_specifier)
  (ref mountpoint : string) (s : State W) :
  let r := run handler (waitForBusyFiles (6 + more) key_spec ref mountpoint) s in
  let tr := snd (fst r) in
  let fd := fst (handler (open mountpoint) (world s)) in
  let s1 := {| supported := supported s;
               world := snd (handler (open mountpoint) (world s)) |} in
  r = run handler (waitForBusyFiles 6 key_spec ref mountpoint) s
  /\ fst (fst r) = Some tt
  /\ (exists m, steps tr = firstn m schedule)
  /\ sleeps tr = firstn (length (sleeps tr)) backoff
  /\ (length (sleeps tr) <= 5)%nat
  /\ Forall (fun t => t <= 51200) (sleeps tr)
  /\ sleeps (trace toy_handler (waitForBusyFiles 6 key_spec ref mountpoint) (boot toy_busy))
     = backoff
  /\ (fd = -1 ->
        tr = [Ev (open mountpoint) fd; Logged ERROR (Failed_to_open_to_evict_key mountpoint)])
  /\ (fd <> -1 ->
        tr = Ev (open mountpoint) fd
             :: fst (reaper_attempts handler backoff fd key_spec ref mountpoint 0 s1))
  /\ length (statuses tr) = length (sleeps tr)
  /\ length (removals tr) = length (filter still_incomplete (statuses tr))
  /\ (fd <> -1 ->
        length (sleeps tr) = Nat.min 5 (S (length (filter stays_busy (removals tr)))))
  /\ (fd <> -1 ->
        forallb still_incomplete (statuses tr) = true ->
        forallb stays_busy (removals tr) = true ->
        sleeps tr = backoff).
Proof.
  cbv zeta.
  assert (Hold :
    let r := run handler (waitForBusyFiles (6 + more) key_spec ref mountpoint) s in
    let tr := snd (fst r) in
    r = run handler (waitForBusyFiles 6 key_spec ref mountpoint) s
    /\ fst (fst r) = Some tt
    /\ (exists m, steps tr = firstn m schedule)
    /\ sleeps tr = firstn (length (sleeps tr)) backoff
    /\ (length (sleeps tr) <= 5)%nat
    /\ Forall (fun t => t <= 51200) (sleeps tr)
    /\ sleeps (trace toy_handler (waitForBusyFiles 6 key_spec ref mountpoint)
                 (boot toy_busy))
       = backoff).
  { cbv zeta.
    assert (Hcore :
      run handler (waitForBusyFiles (6 + more) key_spec ref mountpoint) s
        = run handler (waitForBusyFiles 6 key_spec ref mountpoint) s
      /\ fst (fst (run handler (waitForBusyFiles 6 key_spec ref mountpoint) s)) = Some tt
      /\ exists m,
           steps (snd (fst (run handler (waitForBusyFiles 6 key_spec ref mountpoint) s)))
           = firstn m schedule).
    { unfold waitForBusyFiles. cbn [bind call]. rewrite !run_Call.
      destruct (handler (open mountpoint) (world s)) as [fd w].
      destruct (fd =? -1).
      - split; [ reflexivity | split; [ reflexivity | exists 1%nat; reflexivity ] ].
      - destruct (waitForBusyFiles_loop_bounded 5 (wait_time := 3200) 0 more fd key_spec ref
                    mountpoint {| supported := supported s; world := w |})
          as (Hsame & Hres & m & Hm).
        + lia.
        + repeat constructor; lia.
        + reflexivity.
        + rewrite Hsame. clear Hsame.
          destruct (run handler _ _) as [[r tr] s'].
          cbn [fst snd] in *.
          split; [ reflexivity | split; [ exact Hres | ] ].
          exists (S m). observe. rewrite Hm. reflexivity. }
    destruct Hcore as (Hsame & Hres & m & Hm).
    rewrite Hsame.
    pose proof (slept_of_schedule m) as Hs. cbv zeta in Hs.
    rewrite <- Hm, <- sleeps_steps in Hs. destruct Hs as [Hprefix Hlen].
    split; [ reflexivity | ].
    split; [ exact Hres | ].
    split; [ exists m; exact Hm | ].
    split; [ exact Hprefix | ].
    split; [ exact Hlen | ].
    split; [ | reflexivity ].
    rewrite Hprefix. apply Forall_forall. intros t Ht.
    assert (Hin : In t backoff).
    { rewrite <- (firstn_skipn (length (sleeps (snd (fst
        (run handler (waitForBusyFiles 6 key_spec ref mountpoint) s))))) backoff).
      apply in_or_app. left. exact Ht. }
    cbn in Hin. intuition lia. }
  cbv zeta in Hold.
  destruct Hold as (H1 & H2 & H3 & H4 & H5 & H6 & H7).
  assert (Hwalk :
    let tr := snd (fst (run handler
                          (waitForBusyFiles (6 + more) key_spec ref mountpoint) s)) in
    let fd := fst (handler (open mountpoint) (world s)) in
    let s1 := {| supported := supported s;
                 world := snd (handler (open mountpoint) (world s)) |} in
    (fd = -1 ->
       tr = [Ev (open mountpoint) fd; Logged ERROR (Failed_to_open_to_evict_key mountpoint)])
    /\ (fd <> -1 ->
          tr = Ev (open mountpoint) fd
               :: fst (reaper_attempts handler backoff fd key_spec ref mountpoint 0 s1))).
  { cbv zeta. unfold waitForBusyFiles. cbn [bind call]. rewrite run_Call.
    destruct (handler (open mountpoint) (world s)) as [fd w]. cbn [fst snd].
    destruct (Z.eqb_spec fd (-1)) as [E | E].
    - split; [ intros _; reflexivity | intros E'; contradiction ].
    - split; [ intros E'; contradiction | intros _ ].
      change (6 + more)%nat with (S 5 + more)%nat.
      rewrite (waitForBusyFiles_loop_attempts 5 (wait_time := 3200) 0 more fd key_spec ref
                 mountpoint {| supported := supported s; world := w |});
        [ reflexivity | lia | repeat constructor; lia | reflexivity ]. }
  cbv zeta in Hwalk. destruct Hwalk as (Hclosed & Hopen).
  assert (Hcount :
    let tr := snd (fst (run handler
                          (waitForBusyFiles (6 + more) key_spec ref mountpoint) s)) in
    length (statuses tr) = length (sleeps tr)
    /\ length (removals tr) = length (filter still_incomplete (statuses tr))
    /\ (fst (handler (open mountpoint) (world s)) <> -1 ->
        length (sleeps tr) = Nat.min 5 (S (length (filter stays_busy (removals tr)))))).
  { cbv zeta.
    destruct (Z.eq_dec (fst (handler (open mountpoint) (world s))) (-1)) as [E | E].
    - rewrite (Hclosed E). observe_all. cbn.
      split; [ reflexivity | split; [ reflexivity | intros E'; contradiction ] ].
    - rewrite (Hopen E).
      pose proof (reaper_attempts_counts backoff (fst (handler (open mountpoint) (world s)))
                    key_spec ref mountpoint 0
                    {| supported := supported s;
                       world := snd (handler (open mountpoint) (world s)) |}) as C.
      cbv zeta in C.
      destruct (reaper_attempts handler backoff _ _ _ _ _ _) as [walk s'].
      cbn [fst] in *. observe_all.
      destruct C as (C1 & C2 & C3).
      split; [ exact C1 | split; [ exact C2 | intros _; exact C3 ] ]. }
  cbv zeta in Hcount. destruct Hcount as (C1 & C2 & C3).
  split; [ exact H1 | split; [ exact H2 | split; [ exact H3 | split; [ exact H4 | ] ] ] ].
  split; [ exact H5 | split; [ exact H6 | split; [ exact H7 | ] ] ].
  split; [ exact Hclosed | split; [ exact Hopen | ] ].
  split; [ exact C1 | split; [ exact C2 | split; [ exact C3 | ] ] ].
  intros E Hs Hr.
  apply forallb_filter_id in Hs. apply forallb_filter_id in Hr.
  specialize (C3 E). rewrite Hr, C2, Hs, C1 in C3.
  rewrite H4.
  replace (length (sleeps (snd (fst (run handler
             (waitForBusyFiles (6 + more) key_spec ref mountpoint) s))))) with 5%nat
    by lia.
  reflexivity.
Qed.

(** *** [isFsKeyringSupported] *)

Lemma run_isFsKeyringSupportedImpl (s : State W) :
  run handler isFsKeyringSupportedImpl s =
  let '(fd, w1) := handler (open "/data") (world s) in
  let '(errno, w2) := handler (ioctl_ADD_ENCRYPTION_KEY_NULL fd) w1 in
  let s' := {| supported := supported s; world := w2 |} in
  let probe := [Ev (open "/data") fd; Ev (ioctl_ADD_ENCRYPTION_KEY_NULL fd) errno] in
  if errno =? ENOTTY then
    (false, probe ++ [Logged INFO Kernel_doesnt_support_ADD_ENCRYPTION_KEY], s')
  else if errno =? EFAULT then
    (true, probe ++ [Logged DEBUG Detected_support_for_ADD_ENCRYPTION_KEY], s')
  else
    (true, probe ++ [Logged WARNING Unexpected_error_from_ADD_ENCRYPTION_KEY;
                     Logged DEBUG Detected_support_for_ADD_ENCRYPTION_KEY], s').
Proof.
  unfold isFsKeyringSupportedImpl. cbn [bind call]. rewrite run_Call. cbv zeta.
  destruct (handler (open "/data") (world s)) as [fd w1].
  rewrite run_Call. cbn [world supported].
  destruct (handler (ioctl_ADD_ENCRYPTION_KEY_NULL fd) w1) as [errno w2].
  destruct (errno =? ENOTTY); [ reflexivity | ].
  destruct (errno =? EFAULT); reflexivity.
Qed.

Lemma run_isFsKeyringSupported (s : State W) :
  run handler isFsKeyringSupported s =
  match supported s with
  | Some cached => (cached, [], s)
  | None =>
      let '(probed, tr, s') := run handler isFsKeyringSupportedImpl s in
      (probed, tr, {| supported := Some probed; world := world s' |})
  end.
Proof.
  unfold isFsKeyringSupported. cbn [run].
  destruct (supported s) as [ cached | ]; [ reflexivity | ].
  rewrite run_bind.
  destruct (run handler isFsKeyringSupportedImpl s) as [[probed tr] s'].
  cbn [run]. rewrite app_nil_r. reflexivity.
Qed.

(** The probe is remembered: after a call the static holds its result. *)
Lemma isFsKeyringSupported_cached (s : State W) :
  supported (final handler isFsKeyringSupported s)
  = Some (result handler isFsKeyringSupported s).
Proof.
  unfold final, result. rewrite run_isFsKeyringSupported.
  destruct (supported s) as [ cached | ] eqn:E.
  - cbn. exact E.
  - destruct (run handler isFsKeyringSupportedImpl s) as [[probed tr] s']. reflexivity.
Qed.

(** After a first call, a second one answers the same without probing. *)
Lemma isFsKeyringSupported_once (s : State W) :
  run handler isFsKeyringSupported (final handler isFsKeyringSupported s)
  = (result handler isFsKeyringSupported s, [], final handler isFsKeyringSupported s).
Proof.
  rewrite run_isFsKeyringSupported, isFsKeyringSupported_cached. reflexivity.
Qed.

(** The probe touches neither the keyring nor any key. *)
Lemma isFsKeyringSupported_quiet (s : State W) :
  let tr := trace handler isFsKeyringSupported s in
  removals tr = [] /\ reapers tr = [] /\ insertions tr = [] /\ unlinks tr = []
  /\ searches tr = [] /\ filter is_keyring_call tr = [].
Proof.
  unfold trace. rewrite run_isFsKeyringSupported.
  destruct (supported s) as [ cached | ]; [ cbn; repeat split | ].
  rewrite run_isFsKeyringSupportedImpl.
  destruct (handler (open "/data") (world s)) as [fd w1].
  destruct (handler (ioctl_ADD_ENCRYPTION_KEY_NULL fd) w1) as [errno w2].
  cbv zeta.
  destruct (errno =? ENOTTY); [ cbn; repeat split | ].
  destruct (errno =? EFAULT); cbn; repeat split.
Qed.

(** *** [evictKey] *)

(** Legacy evict issues no key ioctl and starts no reaper. *)
Lemma evictKeyLegacy_loop_quiet (name_prefix : list string) (raw_ref : list byte)
  (device_keyring : Z) (success : bool) (s : State W) :
  let tr := trace handler (evictKeyLegacy_loop name_prefix raw_ref device_keyring success) s in
  removals tr = [] /\ reapers tr = [].
Proof.
  unfold trace.
  revert success s. induction name_prefix as [ | prefix rest IH ]; intros success s.
  - cbn. split; reflexivity.
  - cbn [evictKeyLegacy_loop bind call].
    rewrite run_Call.
    destruct (handler _ (world s)) as [key_serial w].
    rewrite run_Call. cbn [supported world].
    destruct (handler _ w) as [ret w'].
    destruct (ret =? 0); cbn [negb bind LOG]; rewrite run_Log.
    + specialize (IH success {| supported := supported s; world := w' |}).
      destruct (run handler _ _) as [[ok tr] s']. cbn [fst snd] in *. observe. exact IH.
    + specialize (IH false {| supported := supported s; world := w' |}).
      destruct (run handler _ _) as [[ok tr] s']. cbn [fst snd] in *. observe. exact IH.
Qed.

Lemma evictKeyLegacy_quiet (raw_ref : list byte) (s : State W) :
  let tr := trace handler (evictKeyLegacy raw_ref) s in
  removals tr = [] /\ reapers tr = [].
Proof.
  unfold trace. rewrite run_evictKeyLegacy. cbv zeta.
  destruct (handler _ (world s)) as [device_keyring w].
  destruct (device_keyring =? -1).
  - cbn. split; reflexivity.
  - pose proof (evictKeyLegacy_loop_quiet NAME_PREFIXES raw_ref device_keyring true
                  {| supported := supported s; world := w |}) as H.
    unfold trace in H. cbv zeta in H.
    destruct (run handler _ _) as [[ok tr] s2]. cbn [fst snd] in *. observe. exact H.
Qed.

Lemma run_evictKey (mountpoint : string) (policy : EncryptionPolicy) (s : State W) :
  run handler (evictKey mountpoint policy) s =
  if fscrypt.version (fscrypt.options policy) =? 1 then
    let '(modern, probe, s1) := run handler isFsKeyringSupported s in
    if negb modern then
      let '(ok, tr, s2) := run handler (evictKeyLegacy (fscrypt.key_raw_ref policy)) s1 in
      (ok, probe ++ tr, s2)
    else
      let '(ok, tr, s2) := evict_modern_run handler mountpoint policy s1 in
      (ok, probe ++ tr, s2)
  else evict_modern_run handler mountpoint policy s.
Proof.
  assert (Hmodern : forall s1 : State W,
    run handler
      (fd <- call (open mountpoint) ;;
       if fd =? -1 then
         LOG ERROR (Failed_to_open_to_evict_key mountpoint) ;;
         Ret false
       else
       '(ok, key_spec) <- buildKeySpecifier fscrypt_key_specifier_zero policy ;;
       if negb ok then Ret false else
       let ref := keyrefstring (fscrypt.key_raw_ref policy) in
       '(ret, removal_status_flags) <- call (ioctl_REMOVE_ENCRYPTION_KEY fd key_spec) ;;
       if negb (ret =? 0) then
         LOG ERROR (Failed_to_evict_fscrypt_key ref mountpoint) ;;
         Ret false
       else
       LOG DEBUG (Evicted_fscrypt_key ref mountpoint) ;;
       (if negb (Z.land removal_status_flags
                   FSCRYPT_KEY_REMOVAL_STATUS_FLAG_OTHER_USERS =? 0) then
          LOG ERROR (Still_added_by_other_users ref)
        else if negb (Z.land removal_status_flags
                        FSCRYPT_KEY_REMOVAL_STATUS_FLAG_FILES_BUSY =? 0) then
          LOG WARNING (Files_still_open_punting ref) ;;
          call (thread_waitForBusyFiles key_spec ref mountpoint)
        else Ret tt) ;;
       Ret true) s1
    = evict_modern_run handler mountpoint policy s1).
  { intros s1. unfold evict_modern_run. cbn [bind call]. rewrite run_Call.
    destruct (handler (open mountpoint) (world s1)) as [fd w1].
    destruct (fd =? -1); [ reflexivity | ].
    rewrite run_bind, run_buildKeySpecifier. cbv zeta.
    unfold removal_outcome, other_users, files_busy.
    destruct (fscrypt.version (fscrypt.options policy) =? 1);
      [ destruct (Nat.eqb _ FSCRYPT_KEY_DESCRIPTOR_SIZE)
      | destruct (fscrypt.version (fscrypt.options policy) =? 2);
        [ destruct (Nat.eqb _ FSCRYPT_KEY_IDENTIFIER_SIZE) | ] ];
      cbn [negb]; try reflexivity.
    all: cbn [bind call app]; rewrite run_Call; cbn [world supported];
      match goal with
      | |- context [handler (ioctl_REMOVE_ENCRYPTION_KEY ?f ?sp) ?w] =>
          destruct (handler (ioctl_REMOVE_ENCRYPTION_KEY f sp) w) as [[ret flags] w2]
      end;
      (destruct (ret =? 0); cbn [negb]; [ | reflexivity ]);
      cbn [bind LOG]; rewrite run_Log;
      (destruct (Z.land flags FSCRYPT_KEY_REMOVAL_STATUS_FLAG_OTHER_USERS =? 0);
       cbn [negb bind LOG]; [ | reflexivity ]);
      (destruct (Z.land flags FSCRYPT_KEY_REMOVAL_STATUS_FLAG_FILES_BUSY =? 0);
       cbn [negb bind LOG call]; [ reflexivity | ]);
      rewrite run_Log, run_Call; cbn [world supported];
      match goal with
      | |- context [handler (thread_waitForBusyFiles ?a ?b ?c) ?w] =>
          destruct (handler (thread_waitForBusyFiles a b c) w) as [u w3]
      end;
      reflexivity. }
  unfold evictKey.
  destruct (fscrypt.version (fscrypt.options policy) =? 1).
  - rewrite run_bind, run_bind.
    destruct (run handler isFsKeyringSupported s) as [[modern probe] s1].
    cbn [run]. rewrite app_nil_r.
    destruct modern; cbn [negb].
    + rewrite Hmodern. destruct (evict_modern_run handler mountpoint policy s1) as [[ok tr] s2].
      reflexivity.
    + destruct (run handler (evictKeyLegacy _) s1) as [[ok tr] s2]. reflexivity.
  - rewrite run_bind. cbn [run]. rewrite Hmodern.
    destruct (evict_modern_run handler mountpoint policy s) as [[ok tr] s2]. reflexivity.
Qed.

Lemma evict_modern_run_outcomes (mountpoint : string) (policy : EncryptionPolicy)
  (s1 : State W) :
  let ok := fst (fst (evict_modern_run handler mountpoint policy s1)) in
  let tr := snd (fst (evict_modern_run handler mountpoint policy s1)) in
  let fd := fst (handler (open mountpoint) (world s1)) in
  let w1 := snd (handler (open mountpoint) (world s1)) in
  let built := result handler (buildKeySpecifier fscrypt_key_specifier_zero policy) s1 in
  let key_spec := snd built in
  let answer := fst (handler (ioctl_REMOVE_ENCRYPTION_KEY fd key_spec) w1) in
  let ref := keyrefstring (fscrypt.key_raw_ref policy) in
  (fd = -1 -> ok = false /\ removals tr = [] /\ reapers tr = [])
  /\ (fd <> -1 -> fst built = false -> ok = false /\ removals tr = [] /\ reapers tr = [])
  /\ (fd <> -1 -> fst built = true ->
        removals tr = [(key_spec, answer)]
        /\ (fst answer <> 0 -> ok = false /\ reapers tr = [])
        /\ (fst answer = 0 ->
              ok = true /\
              match removal_outcome (snd answer) with
              | Fully_removed =>
                  logged tr = [(DEBUG, Evicted_fscrypt_key ref mountpoint)]
                  /\ reapers tr = []
              | Still_used_by_others =>
                  logged tr = [(DEBUG, Evicted_fscrypt_key ref mountpoint);
                               (ERROR, Still_added_by_other_users ref)]
                  /\ reapers tr = []
              | Blocked_by_open_files =>
                  logged tr = [(DEBUG, Evicted_fscrypt_key ref mountpoint);
                               (WARNING, Files_still_open_punting ref)]
                  /\ reapers tr = [(key_spec, ref, mountpoint)]
              end)).
Proof.
  unfold evict_modern_run, result.
  destruct (handler (open mountpoint) (world s1)) as [fd w1]. cbn [fst snd].
  destruct (Z.eqb_spec fd (-1)) as [Efd | Efd].
  { cbn [fst snd]. observe. cases. }
  rewrite !run_buildKeySpecifier. cbv zeta.
  destruct (fscrypt.version (fscrypt.options policy) =? 1);
    [ destruct (Nat.eqb _ FSCRYPT_KEY_DESCRIPTOR_SIZE)
    | destruct (fscrypt.version (fscrypt.options policy) =? 2);
      [ destruct (Nat.eqb _ FSCRYPT_KEY_IDENTIFIER_SIZE) | ] ];
    cbn [negb fst snd]; try (observe; cases).
  all: match goal with
       | |- context [handler (ioctl_REMOVE_ENCRYPTION_KEY ?f ?sp) ?w] =>
           destruct (handler (ioctl_REMOVE_ENCRYPTION_KEY f sp) w) as [[ret flags] w2]
       end;
    cbn [fst snd];
    (destruct (Z.eqb_spec ret 0) as [Eret | Eret]; cbn [negb fst snd];
     [ | observe; cases ]);
    destruct (removal_outcome flags); cbn [fst snd];
    try match goal with
        | |- context [handler (thread_waitForBusyFiles ?a ?b ?c) ?w] =>
            destruct (handler (thread_waitForBusyFiles a b c) w) as [u w3]
        end;
    cbn [fst snd]; observe; cases.
Qed.

(** C1, as amended.  When the policy is of version 1 and the kernel lacks
    the key-management ioctls, [evictKey] hands the key to the legacy evict
    and issues no remove-key ioctl.  Otherwise it opens the mountpoint,
    builds the specifier from the policy and issues one remove-key ioctl with
    it; it fails if the mountpoint cannot be opened or the specifier cannot
    be built (no ioctl is issued then) or the ioctl fails.  When the ioctl
    succeeds the value returned is [true] in each of the three outcomes,
    which differ in what else happens: fully removed: nothing more; still
    used by others (that flag is tested first): an error is logged and no
    reaper is started; blocked by open files: a warning is logged and the
    reaper is started with the specifier, the reference in hexadecimal and
    the mountpoint. *)
Theorem evictKey_outcomes (mountpoint : string) (policy : EncryptionPolicy) (s : State W) :
  let v1 := fscrypt.version (fscrypt.options policy) =? 1 in
  let legacy := (v1 && negb (result handler isFsKeyringSupported s))%bool in
  let probe := if v1 then trace handler isFsKeyringSupported s else [] in
  let s1 := if v1 then final handler isFsKeyringSupported s else s in
  let ok := result handler (evictKey mountpoint policy) s in
  let tr := trace handler (evictKey mountpoint policy) s in
  let fd := fst (handler (open mountpoint) (world s1)) in
  let w1 := snd (handler (open mountpoint) (world s1)) in
  let built := result handler (buildKeySpecifier fscrypt_key_specifier_zero policy) s1 in
  let key_spec := snd built in
  let answer := fst (handler (ioctl_REMOVE_ENCRYPTION_KEY fd key_spec) w1) in
  let ref := keyrefstring (fscrypt.key_raw_ref policy) in
  (legacy = true ->
     ok = result handler (evictKeyLegacy (fscrypt.key_raw_ref policy)) s1
     /\ tr = probe ++ trace handler (evictKeyLegacy (fscrypt.key_raw_ref policy)) s1
     /\ removals tr = [] /\ reapers tr = [])
  /\ (legacy = false -> fd = -1 -> ok = false /\ removals tr = [] /\ reapers tr = [])
  /\ (legacy = false -> fd <> -1 -> fst built = false ->
        ok = false /\ removals tr = [] /\ reapers tr = [])
  /\ (legacy = false -> fd <> -1 -> fst built = true ->
        removals tr = [(key_spec, answer)]
        /\ (fst answer <> 0 -> ok = false /\ reapers tr = [])
        /\ (fst answer = 0 ->
              ok = true /\
              match removal_outcome (snd answer) with
              | Fully_removed =>
                  logged tr = logged probe ++ [(DEBUG, Evicted_fscrypt_key ref mountpoint)]
                  /\ reapers tr = []
              | Still_used_by_others =>
                  logged tr = logged probe ++ [(DEBUG, Evicted_fscrypt_key ref mountpoint);
                                               (ERROR, Still_added_by_other_users ref)]
                  /\ reapers tr = []
              | Blocked_by_open_files =>
                  logged tr = logged probe ++ [(DEBUG, Evicted_fscrypt_key ref mountpoint);
                                               (WARNING, Files_still_open_punting ref)]
                  /\ reapers tr = [(key_spec, ref, mountpoint)]
              end)).
Proof.
  cbv zeta. unfold result, trace, final.
  rewrite run_evictKey.
  destruct (fscrypt.version (fscrypt.options policy) =? 1).
  - pose proof (isFsKeyringSupported_quiet s) as Hq. cbv zeta in Hq.
    unfold trace in Hq.
    destruct (run handler isFsKeyringSupported s) as [[modern probe] s1].
    cbn [fst snd] in *. destruct Hq as (Hq1 & Hq2 & _).
    destruct modern; cbn [negb andb].
    + pose proof (evict_modern_run_outcomes mountpoint policy s1) as H.
      cbv zeta in H. unfold result in H.
      destruct (evict_modern_run handler mountpoint policy s1) as [[ok tr] s2].
      cbn [fst snd] in *. observe. rewrite Hq1, Hq2. cbn [app].
      destruct H as (H1 & H2 & H3).
      split; [ discriminate | ].
      split; [ intros _; exact H1 | ].
      split; [ intros _; exact H2 | ].
      intros _ Hfd Hb. destruct (H3 Hfd Hb) as (H31 & H32 & H33).
      split; [ exact H31 | split; [ exact H32 | ] ].
      intros Ha. destruct (H33 Ha) as [Hok Hout]. split; [ exact Hok | ].
      destruct (removal_outcome _); destruct Hout as [Hl Hr]; rewrite Hl; split; auto.
    + pose proof (evictKeyLegacy_quiet (fscrypt.key_raw_ref policy) s1) as H.
      cbv zeta in H. unfold trace in H.
      destruct (run handler (evictKeyLegacy _) s1) as [[ok tr] s2].
      cbn [fst snd] in *. observe. rewrite Hq1, Hq2. cbn [app].
      destruct H as [H1 H2].
      split; [ intros _; repeat split; assumption | ].
      repeat split; intros; discriminate.
  - cbn [andb app logged flat_map].
    pose proof (evict_modern_run_outcomes mountpoint policy s) as H.
    cbv zeta in H. unfold result in H.
    destruct H as (H1 & H2 & H3).
    split; [ discriminate | ].
    split; [ intros _; exact H1 | ].
    split; [ intros _; exact H2 | ].
    intros _. exact H3.
Qed.

(** *** [installKey] *)

Variable SHA512 : list byte -> list byte.

Lemma run_installKey_ioctl (mountpoint : string) (options : EncryptionOptions)
  (key : KeyBuffer) (arg : fscrypt_add_key_arg) (policy : EncryptionPolicy) (s : State W) :
  run handler (installKey_ioctl mountpoint options key arg policy) s
  = install_ioctl_run handler mountpoint options key arg policy s.
Proof.
  unfold installKey_ioctl, install_ioctl_run. cbv zeta.
  assert (Harg :
    {| key_spec :=
         key_spec (if fscrypt.use_hw_wrapped_key options
                   then {| key_spec := key_spec arg; raw_size := raw_size arg;
                           __flags := Z.lor (__flags arg) __FSCRYPT_ADD_KEY_FLAG_HW_WRAPPED;
                           arg_raw := arg_raw arg |}
                   else arg);
       raw_size := to_u32 (Z.of_nat (length key));
       __flags :=
         __flags (if fscrypt.use_hw_wrapped_key options
                  then {| key_spec := key_spec arg; raw_size := raw_size arg;
                          __flags := Z.lor (__flags arg) __FSCRYPT_ADD_KEY_FLAG_HW_WRAPPED;
                          arg_raw := arg_raw arg |}
                  else arg);
       arg_raw :=
         memcpy
           (arg_raw (if fscrypt.use_hw_wrapped_key options
                     then {| key_spec := key_spec arg; raw_size := raw_size arg;
                             __flags := Z.lor (__flags arg) __FSCRYPT_ADD_KEY_FLAG_HW_WRAPPED;
                             arg_raw := arg_raw arg |}
                     else arg)) key (length key) |}
    = add_key_arg_filled options key arg).
  { unfold add_key_arg_filled. destruct (fscrypt.use_hw_wrapped_key options); reflexivity. }
  rewrite Harg. clear Harg.
  cbn [bind call]. rewrite run_Call.
  destruct (handler (open mountpoint) (world s)) as [fd w1].
  destruct (fd =? -1); [ reflexivity | ].
  rewrite run_Call. cbn [world supported].
  destruct (handler (ioctl_ADD_ENCRYPTION_KEY fd _) w1) as [[ret identifier] w2].
  destruct (ret =? 0); reflexivity.
Qed.

Lemma run_installKey (mountpoint : string) (options : EncryptionOptions)
  (key : KeyBuffer) (policy : EncryptionPolicy) (s : State W) :
  run handler (installKey SHA512 mountpoint options key policy) s =
  let policy0 := {| fscrypt.options := options;
                    fscrypt.key_raw_ref := fscrypt.key_raw_ref policy |} in
  let policy1 := {| fscrypt.options := options;
                    fscrypt.key_raw_ref := derived_ref SHA512 options key |} in
  if fscrypt.version options =? 1 then
    let '(modern, probe, s1) := run handler isFsKeyringSupported s in
    if negb modern then
      let '(ok, tr, s2) := run handler (installKeyLegacy key (derived_ref SHA512 options key)) s1 in
      ((ok, policy1), probe ++ tr, s2)
    else
      let '((ok, spec), built, _) :=
        run handler (buildKeySpecifier fscrypt_key_specifier_zero policy1) s1 in
      if negb ok then ((false, policy1), probe ++ built, s1) else
      let '(r, tr, s2) :=
        install_ioctl_run handler mountpoint options key (add_key_arg_v1 key spec) policy1 s1 in
      (r, probe ++ tr, s2)
  else if fscrypt.version options =? 2 then
    install_ioctl_run handler mountpoint options key (add_key_arg_v2 key) policy0 s
  else
    ((false, policy0),
     [Logged ERROR (Invalid_encryption_policy_version (fscrypt.version options))], s).
Proof.
  unfold installKey. cbv zeta. cbn [fscrypt.options fscrypt.key_raw_ref key_spec raw_size
                                    __flags arg_raw].
  fold (derived_ref SHA512 options key).
  destruct (fscrypt.version options =? 1).
  - rewrite run_bind.
    destruct (run handler isFsKeyringSupported s) as [[modern probe] s1].
    destruct modern; cbn [negb].
    + rewrite run_bind, run_buildKeySpecifier. cbv zeta.
      cbn [fscrypt.options fscrypt.key_raw_ref fscrypt.version].
      destruct (fscrypt.version options =? 1);
        [ destruct (Nat.eqb _ FSCRYPT_KEY_DESCRIPTOR_SIZE)
        | destruct (fscrypt.version options =? 2);
          [ destruct (Nat.eqb _ FSCRYPT_KEY_IDENTIFIER_SIZE) | ] ];
        cbn [negb run app]; try reflexivity.
      all: rewrite run_installKey_ioctl; unfold add_key_arg_v1;
        match goal with
        | |- context [install_ioctl_run handler ?a ?b ?c ?d ?e ?f] =>
            destruct (install_ioctl_run handler a b c d e f) as [[r tr] s2]
        end; reflexivity.
    + rewrite run_bind.
      destruct (run handler (installKeyLegacy _ _) s1) as [[ok tr] s2].
      cbn [run]. rewrite app_nil_r. reflexivity.
  - destruct (fscrypt.version options =? 2); [ | reflexivity ].
    rewrite run_installKey_ioctl. reflexivity.
Qed.

(** On every path, [installKey] leaves the options it was given in the
    policy. *)
Lemma installKey_options (mountpoint : string) (options : EncryptionOptions)
  (key : KeyBuffer) (policy : EncryptionPolicy) (s : State W) :
  fscrypt.options (snd (result handler (installKey SHA512 mountpoint options key policy) s))
  = options.
Proof.
  unfold result. rewrite run_installKey. cbv zeta.
  assert (Hioctl : forall arg policy' s',
    fscrypt.options policy' = options ->
    fscrypt.options (snd (fst (fst (install_ioctl_run handler mountpoint options key arg policy' s'))))
    = options).
  { intros arg policy' s' H. unfold install_ioctl_run. cbv zeta.
    destruct (handler (open mountpoint) (world s')) as [fd w1].
    destruct (fd =? -1); [ exact H | ].
    destruct (handler _ w1) as [[ret identifier] w2].
    destruct (ret =? 0); cbn [negb fst snd]; [ | exact H ].
    destruct (_ =? FSCRYPT_KEY_SPEC_TYPE_IDENTIFIER); [ exact H | exact H ]. }
  destruct (fscrypt.version options =? 1).
  - destruct (run handler isFsKeyringSupported s) as [[modern probe] s1].
    destruct modern; cbn [negb].
    + destruct (run handler (buildKeySpecifier _ _) s1) as [[[ok spec] built] s1'].
      destruct ok; cbn [negb]; [ | reflexivity ].
      pose proof (Hioctl (add_key_arg_v1 key spec)
                    {| fscrypt.options := options;
                       fscrypt.key_raw_ref := derived_ref SHA512 options key |} s1 eq_refl) as H.
      destruct (install_ioctl_run handler _ _ _ _ _ s1) as [[r tr] s2]. exact H.
    + destruct (run handler (installKeyLegacy _ _) s1) as [[ok tr] s2]. reflexivity.
  - destruct (fscrypt.version options =? 2); [ | reflexivity ].
    apply Hioctl. reflexivity.
Qed.

(** On every path of a version-1 install, the policy holds the reference
    derived from the key. *)
Lemma installKey_v1_policy (mountpoint : string) (options : EncryptionOptions)
  (key : KeyBuffer) (policy : EncryptionPolicy) (s : State W) :
  fscrypt.version options = 1 ->
  snd (result handler (installKey SHA512 mountpoint options key policy) s)
  = {| fscrypt.options := options; fscrypt.key_raw_ref := derived_ref SHA512 options key |}.
Proof.
  intros Hv. unfold result. rewrite run_installKey. cbv zeta.
  rewrite Hv. cbn [Z.eqb Pos.eqb].
  destruct (run handler isFsKeyringSupported s) as [[modern probe] s1].
  destruct modern; cbn [negb].
  - rewrite run_buildKeySpecifier. cbv zeta. cbn [fscrypt.options fscrypt.key_raw_ref].
    rewrite Hv. cbn [Z.eqb Pos.eqb].
    destruct (Nat.eqb _ FSCRYPT_KEY_DESCRIPTOR_SIZE); cbn [negb]; [ | reflexivity ].
    unfold install_ioctl_run. cbv zeta.
    destruct (handler (open mountpoint) (world s1)) as [fd w1].
    destruct (fd =? -1); [ reflexivity | ].
    destruct (handler _ w1) as [[ret identifier] w2].
    destruct (ret =? 0); reflexivity.
  - destruct (run handler (installKeyLegacy _ _) s1) as [[ok tr] s2]. reflexivity.
Qed.

(** [to_int] leaves the sizes that fit an [int] as they are. *)
Lemma to_int_small (n : nat) : Z.of_nat n <= INT_MAX -> to_int (Z.of_nat n) = Z.of_nat n.
Proof.
  intros H. unfold to_int, INT_MAX in *.
  rewrite Z.mod_small by lia. lia.
Qed.

Hypothesis SHA512_length : forall m : list byte, length (SHA512 m) = SHA512_DIGEST_LENGTH.

(** With a length that fits an [int], [generateKeyRef] is the first eight
    bytes of the hash of the hash of that many bytes of the key. *)
Lemma generateKeyRef_double_hash (key : list byte) (n : nat) :
  Z.of_nat n <= INT_MAX ->
  generateKeyRef SHA512 key (to_int (Z.of_nat n))
  = firstn 8 (SHA512 (SHA512 (firstn n key))).
Proof.
  intros H. unfold generateKeyRef.
  rewrite to_int_small by exact H.
  rewrite Nat2Z.id.
  rewrite (firstn_all2 (n := SHA512_DIGEST_LENGTH)) by (rewrite SHA512_length; lia).
  reflexivity.
Qed.

Lemma derived_ref_length (options : EncryptionOptions) (key : KeyBuffer) :
  length (derived_ref SHA512 options key) = FSCRYPT_KEY_DESCRIPTOR_SIZE.
Proof.
  unfold derived_ref, generateKeyRef.
  destruct (fscrypt.use_hw_wrapped_key options);
    rewrite length_firstn, SHA512_length; reflexivity.
Qed.

(** C5.  After a version-1 install, whatever its outcome, the reference in
    the policy is what [generateKeyRef] makes of the key buffer and of the
    length [key.size() / 2] when the key is hardware-wrapped, and of the
    length [key.size()] when it is not.  For a key whose size fits the [int]
    parameter of [generateKeyRef], that is the first eight bytes of the
    SHA-512 of the SHA-512 of the first half of the key buffer in the first
    case, and of the whole key buffer in the second. *)
Theorem installKey_v1_reference (mountpoint : string) (options : EncryptionOptions)
  (key : KeyBuffer) (policy : EncryptionPolicy) (s : State W) :
  fscrypt.version options = 1 ->
  let key_raw_ref :=
    fscrypt.key_raw_ref
      (snd (result handler (installKey SHA512 mountpoint options key policy) s)) in
  key_raw_ref
  = (if fscrypt.use_hw_wrapped_key options
     then generateKeyRef SHA512 key (to_int (Z.of_nat (length key / 2)))
     else generateKeyRef SHA512 key (to_int (Z.of_nat (length key))))
  /\ (Z.of_nat (length key) <= INT_MAX ->
      key_raw_ref
      = firstn 8 (SHA512 (SHA512 (if fscrypt.use_hw_wrapped_key options
                                  then firstn (length key / 2) key
                                  else key)))).
Proof.
  intros Hv. cbv zeta.
  rewrite installKey_v1_policy by exact Hv.
  cbn [fscrypt.key_raw_ref]. unfold derived_ref.
  split; [ reflexivity | intros Hsize ].
  destruct (fscrypt.use_hw_wrapped_key options).
  - apply generateKeyRef_double_hash.
    assert (length key / 2 <= length key)%nat by (apply Nat.Div0.div_le_upper_bound; lia).
    lia.
  - rewrite generateKeyRef_double_hash by exact Hsize.
    rewrite firstn_all. reflexivity.
Qed.

(** C9.  [installKey] does not leave the caller's policy alone when it
    fails.  On every path the policy holds the options passed in, and on
    every path of a version-1 install it holds the reference derived from the
    key; so with a version other than 1 and 2 the call fails with the options
    overwritten, and a version-1 install that fails in the legacy install, at
    the opening of the mountpoint or in the add-key ioctl returns [false]
    with both fields overwritten, as three runs show. *)
Theorem installKey_not_atomic (mountpoint : string) (options : EncryptionOptions)
  (key : KeyBuffer) (policy : EncryptionPolicy) (s : State W) :
  let r := result handler (installKey SHA512 mountpoint options key policy) s in
  let failed (w : Toy) :=
    result toy_handler
      (installKey toy_SHA512 "/data" (toy_options 1 false) (repeat x11 32) toy_blank_policy)
      (boot w) in
  fscrypt.options (snd r) = options
  /\ (fscrypt.version options = 1 ->
        fscrypt.key_raw_ref (snd r) = derived_ref SHA512 options key)
  /\ (fscrypt.version options <> 1 -> fscrypt.version options <> 2 ->
        r = (false, {| fscrypt.options := options;
                       fscrypt.key_raw_ref := fscrypt.key_raw_ref policy |}))
  /\ (fst (failed toy_legacy) = false /\ snd (failed toy_legacy) <> toy_blank_policy
      /\ fscrypt.key_raw_ref (snd (failed toy_legacy)) = [xf0; xf1; xf2; xf3; xf4; xf5; xf6; xf7])
  /\ (fst (failed toy_closed) = false /\ snd (failed toy_closed) <> toy_blank_policy
      /\ fscrypt.key_raw_ref (snd (failed toy_closed)) = [xf0; xf1; xf2; xf3; xf4; xf5; xf6; xf7])
  /\ (fst (failed toy_refusing) = false /\ snd (failed toy_refusing) <> toy_blank_policy
      /\ fscrypt.key_raw_ref (snd (failed toy_refusing)) = [xf0; xf1; xf2; xf3; xf4; xf5; xf6; xf7]).
Proof.
  cbv zeta.
  split; [ apply installKey_options | ].
  split; [ intros Hv; rewrite installKey_v1_policy by exact Hv; reflexivity | ].
  split.
  { intros H1 H2. unfold result. rewrite run_installKey. cbv zeta.
    destruct (Z.eqb_spec (fscrypt.version options) 1); [ contradiction | ].
    destruct (Z.eqb_spec (fscrypt.version options) 2); [ contradiction | ].
    reflexivity. }
  repeat split; try reflexivity; intros H; discriminate H.
Qed.

(** C10.  For a version-1 policy on a kernel without the key-management
    ioctls, [installKey] fails on any key that is not exactly
    [FSCRYPT_MAX_KEY_SIZE] bytes long, with nothing after the probe but the
    diagnostic of [fillKey]: the keyring is not touched.  With a key of that
    size the result is that of the legacy install.  On a kernel with the
    ioctls the size of the key plays no part: the install succeeds exactly
    when the mountpoint opens and the add-key ioctl, handed the key whatever
    its size, returns 0; so a key of 32 bytes is installed on such a
    kernel and refused on the other. *)
Theorem installKey_legacy_key_size (mountpoint : string) (options : EncryptionOptions)
  (key : KeyBuffer) (policy : EncryptionPolicy) (s : State W) :
  let modern := result handler isFsKeyringSupported s in
  let probe := trace handler isFsKeyringSupported s in
  let s1 := final handler isFsKeyringSupported s in
  let r := result handler (installKey SHA512 mountpoint options key policy) s in
  let tr := trace handler (installKey SHA512 mountpoint options key policy) s in
  let fd := fst (handler (open mountpoint) (world s1)) in
  let w1 := snd (handler (open mountpoint) (world s1)) in
  let spec := {| spec_type := FSCRYPT_KEY_SPEC_TYPE_DESCRIPTOR;
                 spec_u := memcpy (spec_u fscrypt_key_specifier_zero)
                             (derived_ref SHA512 options key) FSCRYPT_KEY_DESCRIPTOR_SIZE |} in
  let arg := add_key_arg_filled options key (add_key_arg_v1 key spec) in
  let ret := fst (fst (handler (ioctl_ADD_ENCRYPTION_KEY fd arg) w1)) in
  let short (w : Toy) :=
    result toy_handler
      (installKey toy_SHA512 "/data" (toy_options 1 false) (repeat x11 32) toy_blank_policy)
      (boot w) in
  (fscrypt.version options = 1 -> modern = false ->
     length key <> FSCRYPT_MAX_KEY_SIZE ->
     fst r = false
     /\ tr = probe ++ [Logged ERROR (Wrong_size_key (length key))]
     /\ filter is_keyring_call tr = [])
  /\ (fscrypt.version options = 1 -> modern = false ->
        length key = FSCRYPT_MAX_KEY_SIZE ->
        fst r = result handler (installKeyLegacy key (derived_ref SHA512 options key)) s1)
  /\ (fscrypt.version options = 1 -> modern = true ->
        fst r = (negb (fd =? -1) && (ret =? 0))%bool
        /\ arg_raw arg = key
        /\ filter is_keyring_call tr = [])
  /\ fst (short toy_modern) = true
  /\ fst (short toy_legacy) = false.
Proof.
  cbv zeta. unfold result, trace, final.
  rewrite run_installKey. cbv zeta.
  pose proof (isFsKeyringSupported_quiet s) as Hq. cbv zeta in Hq. unfold trace in Hq.
  destruct Hq as (_ & _ & _ & _ & _ & Hq).
  split; [ | split; [ | split; [ | split; reflexivity ] ] ].
  - intros Hv Hm Hsize. rewrite Hv. cbn [Z.eqb Pos.eqb].
    destruct (run handler isFsKeyringSupported s) as [[modern probe] s1].
    cbn [fst snd] in *. subst modern. cbn [negb].
    rewrite run_installKeyLegacy. cbv zeta.
    destruct (Nat.eqb_spec (length key) FSCRYPT_MAX_KEY_SIZE) as [E | E];
      [ contradiction | ].
    cbn [fst snd]. split; [ reflexivity | split; [ reflexivity | ] ].
    rewrite filter_app, Hq. reflexivity.
  - intros Hv Hm Hsize. rewrite Hv. cbn [Z.eqb Pos.eqb].
    destruct (run handler isFsKeyringSupported s) as [[modern probe] s1].
    cbn [fst snd] in *. subst modern. cbn [negb].
    destruct (run handler (installKeyLegacy _ _) s1) as [[ok tr] s2]. reflexivity.
  - intros Hv Hm. rewrite Hv. cbn [Z.eqb Pos.eqb].
    destruct (run handler isFsKeyringSupported s) as [[modern probe] s1].
    cbn [fst snd] in *. subst modern. cbn [negb].
    rewrite run_buildKeySpecifier. cbv zeta. cbn [fscrypt.options fscrypt.key_raw_ref].
    rewrite Hv, derived_ref_length, Nat.eqb_refl. cbn [Z.eqb Pos.eqb negb].
    unfold install_ioctl_run. cbv zeta.
    destruct (handler (open mountpoint) (world s1)) as [fd w1]. cbn [fst snd].
    split; [ | split ].
    + destruct (fd =? -1); [ reflexivity | ].
      destruct (handler _ w1) as [[ret identifier] w2].
      cbn [fst snd]. destruct (ret =? 0); reflexivity.
    + cbn [add_key_arg_filled add_key_arg_v1 arg_raw]. unfold memcpy.
      rewrite firstn_all. apply overwrite_full. rewrite repeat_length. reflexivity.
    + destruct (fd =? -1).
      * cbn [fst snd]. rewrite filter_app, Hq. reflexivity.
      * destruct (handler _ w1) as [[ret identifier] w2].
        destruct (ret =? 0); cbn [negb fst snd]; rewrite filter_app, Hq; reflexivity.
Qed.

(** *** What a program can do, whatever it is answered *)

Lemma static_free_run (A : Type) (p : Prog A) (s : State W) :
  static_free p -> supported (snd (run handler p s)) = supported s.
Proof.
  revert s. induction p as [a | X c k IH | sev m k IH | k IH | v k IH]; intros s F.
  - reflexivity.
  - rewrite run_Call. destruct (handler c (world s)) as [r w].
    specialize (IH r {| supported := supported s; world := w |} (F r)).
    destruct (run handler (k r) _) as [[a tr] s']. exact IH.
  - rewrite run_Log. specialize (IH s F).
    destruct (run handler k s) as [[a tr] s']. exact IH.
  - cbn [run]. apply IH, F.
  - destruct F.
Qed.

Lemma static_free_bind (A B : Type) (p : Prog A) (f : A -> Prog B) :
  static_free p -> (forall a, static_free (f a)) -> static_free (bind p f).
Proof.
  intros Fp Ff.
  induction p as [a | X c k IH | sev m k IH | k IH | v k IH]; cbn [bind static_free] in *.
  - apply Ff.
  - intros r. apply IH, Fp.
  - apply IH, Fp.
  - intros v. apply IH, Fp.
  - destruct Fp.
Qed.

Lemma every_event_run (A : Type) (P : Event -> Prop) (p : Prog A) (s : State W) :
  every_event P p -> Forall P (snd (fst (run handler p s))).
Proof.
  revert s. induction p as [a | X c k IH | sev m k IH | k IH | v k IH]; intros s F.
  - constructor.
  - rewrite run_Call. destruct (handler c (world s)) as [r w].
    destruct (F r) as [Pc Fk].
    specialize (IH r {| supported := supported s; world := w |} Fk).
    destruct (run handler (k r) _) as [[a tr] s']. constructor; assumption.
  - rewrite run_Log. destruct F as [Pl Fk]. specialize (IH s Fk).
    destruct (run handler k s) as [[a tr] s']. constructor; assumption.
  - cbn [run]. apply IH, F.
  - cbn [run]. apply IH, F.
Qed.

Lemma every_event_bind (A B : Type) (P : Event -> Prop) (p : Prog A) (f : A -> Prog B) :
  every_event P p -> (forall a, every_event P (f a)) -> every_event P (bind p f).
Proof.
  intros Fp Ff.
  induction p as [a | X c k IH | sev m k IH | k IH | v k IH]; cbn [bind every_event] in *.
  - apply Ff.
  - intros r. destruct (Fp r) as [Pc Fk]. split; [ exact Pc | apply IH, Fk ].
  - destruct Fp as [Pl Fk]. split; [ exact Pl | apply IH, Fk ].
  - intros v. apply IH, Fp.
  - apply IH, Fp.
Qed.

Lemma flat_map_nil (A B : Type) (f : A -> list B) (l : list A) :
  Forall (fun a => f a = []) l -> flat_map f l = [].
Proof.
  induction 1 as [ | a l Ha Hl IH ]; [ reflexivity | ].
  cbn [flat_map]. rewrite Ha, IH. reflexivity.
Qed.

Lemma filter_nil (A : Type) (f : A -> bool) (l : list A) :
  Forall (fun a => f a = false) l -> filter f l = [].
Proof.
  induction 1 as [ | a l Ha Hl IH ]; [ reflexivity | ].
  cbn [filter]. rewrite Ha. exact IH.
Qed.

(** Take a program apart, one call at a time. *)
Ltac footprint :=
  repeat first
    [ progress cbn [static_free every_event bind call LOG]
    | progress intros
    | match goal with
      | |- _ /\ _ => split
      | |- True => exact I
      | |- _ = _ => reflexivity
      | p : (_ * _)%type |- _ => destruct p
      | |- context [if ?b then _ else _] => destruct b
      | |- static_free (bind _ _) => apply static_free_bind
      | |- every_event _ (bind _ _) => apply every_event_bind
      end ].

(** *** The probe of the kernel *)

(** X4.  The probe decides by [errno] alone: it reports support exactly
    when the value left by the ioctl is not [ENOTTY], and it issues the
    ioctl on whatever [open] answered, -1 included.  It warns exactly when
    the value is neither [ENOTTY] nor [EFAULT]. *)
Theorem isFsKeyringSupportedImpl_decides_by_errno (s : State W) :
  let fd := fst (handler (open "/data") (world s)) in
  let errno :=
    fst (handler (ioctl_ADD_ENCRYPTION_KEY_NULL fd)
           (snd (handler (open "/data") (world s)))) in
  let tr := trace handler isFsKeyringSupportedImpl s in
  result handler isFsKeyringSupportedImpl s = negb (errno =? ENOTTY)
  /\ calls tr = [Ev (open "/data") fd; Ev (ioctl_ADD_ENCRYPTION_KEY_NULL fd) errno]
  /\ openings tr = [("/data"%string, fd)]
  /\ probes tr = [fd]
  /\ (In (WARNING, Unexpected_error_from_ADD_ENCRYPTION_KEY) (logged tr)
      <-> errno <> ENOTTY /\ errno <> EFAULT)
  /\ supported (final handler isFsKeyringSupportedImpl s) = supported s.
Proof.
  unfold result, trace, final. rewrite run_isFsKeyringSupportedImpl.
  destruct (handler (open "/data") (world s)) as [fd w1]. cbn [fst snd].
  destruct (handler (ioctl_ADD_ENCRYPTION_KEY_NULL fd) w1) as [errno w2]. cbn [fst snd].
  cbv zeta.
  destruct (Z.eqb_spec errno ENOTTY) as [E1 | E1];
    [ | destruct (Z.eqb_spec errno EFAULT) as [E2 | E2] ];
    cbn [fst snd negb supported]; observe_all; cbn [In].
  all: repeat split; try reflexivity; intros; try tauto.
  all: repeat match goal with
              | H : _ \/ _ |- _ => destruct H
              | H : _ /\ _ |- _ => destruct H
              end; try discriminate; try contradiction; try congruence; auto.
Qed.

(** X5.  The static remembers the probe: of two calls in a row the second
    answers as the first did and does nothing, so the kernel is probed at
    most once; a call that finds the static set makes no call at all. *)
Theorem isFsKeyringSupported_probes_once (s : State W) :
  let twice :=
    first <- isFsKeyringSupported ;;
    second <- isFsKeyringSupported ;;
    Ret (first, second) in
  fst (result handler twice s) = snd (result handler twice s)
  /\ trace handler twice s = trace handler isFsKeyringSupported s
  /\ final handler twice s = final handler isFsKeyringSupported s
  /\ (length (probes (trace handler twice s)) <= 1)%nat
  /\ (forall cached, supported s = Some cached ->
        run handler isFsKeyringSupported s = (cached, [], s)).
Proof.
  cbv zeta. unfold result, trace, final.
  rewrite run_bind.
  pose proof (isFsKeyringSupported_once s) as Once.
  unfold result, final in Once.
  assert (P : (length (probes (snd (fst (run handler isFsKeyringSupported s)))) <= 1)%nat).
  { rewrite run_isFsKeyringSupported.
    destruct (supported s) as [ cached | ]; [ cbn; lia | ].
    rewrite run_isFsKeyringSupportedImpl.
    destruct (handler (open "/data") (world s)) as [fd w1].
    destruct (handler (ioctl_ADD_ENCRYPTION_KEY_NULL fd) w1) as [errno w2].
    cbv zeta.
    destruct (errno =? ENOTTY); [ | destruct (errno =? EFAULT) ];
      cbn [fst snd]; observe_all; cbn [length]; lia. }
  assert (C : forall cached, supported s = Some cached ->
                run handler isFsKeyringSupported s = (cached, [], s)).
  { intros cached E. rewrite run_isFsKeyringSupported, E. reflexivity. }
  destruct (run handler isFsKeyringSupported s) as [[first tr] s1].
  cbn [fst snd] in Once, P.
  rewrite run_bind, Once. cbn [run fst snd]. rewrite !app_nil_r.
  repeat split; try reflexivity; try exact P; exact C.
Qed.

(** *** Who writes the static *)

Lemma static_free_buildKeySpecifier (spec : fscrypt_key_specifier)
  (policy : EncryptionPolicy) : static_free (buildKeySpecifier spec policy).
Proof. unfold buildKeySpecifier. footprint. Qed.

Lemma static_free_generateStorageKey (gen : KeyGeneration) (key : KeyBuffer) :
  static_free (generateStorageKey gen key).
Proof. unfold generateStorageKey, randomKey. footprint. Qed.

Lemma static_free_retrieveOrGenerateKey (key_path tmp_path : string)
  (auth : KeyAuthentication) (gen : KeyGeneration) (key : KeyBuffer) :
  static_free (retrieveOrGenerateKey key_path tmp_path auth gen key).
Proof.
  unfold retrieveOrGenerateKey. footprint; apply static_free_generateStorageKey.
Qed.

Lemma static_free_installKeyLegacy_loop (name_prefix : list string) (raw_ref : list byte)
  (fs_key : fscrypt_key) (device_keyring : Z) :
  static_free (installKeyLegacy_loop name_prefix raw_ref fs_key device_keyring).
Proof.
  induction name_prefix as [ | prefix name_prefix IH ]; [ exact I | ].
  cbn [installKeyLegacy_loop]. footprint. exact IH.
Qed.

Lemma static_free_installKeyLegacy (key : KeyBuffer) (raw_ref : list byte) :
  static_free (installKeyLegacy key raw_ref).
Proof.
  unfold installKeyLegacy, fillKey, fscryptKeyring. footprint; apply static_free_installKeyLegacy_loop.
Qed.

Lemma static_free_evictKeyLegacy_loop (name_prefix : list string) (raw_ref : list byte)
  (device_keyring : Z) (success : bool) :
  static_free (evictKeyLegacy_loop name_prefix raw_ref device_keyring success).
Proof.
  revert success.
  induction name_prefix as [ | prefix name_prefix IH ]; intros success; [ exact I | ].
  cbn [evictKeyLegacy_loop]. footprint; apply IH.
Qed.

Lemma static_free_evictKeyLegacy (raw_ref : list byte) :
  static_free (evictKeyLegacy raw_ref).
Proof.
  unfold evictKeyLegacy, fscryptKeyring. footprint; apply static_free_evictKeyLegacy_loop.
Qed.

Lemma static_free_waitForBusyFiles_loop (fuel : nat) (fd : Z)
  (key_spec : fscrypt_key_specifier) (ref mountpoint : string)
  (wait_time total_wait_time : Z) :
  static_free
    (waitForBusyFiles_loop fuel fd key_spec ref mountpoint wait_time total_wait_time).
Proof.
  revert wait_time total_wait_time.
  induction fuel as [ | fuel IH ]; intros wait_time total_wait_time; [ exact I | ].
  cbn [waitForBusyFiles_loop]. footprint; apply IH.
Qed.

Lemma static_free_waitForBusyFiles (fuel : nat) (key_spec : fscrypt_key_specifier)
  (ref mountpoint : string) :
  static_free (waitForBusyFiles fuel key_spec ref mountpoint).
Proof.
  unfold waitForBusyFiles. footprint; apply static_free_waitForBusyFiles_loop.
Qed.

(** X6.  Only [isFsKeyringSupported] writes its static: generating,
    retrieving and storing a key, the two keyring functions, building a
    specifier and the reaper leave it as they found it, set or not. *)
Theorem static_written_by_probe_only (gen : KeyGeneration) (key : KeyBuffer)
  (key_path tmp_path : string) (auth : KeyAuthentication) (raw_ref : list byte)
  (spec : fscrypt_key_specifier) (policy : EncryptionPolicy) (fuel : nat)
  (ref mountpoint : string) (s : State W) :
  supported (final handler (generateStorageKey gen key) s) = supported s
  /\ supported (final handler (retrieveOrGenerateKey key_path tmp_path auth gen key) s)
     = supported s
  /\ supported (final handler (installKeyLegacy key raw_ref) s) = supported s
  /\ supported (final handler (evictKeyLegacy raw_ref) s) = supported s
  /\ supported (final handler (buildKeySpecifier spec policy) s) = supported s
  /\ supported (final handler (waitForBusyFiles fuel spec ref mountpoint) s) = supported s.
Proof.
  unfold final.
  repeat split; apply static_free_run.
  - apply static_free_generateStorageKey.
  - apply static_free_retrieveOrGenerateKey.
  - apply static_free_installKeyLegacy.
  - apply static_free_evictKeyLegacy.
  - apply static_free_buildKeySpecifier.
  - apply static_free_waitForBusyFiles.
Qed.

(** *** What each function calls *)

Lemma storage_only_generateStorageKey (gen : KeyGeneration) (key : KeyBuffer) :
  every_event storage_only (generateStorageKey gen key).
Proof. unfold generateStorageKey, randomKey, storage_only. footprint. Qed.

Lemma storage_only_retrieveOrGenerateKey (key_path tmp_path : string)
  (auth : KeyAuthentication) (gen : KeyGeneration) (key : KeyBuffer) :
  every_event storage_only (retrieveOrGenerateKey key_path tmp_path auth gen key).
Proof.
  unfold retrieveOrGenerateKey. footprint;
    try apply storage_only_generateStorageKey; unfold storage_only; footprint.
Qed.

(** X7.  Generating, retrieving and storing a key is the business of the
    key store and the random source alone: [generateStorageKey] and
    [retrieveOrGenerateKey] never touch the keyring, never open a directory
    or issue an ioctl, and never sleep. *)
Theorem storage_functions_footprint (key_path tmp_path : string)
  (auth : KeyAuthentication) (gen : KeyGeneration) (key : KeyBuffer) (s : State W) :
  let generated := trace handler (generateStorageKey gen key) s in
  let retrieved := trace handler (retrieveOrGenerateKey key_path tmp_path auth gen key) s in
  (filter is_keyring_call generated = [] /\ filter is_filesystem_call generated = []
   /\ sleeps generated = [])
  /\ (filter is_keyring_call retrieved = [] /\ filter is_filesystem_call retrieved = []
      /\ sleeps retrieved = [])
  /\ (length (filter is_storage_call generated) <= 1)%nat
  /\ (length (filter is_storage_call retrieved) <= 3)%nat.
Proof.
  cbv zeta. unfold trace.
  pose proof (@every_event_run _ _ _ s (storage_only_generateStorageKey gen key)) as G.
  pose proof (@every_event_run _ _ _ s
                (storage_only_retrieveOrGenerateKey key_path tmp_path auth gen key)) as R.
  split; [ | split; [ | split ] ].
  - repeat split; [ apply filter_nil | apply filter_nil | apply flat_map_nil ];
      (eapply Forall_impl; [ | exact G ]); unfold storage_only; tauto.
  - repeat split; [ apply filter_nil | apply filter_nil | apply flat_map_nil ];
      (eapply Forall_impl; [ | exact R ]); unfold storage_only; tauto.
  - clear G R. rewrite run_generateStorageKey.
    destruct (allow_gen gen); cbn [negb]; [ | cbn; lia ].
    destruct (use_hw_wrapped_key gen).
    + destruct (Nat.eqb _ _); cbn [negb]; [ | cbn; lia ].
      destruct (handler (generateWrappedStorageKey key) (world s)) as [ans w].
      cbn. lia.
    + rewrite run_randomKey.
      destruct (handler (ReadRandomBytes (keysize gen)) (world s)) as [[status bytes] w].
      cbv zeta. destruct (status =? 0); cbn; lia.
  - clear G R. rewrite run_retrieveOrGenerateKey.
    destruct (handler (pathExists key_path) (world s)) as [exists_ w1]. cbv zeta.
    destruct exists_.
    { destruct (handler (retrieveKey key_path auth key) w1) as [retrieved w2]. cbn. lia. }
    destruct (allow_gen gen) eqn:Allow; cbn [negb]; [ | cbn; lia ].
    rewrite run_generateStorageKey, Allow. cbn [negb].
    destruct (use_hw_wrapped_key gen).
    + destruct (Nat.eqb _ _); cbn [negb]; [ | cbn; lia ].
      cbn [world supported].
      destruct (handler (generateWrappedStorageKey key) w1) as [[ok key'] w].
      destruct ok.
      * cbn [world supported].
        destruct (handler (storeKeyAtomically key_path tmp_path auth key') w) as [stored w3].
        cbn. lia.
      * cbn. lia.
    + rewrite run_randomKey. cbn [world supported].
      destruct (handler (ReadRandomBytes (keysize gen)) w1) as [[status bytes] w].
      cbv zeta. destruct (status =? 0).
      * cbn [world supported].
        destruct (handler (storeKeyAtomically key_path tmp_path auth _) w) as [stored w3].
        cbn. lia.
      * cbn. lia.
Qed.

(** *** The keyring functions *)

Lemma keyring_only_installKeyLegacy_loop (name_prefix : list string) (raw_ref : list byte)
  (fs_key : fscrypt_key) (device_keyring : Z) :
  every_event
    (fun e => keyring_only e
              /\ Forall (eq ("logon"%string, fs_key, device_keyring)) (entry_of e))
    (installKeyLegacy_loop name_prefix raw_ref fs_key device_keyring).
Proof.
  induction name_prefix as [ | prefix name_prefix IH ]; [ exact I | ].
  cbn [installKeyLegacy_loop]. unfold keyring_only. footprint;
    try exact IH; cbn [entry_of]; repeat constructor.
Qed.

Lemma keyring_only_evictKeyLegacy_loop (name_prefix : list string) (raw_ref : list byte)
  (device_keyring : Z) (success : bool) :
  every_event (fun e => keyring_only e /\ entry_of e = [])
    (evictKeyLegacy_loop name_prefix raw_ref device_keyring success).
Proof.
  revert success.
  induction name_prefix as [ | prefix name_prefix IH ]; intros success; [ exact I | ].
  cbn [evictKeyLegacy_loop]. unfold keyring_only. footprint; apply IH.
Qed.

(** X8.  Every entry [installKeyLegacy] adds is a logon key in the keyring
    the search found, and its payload is the whole key with size 64 and
    mode 0; an entry is added only if the key is 64 bytes long and the
    keyring was found.  The function keeps to the keyring: no directory is
    opened, no ioctl issued, the key store is not used. *)
Theorem installKeyLegacy_entries (key : KeyBuffer) (raw_ref : list byte) (s : State W) :
  let device_keyring :=
    fst (handler (keyctl_search KEY_SPEC_SESSION_KEYRING "keyring" "fscrypt") (world s)) in
  let tr := trace handler (installKeyLegacy key raw_ref) s in
  Forall (eq ("logon"%string, {| mode := 0; raw := key; size := 64 |}, device_keyring))
    (entries tr)
  /\ (entries tr <> [] -> length key = FSCRYPT_MAX_KEY_SIZE /\ device_keyring <> -1)
  /\ length (entries tr) = length (insertions tr)
  /\ filter is_filesystem_call tr = []
  /\ filter is_storage_call tr = []
  /\ sleeps tr = [].
Proof.
  cbv zeta. unfold trace. rewrite run_installKeyLegacy. cbv zeta.
  destruct (Nat.eqb_spec (length key) FSCRYPT_MAX_KEY_SIZE) as [L | L];
    [ | cbn; repeat split; solve [ constructor | congruence ] ].
  destruct (handler (keyctl_search KEY_SPEC_SESSION_KEYRING "keyring" "fscrypt") (world s))
    as [device_keyring w].
  cbn [fst].
  destruct (Z.eqb_spec device_keyring (-1)) as [E | E];
    [ cbn; repeat split; solve [ constructor | congruence ] | ].
  pose proof (@every_event_run _ _ _ {| supported := supported s; world := w |}
                (keyring_only_installKeyLegacy_loop NAME_PREFIXES raw_ref
                   (legacy_payload key) device_keyring)) as F.
  destruct (run handler (installKeyLegacy_loop _ _ _ _) _) as [[ok tr] s2].
  cbn [fst snd] in *. rewrite legacy_payload_full in F by exact L.
  split; [ | split; [ | split; [ | split; [ | split ] ] ] ].
  - observe_all. unfold entries. apply Forall_flat_map.
    eapply Forall_impl; [ | exact F ]. cbv beta. tauto.
  - intros _. split; assumption.
  - apply entries_insertions.
  - cbn [filter is_filesystem_call]. apply filter_nil.
    eapply Forall_impl; [ | exact F ]. unfold keyring_only. tauto.
  - cbn [filter is_storage_call]. apply filter_nil.
    eapply Forall_impl; [ | exact F ]. unfold keyring_only. tauto.
  - observe. apply flat_map_nil.
    eapply Forall_impl; [ | exact F ]. unfold keyring_only. tauto.
Qed.

(** X9.  [evictKeyLegacy] keeps to the keyring as well, and only takes
    from it: it adds no entry, opens no directory, issues no ioctl, and
    makes one keyring call if the keyring is not found and seven if it is:
    the search for the keyring, then a search and an unlink per alias. *)
Theorem evictKeyLegacy_footprint (raw_ref : list byte) (s : State W) :
  let device_keyring :=
    fst (handler (keyctl_search KEY_SPEC_SESSION_KEYRING "keyring" "fscrypt") (world s)) in
  let tr := trace handler (evictKeyLegacy raw_ref) s in
  entries tr = []
  /\ filter is_filesystem_call tr = []
  /\ filter is_storage_call tr = []
  /\ sleeps tr = []
  /\ length (filter is_keyring_call tr) = (if device_keyring =? -1 then 1%nat else 7%nat).
Proof.
  cbv zeta. unfold trace. rewrite run_evictKeyLegacy. cbv zeta.
  destruct (handler (keyctl_search KEY_SPEC_SESSION_KEYRING "keyring" "fscrypt") (world s))
    as [device_keyring w].
  cbn [fst].
  destruct (Z.eqb_spec device_keyring (-1)) as [E | E];
    [ cbn; repeat split | ].
  pose proof (@every_event_run _ _ _ {| supported := supported s; world := w |}
                (keyring_only_evictKeyLegacy_loop NAME_PREFIXES raw_ref
                   device_keyring true)) as F.
  assert (N : forall name_prefix success s1,
             length (filter is_keyring_call
                       (snd (fst (run handler
                          (evictKeyLegacy_loop name_prefix raw_ref device_keyring success)
                          s1))))
             = (2 * length name_prefix)%nat).
  { clear. induction name_prefix as [ | prefix name_prefix IH ]; intros success s1;
      [ reflexivity | ].
    cbn [evictKeyLegacy_loop bind call]. rewrite run_Call.
    destruct (handler (keyctl_search device_keyring "logon" _) (world s1)) as [serial w1].
    rewrite run_Call. cbn [world supported].
    destruct (handler (keyctl_unlink serial device_keyring) w1) as [ret w2].
    destruct (ret =? 0); cbn [negb bind LOG]; rewrite run_Log.
    - specialize (IH success {| supported := supported s1; world := w2 |}).
      destruct (run handler (evictKeyLegacy_loop _ _ _ _) _) as [[ok tr] s2].
      cbn [fst snd filter is_keyring_call length] in *. rewrite IH. lia.
    - specialize (IH false {| supported := supported s1; world := w2 |}).
      destruct (run handler (evictKeyLegacy_loop _ _ _ _) _) as [[ok tr] s2].
      cbn [fst snd filter is_keyring_call length] in *. rewrite IH. lia. }
  specialize (N NAME_PREFIXES true {| supported := supported s; world := w |}).
  destruct (run handler (evictKeyLegacy_loop _ _ _ _) _) as [[ok tr] s2].
  cbn [fst snd] in *.
  split; [ | split; [ | split; [ | split ] ] ].
  - observe_all. apply flat_map_nil.
    eapply Forall_impl; [ | exact F ]. cbv beta. tauto.
  - cbn [filter is_filesystem_call]. apply filter_nil.
    eapply Forall_impl; [ | exact F ]. unfold keyring_only. tauto.
  - cbn [filter is_storage_call]. apply filter_nil.
    eapply Forall_impl; [ | exact F ]. unfold keyring_only. tauto.
  - observe. apply flat_map_nil.
    eapply Forall_impl; [ | exact F ]. unfold keyring_only. tauto.
  - cbn [filter is_keyring_call length]. rewrite N. reflexivity.
Qed.

(** *** The reaper *)

Lemma total_sleep_cons (e : Event) (tr : list Event) :
  total_sleep (e :: tr) = fold_right Z.add 0 (sleep_of e) + total_sleep tr.
Proof.
  unfold total_sleep. rewrite sleeps_cons, fold_right_app.
  generalize (sleep_of e) as l. induction l as [ | t l IH ]; cbn [fold_right]; lia.
Qed.

(** Close the cases of a run that reports no waiting time. *)
Ltac no_report :=
  repeat split; try lia; intros;
  repeat match goal with
         | H : _ \/ _ |- _ => destruct H
         | H : False |- _ => destruct H
         end;
  try discriminate; try lia.

(** What one run of the loop reports: the total it prints is the total it
    was started with plus the delays it slept. *)
Lemma waitForBusyFiles_loop_reports (fuel : nat) (fd : Z) (key_spec : fscrypt_key_specifier)
  (ref mountpoint : string) :
  forall (wait_time total_wait_time : Z) (s : State W),
  0 < wait_time ->
  let tr :=
    snd (fst (run handler
      (waitForBusyFiles_loop fuel fd key_spec ref mountpoint wait_time total_wait_time) s)) in
  0 <= total_sleep tr
  /\ (length (removals tr) <= length (sleeps tr))%nat
  /\ (forall ref' t,
        In (INFO, Successfully_cleaned_up_busy_files ref' t) (logged tr) ->
        ref' = ref /\ t = total_wait_time + total_sleep tr)
  /\ (forall ref' t,
        In (WARNING, Files_still_open_after_waiting t ref') (logged tr) ->
        ref' = ref /\ total_wait_time < t <= total_wait_time + total_sleep tr).
Proof.
  induction fuel as [ | fuel IH ]; intros wait_time total_wait_time s Hw; cbv zeta.
  { cbn. no_report. }
  rewrite run_waitForBusyFiles_loop_S.
  destruct (wait_time <=? 51200);
    [ | cbn; no_report ].
  cbv zeta.
  destruct (handler (sleep_for wait_time) (world s)) as [u w1].
  destruct (handler (ioctl_GET_ENCRYPTION_KEY_STATUS fd key_spec) w1) as [[ret status] w2].
  destruct (ret =? 0); cbn [negb];
    [ | cbn [fst snd app]; rewrite !total_sleep_cons; unfold total_sleep; observe;
        cbn [fold_right length In];
        no_report ].
  destruct (status =? FSCRYPT_KEY_STATUS_INCOMPLETELY_REMOVED); cbn [negb];
    [ | cbn [fst snd app]; rewrite !total_sleep_cons; unfold total_sleep; observe;
        cbn [fold_right length In];
        no_report ].
  destruct (handler (ioctl_REMOVE_ENCRYPTION_KEY fd key_spec) w2) as [[ret' flags] w3].
  destruct (ret' =? 0); cbn [negb];
    [ | cbn [fst snd app]; rewrite !total_sleep_cons; unfold total_sleep; observe;
        cbn [fold_right length In];
        no_report ].
  specialize (IH (wait_time * 2) (total_wait_time + wait_time)
                {| supported := supported s; world := w3 |}).
  destruct (run handler (waitForBusyFiles_loop fuel _ _ _ _ _ _) _) as [[r tr] s'].
  cbn [fst snd] in IH.
  destruct IH as (I0 & I1 & I2 & I3); [ lia | ].
  destruct (Z.land flags FSCRYPT_KEY_REMOVAL_STATUS_FLAG_OTHER_USERS =? 0); cbn [negb];
    [ destruct (Z.land flags FSCRYPT_KEY_REMOVAL_STATUS_FLAG_FILES_BUSY =? 0) | ];
    cbn [fst snd app]; rewrite !total_sleep_cons; observe;
    cbn [fold_right length In].
  - unfold total_sleep. cbn.
    split; [ lia | split; [ lia | split ] ].
    + intros ref' t [H | []]. injection H as <- <-. split; [ reflexivity | lia ].
    + intros ref' t [H | []]. discriminate H.
  - split; [ lia | split; [ lia | split ] ].
    + intros ref' t [H | H]; [ discriminate H | ].
      destruct (I2 _ _ H) as [-> ->]. split; [ reflexivity | lia ].
    + intros ref' t [H | H].
      * injection H as <- <-. split; [ reflexivity | lia ].
      * destruct (I3 _ _ H) as [-> ?]. split; [ reflexivity | lia ].
  - split; [ lia | split; [ lia | split ] ].
    + intros ref' t [H | [H | H]]; [ discriminate H | discriminate H | ].
      destruct (I2 _ _ H) as [-> ->]. split; [ reflexivity | lia ].
    + intros ref' t [H | [H | H]]; [ discriminate H | | ].
      * injection H as <- <-. split; [ reflexivity | lia ].
      * destruct (I3 _ _ H) as [-> ?]. split; [ reflexivity | lia ].
Qed.

(** The calls of a complete run of the reaper are the first of the
    schedule. *)
Lemma waitForBusyFiles_schedule (more : nat) (key_spec : fscrypt_key_specifier)
  (ref mountpoint : string) (s : State W) :
  exists m,
    steps (trace handler (waitForBusyFiles (6 + more) key_spec ref mountpoint) s)
    = firstn m schedule.
Proof.
  unfold trace, waitForBusyFiles. cbn [bind call]. rewrite !run_Call.
  destruct (handler (open mountpoint) (world s)) as [fd w].
  destruct (fd =? -1); [ exists 1%nat; reflexivity | ].
  destruct (waitForBusyFiles_loop_bounded 5 (wait_time := 3200) 0 more fd key_spec ref
              mountpoint {| supported := supported s; world := w |})
    as (Hsame & _ & m & Hm).
  - lia.
  - repeat constructor; lia.
  - reflexivity.
  - rewrite Hsame. clear Hsame.
    destruct (run handler _ _) as [[r tr] s'].
    cbn [fst snd] in *.
    exists (S m). observe. rewrite Hm. reflexivity.
Qed.

(** X10.  The reaper never waits longer than 99200 ms in all: the delays it
    sleeps add up to one of 0, 3200, 9600, 22400, 48000 and 99200.  The
    waiting time it reports on success is the sum of the delays it slept,
    and every waiting time it reports with a warning is positive and no
    more than that sum.  It removes at most once per sleep. *)
Theorem waitForBusyFiles_total_wait (more : nat) (key_spec : fscrypt_key_specifier)
  (ref mountpoint : string) (s : State W) :
  let tr := trace handler (waitForBusyFiles (6 + more) key_spec ref mountpoint) s in
  In (total_sleep tr) [0; 3200; 9600; 22400; 48000; 99200]
  /\ total_sleep tr <= 99200
  /\ (length (removals tr) <= length (sleeps tr))%nat
  /\ (forall ref' t,
        In (INFO, Successfully_cleaned_up_busy_files ref' t) (logged tr) ->
        ref' = ref /\ t = total_sleep tr)
  /\ (forall ref' t,
        In (WARNING, Files_still_open_after_waiting t ref') (logged tr) ->
        ref' = ref /\ 0 < t <= total_sleep tr).
Proof.
  cbv zeta.
  assert (T : In (total_sleep
                    (trace handler (waitForBusyFiles (6 + more) key_spec ref mountpoint) s))
                 [0; 3200; 9600; 22400; 48000; 99200]).
  { destruct (waitForBusyFiles_schedule more key_spec ref mountpoint s) as [m Hm].
    pose proof (slept_of_schedule m) as Hs. cbv zeta in Hs.
    rewrite <- Hm, <- sleeps_steps in Hs. destruct Hs as [Hprefix Hlen].
    unfold total_sleep. rewrite Hprefix.
    generalize dependent (length (sleeps
      (trace handler (waitForBusyFiles (6 + more) key_spec ref mountpoint) s))).
    intros k _ Hk.
    do 6 (destruct k as [ | k ]; [ cbn; tauto | ]). lia. }
  split; [ exact T | ].
  split; [ cbn [In] in T; lia | ].
  unfold trace, waitForBusyFiles. cbn [bind call]. rewrite !run_Call.
  destruct (handler (open mountpoint) (world s)) as [fd w].
  destruct (fd =? -1).
  { cbn. no_report. }
  pose proof (waitForBusyFiles_loop_reports (6 + more) fd key_spec ref mountpoint
                (wait_time := 3200) 0 {| supported := supported s; world := w |}) as R.
  cbv zeta in R.
  destruct (run handler (waitForBusyFiles_loop _ _ _ _ _ _ _) _) as [[r tr] s'].
  cbn [fst snd] in *.
  destruct R as (R0 & R1 & R2 & R3); [ lia | ].
  rewrite total_sleep_cons. observe. cbn [fold_right].
  split; [ exact R1 | split ].
  - intros ref' t H. destruct (R2 _ _ H) as [-> ->]. split; [ reflexivity | lia ].
  - intros ref' t H. destruct (R3 _ _ H) as [-> ?]. split; [ reflexivity | lia ].
Qed.

(** What the reaper keeps to, given the specifier it was started with. *)
Lemma reaper_only_waitForBusyFiles_loop (fuel : nat) (fd : Z)
  (key_spec : fscrypt_key_specifier) (ref mountpoint : string)
  (wait_time total_wait_time : Z) :
  every_event
    (fun e => is_keyring_call e = false /\ is_storage_call e = false
              /\ addition_of e = [] /\ probe_of e = [] /\ reaper_of e = []
              /\ opening_of e = []
              /\ Forall (fun r => fst r = key_spec) (removal_of e))
    (waitForBusyFiles_loop fuel fd key_spec ref mountpoint wait_time total_wait_time).
Proof.
  revert wait_time total_wait_time.
  induction fuel as [ | fuel IH ]; intros wait_time total_wait_time; [ exact I | ].
  cbn [waitForBusyFiles_loop]. footprint; try apply IH;
    cbn [removal_of]; repeat constructor.
Qed.

Lemma removals_guarded_loop (fuel : nat) (fd : Z) (key_spec : fscrypt_key_specifier)
  (ref mountpoint : string) :
  forall (wait_time total_wait_time : Z) (s : State W),
  removals_guarded false
    (snd (fst (run handler
       (waitForBusyFiles_loop fuel fd key_spec ref mountpoint wait_time total_wait_time) s)))
  = true.
Proof.
  induction fuel as [ | fuel IH ]; intros wait_time total_wait_time s; [ reflexivity | ].
  rewrite run_waitForBusyFiles_loop_S.
  destruct (wait_time <=? 51200); [ | reflexivity ].
  cbv zeta.
  destruct (handler (sleep_for wait_time) (world s)) as [u w1].
  destruct (handler (ioctl_GET_ENCRYPTION_KEY_STATUS fd key_spec) w1) as [[ret status] w2].
  destruct (ret =? 0) eqn:Eret; cbn [negb]; [ | reflexivity ].
  destruct (status =? FSCRYPT_KEY_STATUS_INCOMPLETELY_REMOVED) eqn:Est; cbn [negb];
    [ | reflexivity ].
  destruct (handler (ioctl_REMOVE_ENCRYPTION_KEY fd key_spec) w2) as [[ret' flags] w3].
  destruct (ret' =? 0); cbn [negb];
    [ | cbn [fst snd app removals_guarded]; rewrite Eret, Est; reflexivity ].
  specialize (IH (wait_time * 2) (total_wait_time + wait_time)
                {| supported := supported s; world := w3 |}).
  destruct (run handler (waitForBusyFiles_loop fuel _ _ _ _ _ _) _) as [[r tr] s'].
  cbn [fst snd] in IH.
  destruct (Z.land flags FSCRYPT_KEY_REMOVAL_STATUS_FLAG_OTHER_USERS =? 0); cbn [negb];
    [ destruct (Z.land flags FSCRYPT_KEY_REMOVAL_STATUS_FLAG_FILES_BUSY =? 0) | ];
    cbn [fst snd app removals_guarded]; rewrite Eret, Est; cbn [andb];
    try exact IH; reflexivity.
Qed.

(** X11.  The reaper looks before it removes: every remove-key ioctl it
    issues comes right after a status query that succeeded and found the
    key incompletely removed, and names the specifier the reaper was
    started with.  However far it gets, it opens one directory, adds no
    key, starts no reaper, and leaves the keyring and the key store
    alone. *)
Theorem waitForBusyFiles_checks_before_removing (fuel : nat)
  (key_spec : fscrypt_key_specifier) (ref mountpoint : string) (s : State W) :
  let tr := trace handler (waitForBusyFiles fuel key_spec ref mountpoint) s in
  removals_guarded false tr = true
  /\ Forall (fun r => fst r = key_spec) (removals tr)
  /\ openings tr = [(mountpoint, fst (handler (open mountpoint) (world s)))]
  /\ additions tr = [] /\ probes tr = [] /\ reapers tr = []
  /\ filter is_keyring_call tr = [] /\ filter is_storage_call tr = [].
Proof.
  cbv zeta. unfold trace, waitForBusyFiles. cbn [bind call]. rewrite !run_Call.
  destruct (handler (open mountpoint) (world s)) as [fd w]. cbn [fst].
  destruct (fd =? -1); [ cbn; repeat split; constructor | ].
  pose proof (removals_guarded_loop fuel fd key_spec ref mountpoint 3200 0
                {| supported := supported s; world := w |}) as G.
  pose proof (@every_event_run _ _ _ {| supported := supported s; world := w |}
                (reaper_only_waitForBusyFiles_loop fuel fd key_spec ref mountpoint 3200 0))
    as F.
  destruct (run handler (waitForBusyFiles_loop _ _ _ _ _ _ _) _) as [[r tr] s'].
  cbn [fst snd] in *.
  split; [ exact G | ].
  observe_all. cbn [filter is_keyring_call is_storage_call].
  split; [ unfold removals; apply Forall_flat_map | ].
  2: split; [ f_equal; apply flat_map_nil | ].
  3: split; [ apply flat_map_nil | ].
  4: split; [ apply flat_map_nil | ].
  5: split; [ apply flat_map_nil | ].
  6: split; apply filter_nil.
  all: (eapply Forall_impl; [ | exact F ]); cbv beta; tauto.
Qed.

(** *** [installKey], continued *)

Lemma every_event_impl (A : Type) (P Q : Event -> Prop) (p : Prog A) :
  (forall e, P e -> Q e) -> every_event P p -> every_event Q p.
Proof.
  intros PQ.
  induction p as [a | X c k IH | sev m k IH | k IH | v k IH]; cbn [every_event].
  - trivial.
  - intros F r. destruct (F r) as [Pc Fk]. split; [ apply PQ, Pc | apply IH, Fk ].
  - intros [Pl Fk]. split; [ apply PQ, Pl | apply IH, Fk ].
  - intros F v. apply IH, F.
  - apply IH.
Qed.

Lemma keyring_only_installKeyLegacy (key : KeyBuffer) (raw_ref : list byte) :
  every_event keyring_only (installKeyLegacy key raw_ref).
Proof.
  unfold installKeyLegacy, fillKey, fscryptKeyring. footprint;
    try (eapply every_event_impl; [ | apply keyring_only_installKeyLegacy_loop ];
         cbv beta; tauto);
    unfold keyring_only; footprint.
Qed.

Lemma keyring_only_evictKeyLegacy (raw_ref : list byte) :
  every_event (fun e => keyring_only e /\ entry_of e = []) (evictKeyLegacy raw_ref).
Proof.
  unfold evictKeyLegacy, fscryptKeyring. footprint;
    try apply keyring_only_evictKeyLegacy_loop;
    unfold keyring_only; footprint.
Qed.

(** A trace without filesystem calls has none of their kinds, and likewise
    for the keyring. *)
Lemma filesystem_free (tr : list Event) :
  filter is_filesystem_call tr = [] ->
  openings tr = [] /\ probes tr = [] /\ additions tr = [] /\ removals tr = []
  /\ reapers tr = [].
Proof.
  induction tr as [ | e tr IH ]; [ repeat split | ].
  cbn [filter]. destruct (is_filesystem_call e) eqn:E; [ discriminate | ].
  intros H. specialize (IH H). observe_all.
  destruct IH as (-> & -> & -> & -> & ->).
  destruct e as [X c r | sev m]; [ destruct c | ]; try discriminate E; repeat split.
Qed.

Lemma keyring_free (tr : list Event) :
  filter is_keyring_call tr = [] ->
  insertions tr = [] /\ entries tr = [] /\ searches tr = [] /\ unlinks tr = [].
Proof.
  induction tr as [ | e tr IH ]; [ repeat split | ].
  cbn [filter]. destruct (is_keyring_call e) eqn:E; [ discriminate | ].
  intros H. specialize (IH H). observe_all.
  destruct IH as (-> & -> & -> & ->).
  destruct e as [X c r | sev m]; [ destruct c | ]; try discriminate E; repeat split.
Qed.

Lemma keyring_only_trace (tr : list Event) :
  Forall keyring_only tr ->
  filter is_filesystem_call tr = [] /\ filter is_storage_call tr = [] /\ sleeps tr = [].
Proof.
  intros F.
  repeat split; [ apply filter_nil | apply filter_nil | apply flat_map_nil ];
    (eapply Forall_impl; [ | exact F ]); unfold keyring_only; tauto.
Qed.

(** The probe is a matter of the filesystem: it opens [/data] and issues
    the add-key ioctl without an argument, and that is all. *)
Lemma isFsKeyringSupported_calls (s : State W) :
  let tr := trace handler isFsKeyringSupported s in
  filter is_keyring_call tr = [] /\ filter is_storage_call tr = []
  /\ additions tr = [] /\ removals tr = [] /\ reapers tr = [] /\ sleeps tr = []
  /\ Forall (fun o => fst o = "/data"%string) (openings tr)
  /\ (forall cached, supported s = Some cached -> tr = []).
Proof.
  cbv zeta. unfold trace. rewrite run_isFsKeyringSupported.
  destruct (supported s) as [ cached | ];
    [ cbn; repeat split; constructor | ].
  rewrite run_isFsKeyringSupportedImpl.
  destruct (handler (open "/data") (world s)) as [fd w1].
  destruct (handler (ioctl_ADD_ENCRYPTION_KEY_NULL fd) w1) as [errno w2].
  cbv zeta.
  destruct (errno =? ENOTTY); [ | destruct (errno =? EFAULT) ];
    cbn; repeat split; try discriminate; repeat constructor.
Qed.

(** The buffer [installKey] allocates after the argument holds the whole
    key once it is copied. *)
Lemma add_key_arg_filled_fields (options : EncryptionOptions) (key : KeyBuffer)
  (spec : fscrypt_key_specifier) :
  let arg := add_key_arg_filled options key (add_key_arg_v1 key spec) in
  key_spec arg = spec
  /\ arg_raw arg = key
  /\ raw_size arg = to_u32 (Z.of_nat (length key))
  /\ __flags arg = (if fscrypt.use_hw_wrapped_key options
                    then __FSCRYPT_ADD_KEY_FLAG_HW_WRAPPED else 0).
Proof.
  cbv zeta. unfold add_key_arg_filled, add_key_arg_v1.
  cbn [key_spec arg_raw raw_size __flags].
  split; [ reflexivity | split; [ | split; [ reflexivity | ] ] ].
  - unfold memcpy. rewrite firstn_all. apply overwrite_full.
    symmetry. apply repeat_length.
  - destruct (fscrypt.use_hw_wrapped_key options); reflexivity.
Qed.

(** The part of [installKey] after the [switch], call by call. *)
Lemma install_ioctl_run_calls (mountpoint : string) (options : EncryptionOptions)
  (key : KeyBuffer) (arg : fscrypt_add_key_arg) (policy : EncryptionPolicy) (s : State W) :
  let r := install_ioctl_run handler mountpoint options key arg policy s in
  let tr := snd (fst r) in
  let fd := fst (handler (open mountpoint) (world s)) in
  let filled := add_key_arg_filled options key arg in
  supported (snd r) = supported s
  /\ openings tr = [(mountpoint, fd)]
  /\ additions tr = (if fd =? -1 then [] else [(fd, filled)])
  /\ probes tr = []
  /\ filter is_keyring_call tr = []
  /\ filter is_storage_call tr = []
  /\ filter is_filesystem_call tr = calls tr.
Proof.
  cbv zeta. unfold install_ioctl_run.
  destruct (handler (open mountpoint) (world s)) as [fd w1]. cbn [fst].
  destruct (fd =? -1); [ cbn; repeat split | ].
  destruct (handler (ioctl_ADD_ENCRYPTION_KEY fd _) w1) as [[ret identifier] w2].
  destruct (ret =? 0); cbn; repeat split.
Qed.

(** X12.  [installKey] hands the kernel the whole key: the argument of the
    add-key ioctl carries the bytes of the key and their number, has the
    hardware-wrapped flag set exactly when the options ask for a wrapped
    key, and a descriptor-typed specifier for version 1, an identifier-typed
    one for version 2.  The ioctl is issued at most once, on the descriptor
    [open] answered for the mountpoint, and never on -1. *)
Theorem installKey_add_key_argument (mountpoint : string) (options : EncryptionOptions)
  (key : KeyBuffer) (policy : EncryptionPolicy) (s : State W) :
  let tr := trace handler (installKey SHA512 mountpoint options key policy) s in
  (length (additions tr) <= 1)%nat
  /\ Forall
       (fun a =>
          fst a <> -1
          /\ In (mountpoint, fst a) (openings tr)
          /\ arg_raw (snd a) = key
          /\ raw_size (snd a) = to_u32 (Z.of_nat (length key))
          /\ __flags (snd a) = (if fscrypt.use_hw_wrapped_key options
                                then __FSCRYPT_ADD_KEY_FLAG_HW_WRAPPED else 0)
          /\ spec_type (key_spec (snd a))
             = (if fscrypt.version options =? 1
                then FSCRYPT_KEY_SPEC_TYPE_DESCRIPTOR
                else FSCRYPT_KEY_SPEC_TYPE_IDENTIFIER))
       (additions tr).
Proof.
  cbv zeta. unfold trace. rewrite run_installKey. cbv zeta.
  assert (Q : forall (spec : fscrypt_key_specifier) (policy1 : EncryptionPolicy)
                     (s1 : State W) (front : list Event),
    additions front = [] ->
    spec_type spec = (if fscrypt.version options =? 1
                      then FSCRYPT_KEY_SPEC_TYPE_DESCRIPTOR
                      else FSCRYPT_KEY_SPEC_TYPE_IDENTIFIER) ->
    let tr := front ++ snd (fst (install_ioctl_run handler mountpoint options key
                                   (add_key_arg_v1 key spec) policy1 s1)) in
    (length (additions tr) <= 1)%nat
    /\ Forall
         (fun a =>
            fst a <> -1
            /\ In (mountpoint, fst a) (openings tr)
            /\ arg_raw (snd a) = key
            /\ raw_size (snd a) = to_u32 (Z.of_nat (length key))
            /\ __flags (snd a) = (if fscrypt.use_hw_wrapped_key options
                                  then __FSCRYPT_ADD_KEY_FLAG_HW_WRAPPED else 0)
            /\ spec_type (key_spec (snd a))
               = (if fscrypt.version options =? 1
                  then FSCRYPT_KEY_SPEC_TYPE_DESCRIPTOR
                  else FSCRYPT_KEY_SPEC_TYPE_IDENTIFIER))
         (additions tr)).
  { intros spec policy1 s1 front Hfront Hspec. cbv zeta.
    destruct (install_ioctl_run_calls mountpoint options key (add_key_arg_v1 key spec)
                policy1 s1) as (_ & Ho & Ha & _).
    destruct (add_key_arg_filled_fields options key spec) as (Fs & Fr & Fz & Ff).
    rewrite additions_app, openings_app, Hfront, Ho, Ha. cbn [app].
    destruct (Z.eqb_spec (fst (handler (open mountpoint) (world s1))) (-1)) as [E | E];
      [ cbn; split; [ lia | constructor ] | ].
    split; [ cbn; lia | ].
    constructor; [ | constructor ]. cbn [fst snd].
    rewrite Fs, Fr, Fz, Ff.
    repeat split; try assumption.
    apply in_or_app. right. left. reflexivity. }
  destruct (Z.eqb_spec (fscrypt.version options) 1) as [V1 | V1].
  - assert (Hp : additions (snd (fst (run handler isFsKeyringSupported s))) = [])
      by apply (isFsKeyringSupported_calls s).
    destruct (run handler isFsKeyringSupported s) as [[modern probe] s1].
    cbn [fst snd] in Hp.
    destruct modern; cbn [negb].
    + rewrite run_buildKeySpecifier. cbv zeta.
      cbn [fscrypt.options fscrypt.key_raw_ref fscrypt.version].
      rewrite V1. cbn [Z.eqb Pos.eqb].
      destruct (Nat.eqb _ FSCRYPT_KEY_DESCRIPTOR_SIZE); cbn [negb fst snd].
      * specialize (Q {| spec_type := FSCRYPT_KEY_SPEC_TYPE_DESCRIPTOR;
                         spec_u := memcpy (spec_u fscrypt_key_specifier_zero)
                                     (derived_ref SHA512 options key)
                                     FSCRYPT_KEY_DESCRIPTOR_SIZE |}
                      {| fscrypt.options := options;
                         fscrypt.key_raw_ref := derived_ref SHA512 options key |}
                      s1 probe Hp).
        specialize (Q eq_refl). cbv zeta in Q.
        destruct (install_ioctl_run handler _ _ _ _ _ _) as [[r tr] s2].
        exact Q.
      * rewrite additions_app, Hp. cbn. split; [ lia | constructor ].
    + assert (Hl : additions (snd (fst (run handler
                     (installKeyLegacy key (derived_ref SHA512 options key)) s1))) = []).
      { apply filesystem_free, keyring_only_trace, every_event_run,
          keyring_only_installKeyLegacy. }
      destruct (run handler (installKeyLegacy _ _) s1) as [[ok tr] s2].
      cbn [fst snd] in *. rewrite additions_app, Hp, Hl. cbn. split; [ lia | constructor ].
  - destruct (Z.eqb_spec (fscrypt.version options) 2) as [V2 | V2];
      [ | cbn; split; [ lia | constructor ] ].
    specialize (Q {| spec_type := FSCRYPT_KEY_SPEC_TYPE_IDENTIFIER;
                     spec_u := spec_u fscrypt_key_specifier_zero |}
                  {| fscrypt.options := options;
                     fscrypt.key_raw_ref := fscrypt.key_raw_ref policy |}
                  s [] eq_refl).
    specialize (Q eq_refl). cbv zeta in Q. cbn [app] in Q.
    exact Q.
Qed.

(** *** One interface per run *)

(** What [evictKey] does once the keyring is ruled out, call by call. *)
Lemma evict_modern_run_calls (mountpoint : string) (policy : EncryptionPolicy)
  (s1 : State W) :
  let r := evict_modern_run handler mountpoint policy s1 in
  let tr := snd (fst r) in
  supported (snd r) = supported s1
  /\ openings tr = [(mountpoint, fst (handler (open mountpoint) (world s1)))]
  /\ probes tr = []
  /\ additions tr = []
  /\ filter is_keyring_call tr = []
  /\ filter is_storage_call tr = []
  /\ sleeps tr = [].
Proof.
  cbv zeta. unfold evict_modern_run.
  destruct (handler (open mountpoint) (world s1)) as [fd w1]. cbn [fst].
  destruct (fd =? -1); [ cbn; repeat split | ].
  rewrite run_buildKeySpecifier. cbv zeta.
  destruct (fscrypt.version (fscrypt.options policy) =? 1);
    [ destruct (Nat.eqb _ FSCRYPT_KEY_DESCRIPTOR_SIZE)
    | destruct (fscrypt.version (fscrypt.options policy) =? 2);
      [ destruct (Nat.eqb _ FSCRYPT_KEY_IDENTIFIER_SIZE) | ] ];
    cbn [negb]; try (cbn; repeat split; fail).
  all: match goal with
       | |- context [handler (ioctl_REMOVE_ENCRYPTION_KEY ?f ?sp) ?w] =>
           destruct (handler (ioctl_REMOVE_ENCRYPTION_KEY f sp) w) as [[ret flags] w2]
       end;
    (destruct (ret =? 0); cbn [negb]; [ | cbn; repeat split; fail ]);
    destruct (removal_outcome flags);
    try match goal with
        | |- context [handler (thread_waitForBusyFiles ?a ?b ?c) ?w] =>
            destruct (handler (thread_waitForBusyFiles a b c) w) as [u w3]
        end;
    cbn; repeat split.
Qed.

(** X13.  [evictKey] uses one interface per run.  For a version-1 policy
    on a kernel without the ioctls it keeps to the keyring and never opens
    the mountpoint; otherwise it keeps to the filesystem, and opens the
    mountpoint before it looks at the policy.  The capability is consulted
    for version 1 only: for any other version the kernel is not probed and
    the static is left as it was.  It never adds a key. *)
Theorem evictKey_interface (mountpoint : string) (policy : EncryptionPolicy) (s : State W) :
  let v1 := fscrypt.version (fscrypt.options policy) =? 1 in
  let probe := if v1 then trace handler isFsKeyringSupported s else [] in
  let s1 := if v1 then final handler isFsKeyringSupported s else s in
  let legacy := (v1 && negb (result handler isFsKeyringSupported s))%bool in
  let tr := trace handler (evictKey mountpoint policy) s in
  probes tr = probes probe
  /\ supported (final handler (evictKey mountpoint policy) s) = supported s1
  /\ filter is_storage_call tr = [] /\ sleeps tr = []
  /\ additions tr = [] /\ entries tr = []
  /\ (legacy = true ->
        filter is_filesystem_call tr = filter is_filesystem_call probe
        /\ openings tr = openings probe)
  /\ (legacy = false ->
        filter is_keyring_call tr = []
        /\ openings tr
           = openings probe ++ [(mountpoint, fst (handler (open mountpoint) (world s1)))]).
Proof.
  cbv zeta. unfold trace, final, result. rewrite run_evictKey.
  pose proof (isFsKeyringSupported_calls s) as P. cbv zeta in P. unfold trace in P.
  destruct P as (Pk & Ps & Pa & _ & _ & Pz & _).
  destruct (fscrypt.version (fscrypt.options policy) =? 1); cbn [andb].
  - destruct (run handler isFsKeyringSupported s) as [[modern probe] s1].
    cbn [fst snd] in *.
    destruct modern; cbn [negb].
    + destruct (evict_modern_run_calls mountpoint policy s1)
        as (Es & Eo & Ep & Ea & Ek & Et & Ez).
      destruct (evict_modern_run handler mountpoint policy s1) as [[ok tr] s2].
      cbn [fst snd] in *.
      destruct (keyring_free _ Pk) as (_ & Pe & _).
      destruct (keyring_free _ Ek) as (_ & Ee & _).
      rewrite !filter_app. observe_all.
      rewrite Ep, Es, Ps, Et, Pz, Ez, Pa, Ea, Pe, Ee, Pk, Ek, Eo, !app_nil_r.
      repeat split; try reflexivity; discriminate.
    + pose proof (@every_event_run _ _ _ s1
                    (keyring_only_evictKeyLegacy (fscrypt.key_raw_ref policy))) as F.
      pose proof (@static_free_run _ _ s1
                    (static_free_evictKeyLegacy (fscrypt.key_raw_ref policy))) as S.
      destruct (run handler (evictKeyLegacy _) s1) as [[ok tr] s2].
      cbn [fst snd] in *.
      assert (F1 : Forall keyring_only tr)
        by (eapply Forall_impl; [ | exact F ]; cbv beta; tauto).
      assert (F2 : entries tr = []).
      { apply flat_map_nil. eapply Forall_impl; [ | exact F ]. cbv beta. tauto. }
      destruct (keyring_only_trace F1) as (Lf & Ls & Lz).
      destruct (filesystem_free _ Lf) as (Lo & Lp & La & _).
      destruct (keyring_free _ Pk) as (_ & Pe & _).
      rewrite !filter_app. observe_all.
      rewrite Lf, Ls, Lz, Lo, Lp, La, F2, Ps, Pz, Pa, Pe, S, !app_nil_r.
      repeat split; try reflexivity; discriminate.
  - destruct (evict_modern_run_calls mountpoint policy s)
      as (Es & Eo & Ep & Ea & Ek & Et & Ez).
    destruct (evict_modern_run handler mountpoint policy s) as [[ok tr] s2].
    cbn [fst snd] in *.
    destruct (keyring_free _ Ek) as (_ & Ee & _).
    rewrite Ep, Es, Et, Ez, Ea, Ee, Ek, Eo.
    repeat split; try reflexivity; discriminate.
Qed.

Lemma installKeyLegacy_unlinks (key : KeyBuffer) (raw_ref : list byte) (s : State W) :
  unlinks (snd (fst (run handler (installKeyLegacy key raw_ref) s))) = [].
Proof.
  rewrite run_installKeyLegacy. cbv zeta.
  destruct (Nat.eqb _ _); [ | reflexivity ].
  destruct (handler (keyctl_search KEY_SPEC_SESSION_KEYRING "keyring" "fscrypt") (world s))
    as [device_keyring w].
  destruct (device_keyring =? -1); [ reflexivity | ].
  pose proof (run_installKeyLegacy_loop NAME_PREFIXES raw_ref (legacy_payload key)
                device_keyring {| supported := supported s; world := w |}) as L.
  cbv zeta in L. destruct L as (L & _).
  destruct (run handler (installKeyLegacy_loop _ _ _ _) _) as [[ok tr] s2].
  cbn [fst snd] in *. observe. exact L.
Qed.

(** X14.  [installKey] uses one interface per run as well.  For version 1
    on a kernel without the ioctls it keeps to the keyring and never opens
    the mountpoint; otherwise it makes no keyring call.  The capability is
    consulted for version 1 only; a version other than 1 and 2 is turned
    down before any call is made.  It never removes a key and never uses
    the key store. *)
Theorem installKey_interface (mountpoint : string) (options : EncryptionOptions)
  (key : KeyBuffer) (policy : EncryptionPolicy) (s : State W) :
  let v1 := fscrypt.version options =? 1 in
  let probe := if v1 then trace handler isFsKeyringSupported s else [] in
  let s1 := if v1 then final handler isFsKeyringSupported s else s in
  let legacy := (v1 && negb (result handler isFsKeyringSupported s))%bool in
  let tr := trace handler (installKey SHA512 mountpoint options key policy) s in
  probes tr = probes probe
  /\ supported (final handler (installKey SHA512 mountpoint options key policy) s)
     = supported s1
  /\ filter is_storage_call tr = [] /\ sleeps tr = []
  /\ removals tr = [] /\ reapers tr = [] /\ unlinks tr = []
  /\ (legacy = true ->
        filter is_filesystem_call tr = filter is_filesystem_call probe
        /\ openings tr = openings probe)
  /\ (legacy = false -> filter is_keyring_call tr = [])
  /\ (fscrypt.version options <> 1 -> fscrypt.version options <> 2 -> calls tr = []).
Proof.
  cbv zeta. unfold trace, final, result. rewrite run_installKey. cbv zeta.
  pose proof (isFsKeyringSupported_calls s) as P. cbv zeta in P. unfold trace in P.
  destruct P as (Pk & Ps & _ & Pr & Pp & Pz & _).
  assert (Q : forall (arg : fscrypt_add_key_arg) (policy1 : EncryptionPolicy)
                     (s1 : State W),
    let r := install_ioctl_run handler mountpoint options key arg policy1 s1 in
    supported (snd r) = supported s1
    /\ probes (snd (fst r)) = []
    /\ filter is_keyring_call (snd (fst r)) = []
    /\ filter is_storage_call (snd (fst r)) = []
    /\ sleeps (snd (fst r)) = [] /\ removals (snd (fst r)) = []
    /\ reapers (snd (fst r)) = [] /\ unlinks (snd (fst r)) = []).
  { intros arg policy1 s1. cbv zeta. unfold install_ioctl_run.
    destruct (handler (open mountpoint) (world s1)) as [fd w1].
    destruct (fd =? -1); [ cbn; repeat split | ].
    destruct (handler (ioctl_ADD_ENCRYPTION_KEY fd _) w1) as [[ret identifier] w2].
    destruct (ret =? 0); cbn; repeat split. }
  destruct (Z.eqb_spec (fscrypt.version options) 1) as [V1 | V1]; cbn [andb].
  - destruct (keyring_free _ Pk) as (_ & _ & _ & Pu).
    destruct (run handler isFsKeyringSupported s) as [[modern probe] s1].
    cbn [fst snd] in *.
    destruct modern; cbn [negb].
    + rewrite run_buildKeySpecifier. cbv zeta.
      cbn [fscrypt.options fscrypt.key_raw_ref fscrypt.version].
      rewrite V1. cbn [Z.eqb Pos.eqb].
      destruct (Nat.eqb _ FSCRYPT_KEY_DESCRIPTOR_SIZE); cbn [negb fst snd].
      * match goal with
        | |- context [install_ioctl_run handler ?a ?b ?c ?d ?e ?f] =>
            destruct (Q d e f) as (Qs & Qp & Qk & Qt & Qz & Qr & Qq & Qu);
            destruct (install_ioctl_run handler a b c d e f) as [[r tr] s2]
        end.
        cbn [fst snd] in *.
        rewrite !filter_app. observe_all.
        rewrite Qs, Qp, Qk, Qt, Qz, Qr, Qq, Qu, Pk, Ps, Pr, Pp, Pz, Pu, !app_nil_r.
        repeat split; try reflexivity; try discriminate; intros; lia.
      * rewrite !filter_app. observe_all. cbn [filter].
        rewrite Pk, Ps, Pr, Pp, Pz, Pu, !app_nil_r.
        repeat split; try reflexivity; try discriminate; intros; lia.
    + pose proof (@every_event_run _ _ _ s1
                    (keyring_only_installKeyLegacy key (derived_ref SHA512 options key)))
        as F.
      pose proof (@static_free_run _ _ s1
                    (static_free_installKeyLegacy key (derived_ref SHA512 options key)))
        as S.
      pose proof (installKeyLegacy_unlinks key (derived_ref SHA512 options key) s1) as U.
      destruct (run handler (installKeyLegacy _ _) s1) as [[ok tr] s2].
      cbn [fst snd] in *.
      destruct (keyring_only_trace F) as (Lf & Ls & Lz).
      destruct (filesystem_free _ Lf) as (Lo & Lp & _ & Lr & Lq).
      rewrite !filter_app. observe_all.
      rewrite Lf, Ls, Lz, Lo, Lp, Lr, Lq, U, Ps, Pr, Pp, Pz, Pu, S, !app_nil_r.
      repeat split; try reflexivity; try discriminate; intros; lia.
  - clear Pk Ps Pr Pp Pz.
    destruct (Z.eqb_spec (fscrypt.version options) 2) as [V2 | V2].
    + match goal with
      | |- context [install_ioctl_run handler ?a ?b ?c ?d ?e ?f] =>
          destruct (Q d e f) as (Qs & Qp & Qk & Qt & Qz & Qr & Qq & Qu);
          destruct (install_ioctl_run handler a b c d e f) as [[r tr] s2]
      end.
      cbn [fst snd] in *.
      rewrite Qs, Qp, Qk, Qt, Qz, Qr, Qq, Qu.
      repeat split; try reflexivity; try discriminate; intros; lia.
    + cbn. repeat split; try reflexivity; try discriminate.
Qed.

(** *** Installing, then evicting *)

(** X15.  For a version-2 policy the reference is the kernel's: [installKey]
    succeeds exactly when the mountpoint opens and the ioctl returns 0, and
    then the policy carries the 16 bytes the kernel stored in the
    specifier; when it fails, the reference the caller's policy held is
    still there.  [evictKey] on the policy returned then removes the key by
    an identifier-typed specifier that starts with that reference. *)
Theorem installKey_v2_identifier (mountpoint : string) (options : EncryptionOptions)
  (key : KeyBuffer) (policy : EncryptionPolicy) (s : State W) :
  fscrypt.version options = 2 ->
  let r := result handler (installKey SHA512 mountpoint options key policy) s in
  let fd := fst (handler (open mountpoint) (world s)) in
  let w1 := snd (handler (open mountpoint) (world s)) in
  let arg := add_key_arg_filled options key (add_key_arg_v2 key) in
  let answer := fst (handler (ioctl_ADD_ENCRYPTION_KEY fd arg) w1) in
  fst r = (negb (fd =? -1) && (fst answer =? 0))%bool
  /\ fscrypt.options (snd r) = options
  /\ (fst r = false -> fscrypt.key_raw_ref (snd r) = fscrypt.key_raw_ref policy)
  /\ (fst r = true ->
        length (fscrypt.key_raw_ref (snd r)) = FSCRYPT_KEY_IDENTIFIER_SIZE
        /\ ((FSCRYPT_KEY_IDENTIFIER_SIZE <= length (snd answer))%nat ->
            fscrypt.key_raw_ref (snd r) = firstn FSCRYPT_KEY_IDENTIFIER_SIZE (snd answer))
        /\ forall (mountpoint' : string) (s' : State W),
             let evicted := trace handler (evictKey mountpoint' (snd r)) s' in
             probes evicted = []
             /\ Forall
                  (fun removed =>
                     spec_type (fst removed) = FSCRYPT_KEY_SPEC_TYPE_IDENTIFIER
                     /\ firstn FSCRYPT_KEY_IDENTIFIER_SIZE (spec_u (fst removed))
                        = fscrypt.key_raw_ref (snd r))
                  (removals evicted)
             /\ (fst (handler (open mountpoint') (world s')) <> -1 ->
                 length (removals evicted) = 1%nat)).
Proof.
  intros V2. cbv zeta. unfold result. rewrite run_installKey. cbv zeta.
  rewrite V2. cbn [Z.eqb Pos.eqb].
  unfold install_ioctl_run.
  destruct (handler (open mountpoint) (world s)) as [fd w1]. cbn [fst snd].
  destruct (Z.eqb_spec fd (-1)) as [Efd | Efd]; cbn [negb andb fst snd].
  { repeat split; try reflexivity; discriminate. }
  destruct (handler (ioctl_ADD_ENCRYPTION_KEY fd _) w1) as [[ret identifier] w2].
  cbn [fst snd].
  destruct (Z.eqb_spec ret 0) as [Eret | Eret]; cbn [negb fst snd].
  2: { repeat split; try reflexivity; discriminate. }
  cbn [add_key_arg_filled add_key_arg_v2 add_key_arg_v1 key_spec spec_type spec_u
       fscrypt_key_specifier_zero].
  cbn [Z.eqb Pos.eqb FSCRYPT_KEY_SPEC_TYPE_IDENTIFIER fscrypt.key_raw_ref fscrypt.options].
  set (ref := firstn FSCRYPT_KEY_IDENTIFIER_SIZE
                (memcpy (repeat x00 32) identifier FSCRYPT_KEY_IDENTIFIER_SIZE)).
  assert (L : length ref = FSCRYPT_KEY_IDENTIFIER_SIZE).
  { unfold ref, memcpy. rewrite length_firstn, overwrite_length, repeat_length.
    reflexivity. }
  split; [ reflexivity | split; [ reflexivity | split; [ discriminate | ] ] ].
  intros _. split; [ exact L | split ].
  - intros Hid. unfold ref. apply memcpy_prefix; [ exact Hid | ].
    rewrite repeat_length. unfold FSCRYPT_KEY_IDENTIFIER_SIZE. lia.
  - intros mountpoint' s'. cbv zeta. unfold trace. rewrite run_evictKey.
    cbn [fscrypt.options fscrypt.version]. rewrite V2. cbn [Z.eqb Pos.eqb].
    destruct (evict_modern_run_calls mountpoint'
                {| fscrypt.options := options; fscrypt.key_raw_ref := ref |} s')
      as (_ & _ & Ep & _).
    split; [ exact Ep | ].
    pose proof (evict_modern_run_outcomes mountpoint'
                  {| fscrypt.options := options; fscrypt.key_raw_ref := ref |} s') as O.
    cbv zeta in O. unfold result in O. rewrite run_buildKeySpecifier in O.
    cbv zeta in O. cbn [fscrypt.options fscrypt.version fscrypt.key_raw_ref] in O.
    rewrite V2, L in O. cbn [Z.eqb Pos.eqb Nat.eqb FSCRYPT_KEY_IDENTIFIER_SIZE fst snd] in O.
    destruct O as (O1 & _ & O3).
    destruct (Z.eq_dec (fst (handler (open mountpoint') (world s'))) (-1)) as [E | E].
    + destruct (O1 E) as (_ & -> & _). split; [ constructor | contradiction ].
    + destruct (O3 E eq_refl) as (-> & _).
      split; [ | reflexivity ].
      constructor; [ | constructor ]. cbn [fst spec_type spec_u].
      split; [ reflexivity | ].
      rewrite memcpy_prefix.
      * apply firstn_all2. rewrite L. unfold FSCRYPT_KEY_IDENTIFIER_SIZE. lia.
      * rewrite L. unfold FSCRYPT_KEY_IDENTIFIER_SIZE. lia.
      * unfold FSCRYPT_KEY_IDENTIFIER_SIZE. cbn. lia.
Qed.

(** With the static set, [evictKey] on a version-1 policy runs without a
    probe. *)
Lemma run_evictKey_cached (mountpoint : string) (policy : EncryptionPolicy)
  (modern : bool) (s : State W) :
  fscrypt.version (fscrypt.options policy) = 1 ->
  supported s = Some modern ->
  run handler (evictKey mountpoint policy) s =
  if modern then evict_modern_run handler mountpoint policy s
  else run handler (evictKeyLegacy (fscrypt.key_raw_ref policy)) s.
Proof.
  intros V1 C. rewrite run_evictKey, V1, run_isFsKeyringSupported, C. cbn [Z.eqb Pos.eqb].
  destruct modern; cbn [negb app].
  - destruct (evict_modern_run handler mountpoint policy s) as [[ok tr] s2]. reflexivity.
  - destruct (run handler (evictKeyLegacy _) s) as [[ok tr] s2]. reflexivity.
Qed.

(** The names [evictKeyLegacy] looks up when it finds the keyring. *)
Lemma evictKeyLegacy_searches (raw_ref : list byte) (s : State W) :
  fst (handler (keyctl_search KEY_SPEC_SESSION_KEYRING "keyring" "fscrypt") (world s)) <> -1 ->
  map fst (searches (snd (fst (run handler (evictKeyLegacy raw_ref) s))))
  = "fscrypt"%string :: aliases raw_ref.
Proof.
  rewrite run_evictKeyLegacy. cbv zeta.
  destruct (handler (keyctl_search KEY_SPEC_SESSION_KEYRING "keyring" "fscrypt") (world s))
    as [device_keyring w].
  cbn [fst]. intros E.
  destruct (Z.eqb_spec device_keyring (-1)) as [E' | _]; [ contradiction | ].
  pose proof (run_evictKeyLegacy_loop NAME_PREFIXES raw_ref device_keyring true
                {| supported := supported s; world := w |}) as L.
  cbv zeta in L. destruct L as (L & _).
  destruct (run handler (evictKeyLegacy_loop _ _ _ _) _) as [[ok tr] s2].
  cbn [fst snd] in *. observe. cbn [map fst]. rewrite L. reflexivity.
Qed.

(** The names [installKeyLegacy] has inserted when it succeeds. *)
Lemma installKeyLegacy_insertions (key : KeyBuffer) (raw_ref : list byte) (s : State W) :
  fst (fst (run handler (installKeyLegacy key raw_ref) s)) = true ->
  map fst (insertions (snd (fst (run handler (installKeyLegacy key raw_ref) s))))
  = aliases raw_ref.
Proof.
  rewrite run_installKeyLegacy. cbv zeta.
  destruct (Nat.eqb _ _); [ | discriminate ].
  destruct (handler (keyctl_search KEY_SPEC_SESSION_KEYRING "keyring" "fscrypt") (world s))
    as [device_keyring w].
  destruct (device_keyring =? -1); [ discriminate | ].
  pose proof (run_installKeyLegacy_loop NAME_PREFIXES raw_ref (legacy_payload key)
                device_keyring {| supported := supported s; world := w |}) as L.
  cbv zeta in L. destruct L as (_ & _ & L).
  destruct (run handler (installKeyLegacy_loop _ _ _ _) _) as [[ok tr] s2].
  cbn [fst snd] in *. intros ->. observe.
  destruct L as [(_ & L & _) | (L & _)]; [ exact L | discriminate L ].
Qed.

(** X16.  Installing a key for a version-1 policy and then evicting the
    policy returned: the kernel is probed at most once, both functions use
    the interface the probe chose, and they name the key alike.  With the
    ioctls, the specifier removed is the specifier added; with the keyring,
    the names looked up are the names a successful install inserted. *)
Theorem installKey_then_evictKey_v1 (mountpoint mountpoint' : string)
  (options : EncryptionOptions) (key : KeyBuffer) (policy : EncryptionPolicy)
  (s : State W) :
  fscrypt.version options = 1 ->
  let modern := result handler isFsKeyringSupported s in
  let installed := run handler (installKey SHA512 mountpoint options key policy) s in
  let ok := fst (fst (fst installed)) in
  let policy1 := snd (fst (fst installed)) in
  let tr := snd (fst installed) in
  let s1 := snd installed in
  let evicted := trace handler (evictKey mountpoint' policy1) s1 in
  let device_keyring :=
    fst (handler (keyctl_search KEY_SPEC_SESSION_KEYRING "keyring" "fscrypt") (world s1)) in
  supported s1 = Some modern
  /\ probes evicted = []
  /\ (length (probes (tr ++ evicted)) <= 1)%nat
  /\ (modern = true ->
        filter is_keyring_call (tr ++ evicted) = []
        /\ (forall added removed,
              In added (additions tr) -> In removed (removals evicted) ->
              fst removed = key_spec (snd added))
        /\ (fst (handler (open mountpoint') (world s1)) <> -1 ->
            length (removals evicted) = 1%nat))
  /\ (modern = false ->
        additions tr = [] /\ removals evicted = []
        /\ openings evicted = []
        /\ (ok = true -> device_keyring <> -1 ->
            map fst (searches evicted) = "fscrypt"%string :: map fst (insertions tr))).
Proof.
  intros V1. cbv zeta.
  pose proof (installKey_v1_policy mountpoint options key policy s V1) as Hpol.
  unfold result in Hpol. rewrite Hpol. clear Hpol.
  set (policy1 := {| fscrypt.options := options;
                     fscrypt.key_raw_ref := derived_ref SHA512 options key |}).
  pose proof (isFsKeyringSupported_cached s) as Hc.
  pose proof (isFsKeyringSupported_calls s) as P. cbv zeta in P.
  assert (P1 : (length (probes (trace handler isFsKeyringSupported s)) <= 1)%nat).
  { unfold trace. rewrite run_isFsKeyringSupported.
    destruct (supported s) as [ cached | ]; [ cbn; lia | ].
    rewrite run_isFsKeyringSupportedImpl.
    destruct (handler (open "/data") (world s)) as [fd w1].
    destruct (handler (ioctl_ADD_ENCRYPTION_KEY_NULL fd) w1) as [errno w2].
    cbv zeta.
    destruct (errno =? ENOTTY); [ | destruct (errno =? EFAULT) ];
      cbn [fst snd]; observe_all; cbn [length]; lia. }
  unfold result, trace, final in *.
  destruct P as (Pk & _ & Pa & _).
  rewrite run_installKey. cbv zeta. rewrite V1. cbn [Z.eqb Pos.eqb].
  fold policy1.
  destruct (run handler isFsKeyringSupported s) as [[modern probe] s0].
  cbn [fst snd] in *.
  assert (V1' : fscrypt.version (fscrypt.options policy1) = 1) by exact V1.
  destruct modern; cbn [negb].
  - (* the ioctls *)
    rewrite run_buildKeySpecifier. cbv zeta. rewrite V1'. cbn [Z.eqb Pos.eqb].
    cbn [policy1 fscrypt.key_raw_ref]. rewrite derived_ref_length, Nat.eqb_refl.
    cbn [negb].
    set (spec := {| spec_type := FSCRYPT_KEY_SPEC_TYPE_DESCRIPTOR;
                    spec_u := memcpy (spec_u fscrypt_key_specifier_zero)
                                (derived_ref SHA512 options key)
                                FSCRYPT_KEY_DESCRIPTOR_SIZE |}).
    destruct (install_ioctl_run_calls mountpoint options key (add_key_arg_v1 key spec)
                policy1 s0) as (Is & _ & Ia & Ip & Ik & _).
    destruct (add_key_arg_filled_fields options key spec) as (Fs & _).
    destruct (install_ioctl_run handler mountpoint options key _ policy1 s0)
      as [[r tr] s1].
    cbn [fst snd] in *.
    assert (C : supported s1 = Some true) by (rewrite Is; exact Hc).
    rewrite (run_evictKey_cached mountpoint' policy1 s1 V1' C).
    destruct (evict_modern_run_calls mountpoint' policy1 s1) as (_ & _ & Ep & _ & Ek & _).
    pose proof (evict_modern_run_outcomes mountpoint' policy1 s1) as O.
    cbv zeta in O. unfold result in O. rewrite run_buildKeySpecifier in O.
    cbv zeta in O. rewrite V1' in O. cbn [Z.eqb Pos.eqb] in O.
    cbn [policy1 fscrypt.key_raw_ref] in O.
    rewrite derived_ref_length, Nat.eqb_refl in O. cbn [fst snd] in O.
    fold policy1 in O. fold spec in O.
    destruct O as (O1 & _ & O3).
    destruct (evict_modern_run handler mountpoint' policy1 s1) as [[ok' evicted] s2].
    cbn [fst snd] in *.
    split; [ exact C | split; [ exact Ep | split ] ].
    { rewrite !probes_app, Ip, Ep, !app_nil_r. exact P1. }
    split; [ intros _ | discriminate ].
    split; [ rewrite !filter_app, Pk, Ik, Ek; reflexivity | ].
    destruct (Z.eq_dec (fst (handler (open mountpoint') (world s1))) (-1)) as [E | E].
    + destruct (O1 E) as (_ & -> & _).
      split; [ intros added removed _ [] | contradiction ].
    + destruct (O3 E eq_refl) as (-> & _).
      split; [ | reflexivity ].
      intros added removed Ha [<- | []]. cbn [fst].
      rewrite additions_app, Pa, Ia in Ha. cbn [app] in Ha.
      destruct (fst (handler (open mountpoint) (world s0)) =? -1); [ destruct Ha | ].
      destruct Ha as [<- | []]. cbn [snd]. symmetry. exact Fs.
  - (* the keyring *)
    pose proof (@every_event_run _ _ _ s0
                  (keyring_only_installKeyLegacy key (derived_ref SHA512 options key)))
      as F.
    pose proof (@static_free_run _ _ s0
                  (static_free_installKeyLegacy key (derived_ref SHA512 options key)))
      as S.
    pose proof (installKeyLegacy_insertions key (derived_ref SHA512 options key) s0) as N.
    destruct (run handler (installKeyLegacy _ _) s0) as [[ok tr] s1].
    cbn [fst snd] in *.
    assert (C : supported s1 = Some false) by (rewrite S; exact Hc).
    rewrite (run_evictKey_cached mountpoint' policy1 s1 V1' C).
    cbn [policy1 fscrypt.key_raw_ref].
    pose proof (@every_event_run _ _ _ s1
                  (keyring_only_evictKeyLegacy (derived_ref SHA512 options key))) as G.
    pose proof (evictKeyLegacy_searches (derived_ref SHA512 options key) s1) as M.
    destruct (run handler (evictKeyLegacy _) s1) as [[ok' evicted] s2].
    cbn [fst snd] in *.
    assert (G1 : Forall keyring_only evicted)
      by (eapply Forall_impl; [ | exact G ]; cbv beta; tauto).
    destruct (keyring_only_trace F) as (Lf & _).
    destruct (keyring_only_trace G1) as (Ef & _).
    destruct (filesystem_free _ Lf) as (_ & Lp & La & _).
    destruct (filesystem_free _ Ef) as (Eo & Ep & _ & Er & _).
    destruct (keyring_free _ Pk) as (Pi & _).
    split; [ exact C | split; [ exact Ep | split ] ].
    { rewrite !probes_app, Lp, Ep, !app_nil_r. exact P1. }
    split; [ discriminate | intros _ ].
    split; [ rewrite additions_app, Pa, La; reflexivity | ].
    split; [ exact Er | split; [ exact Eo | ] ].
    intros Hok Hring. rewrite (M Hring), insertions_app, Pi. cbn [app].
    rewrite (N Hok). reflexivity.
Qed.

(** *** The reference of a hardware-wrapped key *)

(** X17.  The reference of a hardware-wrapped key is that of its first
    half: two keys of the same length that agree on their first half are
    installed under the same version-1 reference, whatever their second
    halves and whatever the kernel answers. *)
Theorem installKey_wrapped_reference_stable (mountpoint mountpoint' : string)
  (options : EncryptionOptions) (key key' : KeyBuffer) (policy policy' : EncryptionPolicy)
  (s s' : State W) :
  fscrypt.version options = 1 ->
  fscrypt.use_hw_wrapped_key options = true ->
  Z.of_nat (length key) <= INT_MAX ->
  length key' = length key ->
  firstn (length key / 2) key' = firstn (length key / 2) key ->
  fscrypt.key_raw_ref
    (snd (result handler (installKey SHA512 mountpoint' options key' policy') s'))
  = fscrypt.key_raw_ref
      (snd (result handler (installKey SHA512 mountpoint options key policy) s)).
Proof.
  intros V1 Hw Hmax Hlen Hhalf.
  rewrite !installKey_v1_policy by exact V1.
  cbn [fscrypt.key_raw_ref]. unfold derived_ref. rewrite Hw, Hlen.
  assert (Hsmall : Z.of_nat (length key / 2) <= INT_MAX).
  { pose proof (Nat.Div0.div_le_upper_bound (length key) 2 (length key)). lia. }
  unfold generateKeyRef. rewrite to_int_small by exact Hsmall.
  rewrite Nat2Z.id, Hhalf. reflexivity.
Qed.

(** *** The random source *)

(** X18.  On the software path the caller's buffer is not read: when
    generation is allowed and no wrapped key is asked for, what
    [generateStorageKey] returns, calls and leaves behind is the same for
    any two buffers.  The buffer returned has the size asked for, whether
    or not the random source delivered, and is all zeros beyond the bytes
    it delivered. *)
Theorem generateStorageKey_replaces_buffer (gen : KeyGeneration) (key key' : KeyBuffer)
  (s : State W) :
  allow_gen gen = true ->
  use_hw_wrapped_key gen = false ->
  let r := result handler (generateStorageKey gen key) s in
  let answer := fst (handler (ReadRandomBytes (keysize gen)) (world s)) in
  run handler (generateStorageKey gen key') s = run handler (generateStorageKey gen key) s
  /\ fst r = (fst answer =? 0)
  /\ length (snd r) = keysize gen
  /\ snd r = firstn (keysize gen) (snd answer)
             ++ repeat x00 (keysize gen - length (snd answer)).
Proof.
  intros Allow Soft. cbv zeta. unfold result.
  rewrite !run_generateStorageKey, Allow, Soft. cbn [negb].
  rewrite !run_randomKey.
  destruct (handler (ReadRandomBytes (keysize gen)) (world s)) as [[status bytes] w].
  cbv zeta. cbn [fst snd].
  assert (L : length (overwrite (KeyBuffer_new (keysize gen)) bytes) = keysize gen)
    by (rewrite overwrite_length; apply KeyBuffer_new_length).
  assert (O : overwrite (KeyBuffer_new (keysize gen)) bytes
              = firstn (keysize gen) bytes ++ repeat x00 (keysize gen - length bytes)).
  { unfold overwrite, KeyBuffer_new. rewrite repeat_length.
    f_equal. rewrite length_firstn.
    generalize (keysize gen) as n. intros n.
    destruct (Nat.le_ge_cases n (length bytes)) as [H | H].
    - rewrite Nat.min_l by exact H.
      replace (n - length bytes)%nat with 0%nat by lia.
      rewrite skipn_all2 by (rewrite repeat_length; lia). reflexivity.
    - rewrite Nat.min_r by exact H.
      replace n with (length bytes + (n - length bytes))%nat at 1 by lia.
      rewrite repeat_app, skipn_app, skipn_all2 by (rewrite repeat_length; lia).
      rewrite repeat_length, Nat.sub_diag. reflexivity. }
  destruct (status =? 0); cbn [fst snd]; repeat split; assumption.
Qed.

(** *** [evictKey] and its reaper *)

(** X19.  The reaper picks up where [evictKey] left: [evictKey] starts at
    most one reaper, and hands it the specifier it has just removed, the
    reference in hexadecimal and its own mountpoint; run on those, the
    reaper opens that mountpoint and removes by that specifier only. *)
Theorem evictKey_reaper_continues (mountpoint : string) (policy : EncryptionPolicy)
  (s : State W) (fuel : nat) (s' : State W) :
  let tr := trace handler (evictKey mountpoint policy) s in
  (length (reapers tr) <= 1)%nat
  /\ Forall
       (fun reaper =>
          let reaped :=
            trace handler
              (waitForBusyFiles fuel (fst (fst reaper)) (snd (fst reaper)) (snd reaper)) s' in
          snd reaper = mountpoint
          /\ snd (fst reaper) = keyrefstring (fscrypt.key_raw_ref policy)
          /\ map fst (removals tr) = [fst (fst reaper)]
          /\ Forall (fun removed => fst removed = fst (fst reaper)) (removals reaped)
          /\ map fst (openings reaped) = [mountpoint])
       (reapers tr).
Proof.
  cbv zeta.
  assert (R : forall s1 front,
    removals front = [] -> reapers front = [] ->
    let tr := front ++ snd (fst (evict_modern_run handler mountpoint policy s1)) in
    (length (reapers tr) <= 1)%nat
    /\ Forall
         (fun reaper =>
            snd reaper = mountpoint
            /\ snd (fst reaper) = keyrefstring (fscrypt.key_raw_ref policy)
            /\ map fst (removals tr) = [fst (fst reaper)])
         (reapers tr)).
  { intros s1 front Fr Fq. cbv zeta.
    pose proof (evict_modern_run_outcomes mountpoint policy s1) as O. cbv zeta in O.
    rewrite removals_app, reapers_app, Fr, Fq. cbn [app].
    destruct O as (O1 & O2 & O3).
    destruct (Z.eq_dec (fst (handler (open mountpoint) (world s1))) (-1)) as [E | E].
    { destruct (O1 E) as (_ & _ & ->). split; [ cbn; lia | constructor ]. }
    destruct (fst (result handler (buildKeySpecifier fscrypt_key_specifier_zero policy) s1))
      eqn:B.
    2: { destruct (O2 E eq_refl) as (_ & _ & ->). split; [ cbn; lia | constructor ]. }
    destruct (O3 E eq_refl) as (-> & Ofail & Ook).
    match type of Ofail with
    | fst ?a <> 0 -> _ => destruct (Z.eq_dec (fst a) 0) as [A | A]
    end.
    2: { destruct (Ofail A) as (_ & ->). split; [ cbn; lia | constructor ]. }
    destruct (Ook A) as (_ & Out).
    destruct (removal_outcome _); destruct Out as (_ & ->);
      (split; [ cbn; lia | ]); repeat constructor. }
  assert (Final : forall tr : list Event,
    (length (reapers tr) <= 1)%nat
    /\ Forall
         (fun reaper =>
            snd reaper = mountpoint
            /\ snd (fst reaper) = keyrefstring (fscrypt.key_raw_ref policy)
            /\ map fst (removals tr) = [fst (fst reaper)])
         (reapers tr) ->
    (length (reapers tr) <= 1)%nat
    /\ Forall
         (fun reaper =>
            let reaped :=
              trace handler
                (waitForBusyFiles fuel (fst (fst reaper)) (snd (fst reaper)) (snd reaper))
                s' in
            snd reaper = mountpoint
            /\ snd (fst reaper) = keyrefstring (fscrypt.key_raw_ref policy)
            /\ map fst (removals tr) = [fst (fst reaper)]
            /\ Forall (fun removed => fst removed = fst (fst reaper)) (removals reaped)
            /\ map fst (openings reaped) = [mountpoint])
         (reapers tr)).
  { intros tr [Hlen Hall]. split; [ exact Hlen | ].
    eapply Forall_impl; [ | exact Hall ]. cbv beta zeta.
    intros [[key_spec ref] mp] (Hm & Href & Hrem). cbn [fst snd] in *. subst mp.
    split; [ reflexivity | split; [ exact Href | split; [ exact Hrem | ] ] ].
    unfold trace, waitForBusyFiles. cbn [bind call]. rewrite !run_Call.
    destruct (handler (open mountpoint) (world s')) as [fd w].
    destruct (fd =? -1); [ cbn; split; [ constructor | reflexivity ] | ].
    pose proof (@every_event_run _ _ _ {| supported := supported s'; world := w |}
                  (reaper_only_waitForBusyFiles_loop fuel fd key_spec ref mountpoint 3200 0))
      as F.
    destruct (run handler (waitForBusyFiles_loop _ _ _ _ _ _ _) _) as [[r reaped] s2].
    cbn [fst snd] in *. observe_all.
    split.
    - unfold removals. apply Forall_flat_map.
      eapply Forall_impl; [ | exact F ]. cbv beta. tauto.
    - replace (openings reaped) with (@nil (string * Z)); [ reflexivity | ].
      symmetry. apply flat_map_nil.
      eapply Forall_impl; [ | exact F ]. cbv beta. tauto. }
  apply Final. unfold trace. rewrite run_evictKey.
  pose proof (isFsKeyringSupported_calls s) as P. cbv zeta in P. unfold trace in P.
  destruct P as (_ & _ & _ & Pr & Pq & _).
  destruct (fscrypt.version (fscrypt.options policy) =? 1).
  - destruct (run handler isFsKeyringSupported s) as [[modern probe] s1].
    cbn [fst snd] in *.
    destruct modern; cbn [negb].
    + specialize (R s1 probe Pr Pq). cbv zeta in R.
      destruct (evict_modern_run handler mountpoint policy s1) as [[ok tr] s2].
      exact R.
    + pose proof (evictKeyLegacy_quiet (fscrypt.key_raw_ref policy) s1) as Q.
      cbv zeta in Q. unfold trace in Q. destruct Q as (_ & Qq).
      destruct (run handler (evictKeyLegacy _) s1) as [[ok tr] s2].
      cbn [fst snd] in *. rewrite reapers_app, Pq, Qq.
      split; [ cbn; lia | constructor ].
  - specialize (R s [] eq_refl eq_refl). cbv zeta in R. cbn [app] in R.
    destruct (evict_modern_run handler mountpoint policy s) as [[ok tr] s2].
    exact R.
Qed.

(** *** What the kernel is handed *)

(** Copying a whole reference to the start of a zeroed buffer leaves zeros
    after it. *)
Lemma memcpy_zero_padded (src : list byte) (n : nat) :
  length src = n -> (n <= 32)%nat ->
  memcpy (repeat x00 32) src n = src ++ repeat x00 (32 - n).
Proof.
  intros L Hn. unfold memcpy, overwrite.
  rewrite <- L, firstn_all, repeat_length.
  rewrite firstn_all2 by lia.
  f_equal.
  replace 32%nat with (length src + (32 - length src))%nat at 1 by lia.
  rewrite repeat_app, skipn_app, skipn_all2 by (rewrite repeat_length; lia).
  rewrite repeat_length, Nat.sub_diag. reflexivity.
Qed.

(** X20.  The kernel is never handed stale bytes in a specifier: the one
    [evictKey] removes by is the reference of the policy followed by zeros,
    the one [installKey] adds for version 1 is the derived reference
    followed by zeros, and the one it adds for version 2 is all zeros. *)
Theorem key_specifiers_zero_padded (mountpoint : string) (options : EncryptionOptions)
  (key : KeyBuffer) (policy evicted : EncryptionPolicy) (s : State W) :
  Forall
    (fun removed =>
       spec_u (fst removed)
       = fscrypt.key_raw_ref evicted
         ++ repeat x00 (32 - length (fscrypt.key_raw_ref evicted)))
    (removals (trace handler (evictKey mountpoint evicted) s))
  /\ Forall
       (fun added =>
          spec_u (key_spec (snd added))
          = if fscrypt.version options =? 1
            then derived_ref SHA512 options key ++ repeat x00 24
            else repeat x00 32)
       (additions (trace handler (installKey SHA512 mountpoint options key policy) s)).
Proof.
  split.
  - assert (R : forall s1,
      Forall
        (fun removed =>
           spec_u (fst removed)
           = fscrypt.key_raw_ref evicted
             ++ repeat x00 (32 - length (fscrypt.key_raw_ref evicted)))
        (removals (snd (fst (evict_modern_run handler mountpoint evicted s1))))).
    { intros s1.
      pose proof (evict_modern_run_outcomes mountpoint evicted s1) as O. cbv zeta in O.
      destruct O as (O1 & O2 & O3).
      destruct (Z.eq_dec (fst (handler (open mountpoint) (world s1))) (-1)) as [E | E].
      { destruct (O1 E) as (_ & -> & _). constructor. }
      unfold result in O2, O3. rewrite run_buildKeySpecifier in O2, O3.
      cbv zeta in O2, O3.
      destruct (fscrypt.version (fscrypt.options evicted) =? 1);
        [ destruct (Nat.eqb_spec (length (fscrypt.key_raw_ref evicted))
                      FSCRYPT_KEY_DESCRIPTOR_SIZE) as [L | L]
        | destruct (fscrypt.version (fscrypt.options evicted) =? 2);
          [ destruct (Nat.eqb_spec (length (fscrypt.key_raw_ref evicted))
                        FSCRYPT_KEY_IDENTIFIER_SIZE) as [L | L] | ] ];
        cbn [fst snd] in O2, O3.
      all: try (destruct (O2 E eq_refl) as (_ & -> & _); constructor).
      all: destruct (O3 E eq_refl) as (-> & _);
        constructor; [ | constructor ]; cbn [fst spec_u fscrypt_key_specifier_zero];
        rewrite L; apply memcpy_zero_padded; [ exact L | cbv; lia ]. }
    unfold trace. rewrite run_evictKey.
    pose proof (isFsKeyringSupported_calls s) as P. cbv zeta in P. unfold trace in P.
    destruct P as (_ & _ & _ & Pr & _).
    destruct (fscrypt.version (fscrypt.options evicted) =? 1); [ | apply R ].
    destruct (run handler isFsKeyringSupported s) as [[modern probe] s1].
    cbn [fst snd] in *.
    destruct modern; cbn [negb].
    + specialize (R s1).
      destruct (evict_modern_run handler mountpoint evicted s1) as [[ok tr] s2].
      cbn [fst snd] in *. rewrite removals_app, Pr. exact R.
    + pose proof (evictKeyLegacy_quiet (fscrypt.key_raw_ref evicted) s1) as Q.
      cbv zeta in Q. unfold trace in Q. destruct Q as (Qr & _).
      destruct (run handler (evictKeyLegacy _) s1) as [[ok tr] s2].
      cbn [fst snd] in *. rewrite removals_app, Pr, Qr. constructor.
  - assert (A : forall spec policy1 s1,
      Forall (fun added => spec_u (key_spec (snd added)) = spec_u spec)
        (additions (snd (fst (install_ioctl_run handler mountpoint options key
                                (add_key_arg_v1 key spec) policy1 s1))))).
    { intros spec policy1 s1.
      destruct (install_ioctl_run_calls mountpoint options key (add_key_arg_v1 key spec)
                  policy1 s1) as (_ & _ & -> & _).
      destruct (_ =? -1); constructor; [ | constructor ]. reflexivity. }
    unfold trace. rewrite run_installKey. cbv zeta.
    pose proof (isFsKeyringSupported_calls s) as P. cbv zeta in P. unfold trace in P.
    destruct P as (_ & _ & Pa & _).
    destruct (Z.eqb_spec (fscrypt.version options) 1) as [V1 | V1].
    + destruct (run handler isFsKeyringSupported s) as [[modern probe] s1].
      cbn [fst snd] in *.
      destruct modern; cbn [negb].
      * rewrite run_buildKeySpecifier. cbv zeta.
        cbn [fscrypt.options fscrypt.key_raw_ref fscrypt.version].
        rewrite V1. cbn [Z.eqb Pos.eqb].
        rewrite derived_ref_length, Nat.eqb_refl. cbn [negb].
        match goal with
        | |- context [install_ioctl_run handler _ _ _ (add_key_arg_v1 key ?sp) ?p ?st] =>
            pose proof (A sp p st) as A1;
            destruct (install_ioctl_run handler mountpoint options key
                        (add_key_arg_v1 key sp) p st) as [[r tr] s2]
        end.
        cbn [fst snd spec_u fscrypt_key_specifier_zero] in *.
        rewrite additions_app, Pa. cbn [app].
        rewrite memcpy_zero_padded in A1
          by (try apply derived_ref_length; cbv; lia).
        exact A1.
      * assert (Hl : additions (snd (fst (run handler
                       (installKeyLegacy key (derived_ref SHA512 options key)) s1))) = []).
        { apply filesystem_free, keyring_only_trace, every_event_run,
            keyring_only_installKeyLegacy. }
        destruct (run handler (installKeyLegacy _ _) s1) as [[ok tr] s2].
        cbn [fst snd] in *. rewrite additions_app, Pa, Hl. constructor.
    + destruct (fscrypt.version options =? 2); [ | constructor ].
      apply (A {| spec_type := FSCRYPT_KEY_SPEC_TYPE_IDENTIFIER;
                  spec_u := spec_u fscrypt_key_specifier_zero |}).
Qed.

End Properties.

(** * Examples

    Runs in the example environment: the inputs at which claims of the
    specification fail as they are stated, and instances of the theorems. *)

Lemma toy_SHA512_length (m : list byte) : length (toy_SHA512 m) = SHA512_DIGEST_LENGTH.
Proof. unfold toy_SHA512. rewrite length_map, length_seq. reflexivity. Qed.

(** C1 as stated fails.  For a version-1 policy on a kernel without the
    key-management ioctls, [evictKey] issues no remove-key ioctl; and on a
    kernel with them, the value it returns is the same, [true], whether the
    key was fully removed, is still used by others, or is blocked by open
    files. *)
Lemma evictKey_claim_counterexample :
  removals (trace toy_handler (evictKey "/data" toy_policy_v1) (boot toy_legacy)) = []
  /\ result toy_handler (evictKey "/data" toy_policy_v1) (boot (toy_flags 0)) = true
  /\ result toy_handler (evictKey "/data" toy_policy_v1)
       (boot (toy_flags FSCRYPT_KEY_REMOVAL_STATUS_FLAG_OTHER_USERS)) = true
  /\ result toy_handler (evictKey "/data" toy_policy_v1)
       (boot (toy_flags FSCRYPT_KEY_REMOVAL_STATUS_FLAG_FILES_BUSY)) = true.
Proof. repeat split; reflexivity. Qed.

(** C6 as stated fails.  The key path does not exist and generation is
    allowed, but the request is for a hardware-wrapped key of 32 bytes:
    generation fails, so no key is stored or returned. *)
Lemma retrieveOrGenerateKey_claim_counterexample :
  fst (toy_handler (pathExists "/data/key") toy_modern) = false
  /\ allow_gen toy_short_request = true
  /\ result toy_handler
       (retrieveOrGenerateKey "/data/key" "/data/tmp" "token"%string toy_short_request [])
       (boot toy_modern)
     = (false, [])
  /\ toy_files
       (world (final toy_handler
                 (retrieveOrGenerateKey "/data/key" "/data/tmp" "token"%string
                    toy_short_request [])
                 (boot toy_modern)))
     = [].
Proof. repeat split; reflexivity. Qed.

(** C7 as stated fails.  A request for a hardware-wrapped key of the fixed
    maximum size, 64 bytes, succeeds with the 32-byte blob the hardware
    delivered: the size of a wrapped key is not checked. *)
Lemma generateStorageKey_claim_counterexample :
  keysize toy_wrapped_request = 64%nat
  /\ result toy_handler (generateStorageKey toy_wrapped_request []) (boot toy_short_blob)
     = (true, repeat x5a 32).
Proof. split; reflexivity. Qed.


(** C5 at a key of 64 bytes: hardware-wrapped, the reference is derived from
    its first 32 bytes; not hardware-wrapped, from all 64; and the two
    references differ. *)
Lemma installKey_v1_reference_witness :
  (forall m : list byte, length (toy_SHA512 m) = SHA512_DIGEST_LENGTH)
  /\ fscrypt.version (toy_options 1 true) = 1
  /\ Z.of_nat (length (repeat x11 64)) <= INT_MAX
  /\ fscrypt.key_raw_ref
       (snd (result toy_handler
               (installKey toy_SHA512 "/data" (toy_options 1 true) (repeat x11 64)
                  toy_blank_policy)
               (boot toy_modern)))
     = firstn 8 (toy_SHA512 (toy_SHA512 (repeat x11 32)))
  /\ fscrypt.key_raw_ref
       (snd (result toy_handler
               (installKey toy_SHA512 "/data" (toy_options 1 false) (repeat x11 64)
                  toy_blank_policy)
               (boot toy_modern)))
     = firstn 8 (toy_SHA512 (toy_SHA512 (repeat x11 64)))
  /\ firstn 8 (toy_SHA512 (toy_SHA512 (repeat x11 32)))
     <> firstn 8 (toy_SHA512 (toy_SHA512 (repeat x11 64))).
Proof.
  split; [ exact toy_SHA512_length | ].
  split; [ reflexivity | ].
  split; [ unfold INT_MAX; simpl; lia | ].
  split; [ | split ].
  - exact (proj2 (installKey_v1_reference toy_handler toy_SHA512 toy_SHA512_length
                    "/data"%string (toy_options 1 true) (repeat x11 64) toy_blank_policy
                    (boot toy_modern) eq_refl)
             ltac:(unfold INT_MAX; simpl; lia)).
  - exact (proj2 (installKey_v1_reference toy_handler toy_SHA512 toy_SHA512_length
                    "/data"%string (toy_options 1 false) (repeat x11 64) toy_blank_policy
                    (boot toy_modern) eq_refl)
             ltac:(unfold INT_MAX; simpl; lia)).
  - vm_compute. discriminate.
Defined.

(** C10 at a key of 32 bytes: refused on the kernel without the ioctls,
    before the keyring is touched. *)
Lemma installKey_legacy_key_size_witness :
  (forall m : list byte, length (toy_SHA512 m) = SHA512_DIGEST_LENGTH)
  /\ fst (result toy_handler
            (installKey toy_SHA512 "/data" (toy_options 1 false) (repeat x11 32)
               toy_blank_policy)
            (boot toy_legacy)) = false
  /\ trace toy_handler
       (installKey toy_SHA512 "/data" (toy_options 1 false) (repeat x11 32)
          toy_blank_policy)
       (boot toy_legacy)
     = trace toy_handler isFsKeyringSupported (boot toy_legacy)
       ++ [Logged ERROR (Wrong_size_key 32)]
  /\ filter is_keyring_call
       (trace toy_handler
          (installKey toy_SHA512 "/data" (toy_options 1 false) (repeat x11 32)
             toy_blank_policy)
          (boot toy_legacy)) = [].
Proof.
  split; [ exact toy_SHA512_length | ].
  pose proof (installKey_legacy_key_size toy_handler toy_SHA512 toy_SHA512_length "/data"%string
                (toy_options 1 false) (repeat x11 32) toy_blank_policy (boot toy_legacy))
    as H.
  cbv zeta in H. destruct H as (H & _).
  apply H.
  - reflexivity.
  - reflexivity.
  - vm_compute. discriminate.
Defined.

(** C1 at a removal blocked by open files: [evictKey] returns [true] and
    starts the reaper with the descriptor, the reference in hexadecimal and
    the mountpoint. *)
Lemma evictKey_outcomes_witness :
  result toy_handler (evictKey "/data" toy_policy_v1)
    (boot (toy_flags FSCRYPT_KEY_REMOVAL_STATUS_FLAG_FILES_BUSY)) = true
  /\ reapers (trace toy_handler (evictKey "/data" toy_policy_v1)
               (boot (toy_flags FSCRYPT_KEY_REMOVAL_STATUS_FLAG_FILES_BUSY)))
     = [({| spec_type := FSCRYPT_KEY_SPEC_TYPE_DESCRIPTOR;
            spec_u := repeat x01 8 ++ repeat x00 24 |},
         "0101010101010101"%string, "/data"%string)].
Proof.
  pose proof (evictKey_outcomes toy_handler "/data"%string toy_policy_v1
                (boot (toy_flags FSCRYPT_KEY_REMOVAL_STATUS_FLAG_FILES_BUSY))) as H.
  cbv zeta in H. destruct H as (_ & _ & _ & H).
  destruct (H eq_refl ltac:(vm_compute; discriminate) eq_refl) as (_ & _ & Hok).
  destruct (Hok eq_refl) as (Htrue & Hout).
  split; [ exact Htrue | exact (proj2 Hout) ].
Defined.

(** C3 at a version-1 policy with a reference of 8 bytes: the specifier is
    built, descriptor-typed, and starts with the reference. *)
Lemma buildKeySpecifier_succeeds_iff_witness :
  fst (result toy_handler (buildKeySpecifier fscrypt_key_specifier_zero toy_policy_v1)
         (boot toy_modern)) = true
  /\ spec_type
       (snd (result toy_handler (buildKeySpecifier fscrypt_key_specifier_zero toy_policy_v1)
               (boot toy_modern)))
     = FSCRYPT_KEY_SPEC_TYPE_DESCRIPTOR
  /\ firstn 8
       (spec_u
          (snd (result toy_handler
                  (buildKeySpecifier fscrypt_key_specifier_zero toy_policy_v1)
                  (boot toy_modern))))
     = fscrypt.key_raw_ref toy_policy_v1.
Proof.
  pose proof (buildKeySpecifier_succeeds_iff toy_handler fscrypt_key_specifier_zero
                toy_policy_v1 (boot toy_modern)) as H.
  cbv zeta in H. destruct H as (Hiff & Hv1 & _).
  assert (Hok : fst (result toy_handler
                       (buildKeySpecifier fscrypt_key_specifier_zero toy_policy_v1)
                       (boot toy_modern)) = true).
  { apply Hiff. left. split; reflexivity. }
  destruct (Hv1 Hok eq_refl) as (Htype & Hu).
  split; [ exact Hok | split; [ exact Htype | apply Hu; simpl; lia ] ].
Defined.

(** C4 on a kernel whose keyring accepts everything: the three aliases are
    inserted and the install succeeds. *)
Lemma installKeyLegacy_all_or_failure_witness :
  result toy_handler (installKeyLegacy (repeat x11 64) (repeat x01 8)) (boot toy_legacy)
  = true
  /\ map fst (insertions (trace toy_handler
                            (installKeyLegacy (repeat x11 64) (repeat x01 8))
                            (boot toy_legacy)))
     = ["ext4:0101010101010101"; "f2fs:0101010101010101";
        "fscrypt:0101010101010101"]%string.
Proof.
  pose proof (installKeyLegacy_all_or_failure toy_handler (repeat x11 64) (repeat x01 8)
                (boot toy_legacy)) as H.
  cbv zeta in H. destruct H as (_ & _ & Hiff & _).
  assert (Hok : result toy_handler (installKeyLegacy (repeat x11 64) (repeat x01 8))
                  (boot toy_legacy) = true) by reflexivity.
  split; [ exact Hok | exact (proj1 (proj1 Hiff Hok)) ].
Defined.

(** C6 with an empty key store and a request for 32 random bytes: the key
    is generated, stored and returned. *)
Lemma retrieveOrGenerateKey_three_way_witness :
  result toy_handler
    (retrieveOrGenerateKey "/data/key" "/data/tmp" "token"%string
       {| keysize := 32; allow_gen := true; use_hw_wrapped_key := false |} [])
    (boot toy_modern)
  = (true, repeat x2a 32)
  /\ toy_files
       (world (final toy_handler
                 (retrieveOrGenerateKey "/data/key" "/data/tmp" "token"%string
                    {| keysize := 32; allow_gen := true; use_hw_wrapped_key := false |} [])
                 (boot toy_modern)))
     = [("/data/key"%string, repeat x2a 32)].
Proof.
  pose proof (retrieveOrGenerateKey_three_way toy_handler "/data/key"%string
                "/data/tmp"%string "token"%string
                {| keysize := 32; allow_gen := true; use_hw_wrapped_key := false |} []
                (boot toy_modern)) as H.
  cbv zeta in H. destruct H as (_ & H & _).
  destruct (H eq_refl eq_refl) as (Hkey & Hok & _).
  split; [ | reflexivity ].
  rewrite (surjective_pairing (result _ _ _)), Hkey, Hok. reflexivity.
Defined.

(** C7 at a request for 32 random bytes: generation succeeds with a key of
    32 bytes. *)
Lemma generateStorageKey_fails_exactly_when_witness :
  fst (result toy_handler
         (generateStorageKey
            {| keysize := 32; allow_gen := true; use_hw_wrapped_key := false |} [])
         (boot toy_modern)) = true
  /\ length (snd (result toy_handler
                    (generateStorageKey
                       {| keysize := 32; allow_gen := true; use_hw_wrapped_key := false |} [])
                    (boot toy_modern))) = 32%nat.
Proof.
  pose proof (generateStorageKey_fails_exactly_when toy_handler
                {| keysize := 32; allow_gen := true; use_hw_wrapped_key := false |} []
                (boot toy_modern)) as H.
  cbv zeta in H. destruct H as (_ & _ & _ & Hsize & _).
  split; [ reflexivity | exact (Hsize eq_refl eq_refl) ].
Defined.


(** C9 at a policy version that does not exist: the install fails and the
    options of the caller's policy are overwritten. *)
Lemma installKey_not_atomic_witness :
  result toy_handler
    (installKey toy_SHA512 "/data" (toy_options 3 false) (repeat x11 64) toy_blank_policy)
    (boot toy_modern)
  = (false, {| fscrypt.options := toy_options 3 false; fscrypt.key_raw_ref := [] |}).
Proof.
  pose proof (installKey_not_atomic toy_handler toy_SHA512 "/data"%string
                (toy_options 3 false) (repeat x11 64) toy_blank_policy (boot toy_modern))
    as H.
  cbv zeta in H. destruct H as (_ & _ & H & _).
  exact (H ltac:(vm_compute; discriminate) ltac:(vm_compute; discriminate)).
Defined.

(** C2 under a kernel that reports busy files twice and then finds the key
    gone: the reaper ends after the third delay, with fuel to spare. *)
Lemma waitForBusyFiles_backoff_witness :
  result toy_handler
    (waitForBusyFiles (6 + 1) fscrypt_key_specifier_zero "0101010101010101" "/data")
    (boot (toy_flags_twice FSCRYPT_KEY_REMOVAL_STATUS_FLAG_FILES_BUSY)) = Some tt
  /\ sleeps (trace toy_handler
               (waitForBusyFiles (6 + 1) fscrypt_key_specifier_zero "0101010101010101"
                  "/data")
               (boot (toy_flags_twice FSCRYPT_KEY_REMOVAL_STATUS_FLAG_FILES_BUSY)))
     = [3200; 6400; 12800].
Proof.
  pose proof (waitForBusyFiles_backoff toy_handler 1 fscrypt_key_specifier_zero
                "0101010101010101"%string "/data"%string
                (boot (toy_flags_twice FSCRYPT_KEY_REMOVAL_STATUS_FLAG_FILES_BUSY))) as H.
  cbv zeta in H. destruct H as (_ & Hres & _ & Hprefix & _).
  split; [ exact Hres | ].
  unfold trace. rewrite Hprefix. reflexivity.
Defined.

(** C4 in the example kernel: when the keyring refuses the second alias, the
    install fails, the third alias is not tried, and the first alias stays
    in the keyring. *)
Example installKeyLegacy_partial :
  result toy_handler (installKeyLegacy (repeat x11 64) (repeat x01 8))
    (boot toy_refusing_f2fs) = false
  /\ insertions (trace toy_handler (installKeyLegacy (repeat x11 64) (repeat x01 8))
                   (boot toy_refusing_f2fs))
     = [("ext4:0101010101010101"%string, 1021); ("f2fs:0101010101010101"%string, -1)]
  /\ toy_keys (world (final toy_handler (installKeyLegacy (repeat x11 64) (repeat x01 8))
                        (boot toy_refusing_f2fs)))
     = ["ext4:0101010101010101"%string].
Proof. repeat split; reflexivity. Qed.

(** The round trip in the example kernel: a key installed for a version-2
    policy comes back with the identifier the kernel chose, and [evictKey]
    on the policy returned succeeds. *)
Example install_then_evict :
  result toy_handler
    (installKey toy_SHA512 "/data" (toy_options 2 false) (repeat x11 64) toy_blank_policy)
    (boot toy_modern)
  = (true, {| fscrypt.options := toy_options 2 false;
              fscrypt.key_raw_ref := repeat x11 16 |})
  /\ result toy_handler
       (evictKey "/data"
          {| fscrypt.options := toy_options 2 false;
             fscrypt.key_raw_ref := repeat x11 16 |})
       (final toy_handler
          (installKey toy_SHA512 "/data" (toy_options 2 false) (repeat x11 64)
             toy_blank_policy)
          (boot toy_modern)) = true.
Proof. split; reflexivity. Qed.

(** The reference in hexadecimal: two lower-case digits per byte. *)
Example keyrefstring_hex : keyrefstring [x00; x0a; xab; xff] = "000aabff"%string.
Proof. reflexivity. Qed.

(** [neverGen] asks for nothing: generation fails without any call. *)
Example generateStorageKey_neverGen (key : KeyBuffer) (w : Toy) :
  run toy_handler (generateStorageKey neverGen key) (boot w)
  = ((false, key), [Logged ERROR Generating_storage_key_not_allowed], boot w).
Proof. reflexivity. Qed.

(** X15 on the example kernel: the key is installed for a version-2 policy
    and the policy returned carries the 16 bytes the kernel chose. *)
Lemma installKey_v2_identifier_witness :
  fscrypt.version (toy_options 2 false) = 2
  /\ fst (result toy_handler
            (installKey toy_SHA512 "/data" (toy_options 2 false) (repeat x11 64)
               toy_blank_policy)
            (boot toy_modern)) = true
  /\ fscrypt.key_raw_ref
       (snd (result toy_handler
               (installKey toy_SHA512 "/data" (toy_options 2 false) (repeat x11 64)
                  toy_blank_policy)
               (boot toy_modern)))
     = repeat x11 16.
Proof.
  pose proof (installKey_v2_identifier toy_handler toy_SHA512 "/data"%string
                (toy_options 2 false) (repeat x11 64) toy_blank_policy (boot toy_modern)
                eq_refl) as H.
  cbv zeta in H. destruct H as (Hok & _ & _ & Hid).
  assert (Htrue : fst (result toy_handler
                         (installKey toy_SHA512 "/data" (toy_options 2 false) (repeat x11 64)
                            toy_blank_policy)
                         (boot toy_modern)) = true)
    by (rewrite Hok; reflexivity).
  split; [ reflexivity | split; [ exact Htrue | ] ].
  destruct (Hid Htrue) as (_ & Hfirst & _).
  rewrite Hfirst; [ reflexivity | vm_compute; lia ].
Defined.

(** X16 on the example kernel with the ioctls: the install leaves the static
    set, and the evict that follows does not probe again. *)
Lemma installKey_then_evictKey_v1_witness :
  (forall m : list byte, length (toy_SHA512 m) = SHA512_DIGEST_LENGTH)
  /\ fscrypt.version (toy_options 1 false) = 1
  /\ supported
       (final toy_handler
          (installKey toy_SHA512 "/data" (toy_options 1 false) (repeat x11 64)
             toy_blank_policy)
          (boot toy_modern))
     = Some true
  /\ probes
       (trace toy_handler
          (evictKey "/data"
             (snd (result toy_handler
                     (installKey toy_SHA512 "/data" (toy_options 1 false) (repeat x11 64)
                        toy_blank_policy)
                     (boot toy_modern))))
          (final toy_handler
             (installKey toy_SHA512 "/data" (toy_options 1 false) (repeat x11 64)
                toy_blank_policy)
             (boot toy_modern)))
     = [].
Proof.
  pose proof (installKey_then_evictKey_v1 toy_handler toy_SHA512 toy_SHA512_length
                "/data"%string "/data"%string (toy_options 1 false) (repeat x11 64)
                toy_blank_policy (boot toy_modern) eq_refl) as H.
  cbv zeta in H. destruct H as (Hs & Hp & _).
  split; [ exact toy_SHA512_length | split; [ reflexivity | split ] ].
  - exact Hs.
  - exact Hp.
Defined.

(** X17 at two wrapped keys of 64 bytes with the same first half: they are
    installed under the same reference. *)
Lemma installKey_wrapped_reference_stable_witness :
  fscrypt.version (toy_options 1 true) = 1
  /\ fscrypt.use_hw_wrapped_key (toy_options 1 true) = true
  /\ repeat x11 32 ++ repeat x22 32 <> repeat x11 64
  /\ fscrypt.key_raw_ref
       (snd (result toy_handler
               (installKey toy_SHA512 "/data" (toy_options 1 true)
                  (repeat x11 32 ++ repeat x22 32) toy_blank_policy)
               (boot toy_legacy)))
     = fscrypt.key_raw_ref
         (snd (result toy_handler
                 (installKey toy_SHA512 "/data" (toy_options 1 true) (repeat x11 64)
                    toy_blank_policy)
                 (boot toy_modern))).
Proof.
  split; [ reflexivity | split; [ reflexivity | split; [ vm_compute; discriminate | ] ] ].
  apply (@installKey_wrapped_reference_stable Toy toy_handler toy_SHA512
           "/data"%string "/data"%string (toy_options 1 true)
           (repeat x11 64) (repeat x11 32 ++ repeat x22 32)
           toy_blank_policy toy_blank_policy (boot toy_modern) (boot toy_legacy)).
  - reflexivity.
  - reflexivity.
  - unfold INT_MAX. simpl. lia.
  - reflexivity.
  - reflexivity.
Defined.

(** X18 at a request for 32 random bytes: the same outcome for an empty
    buffer and for one that holds 8 bytes, and a key of 32 bytes. *)
Lemma generateStorageKey_replaces_buffer_witness :
  run toy_handler
    (generateStorageKey {| keysize := 32; allow_gen := true; use_hw_wrapped_key := false |}
       (repeat x01 8))
    (boot toy_modern)
  = run toy_handler
      (generateStorageKey {| keysize := 32; allow_gen := true; use_hw_wrapped_key := false |}
         [])
      (boot toy_modern)
  /\ length (snd (result toy_handler
                    (generateStorageKey
                       {| keysize := 32; allow_gen := true; use_hw_wrapped_key := false |} [])
                    (boot toy_modern))) = 32%nat.
Proof.
  pose proof (generateStorageKey_replaces_buffer toy_handler
                {| keysize := 32; allow_gen := true; use_hw_wrapped_key := false |}
                [] (repeat x01 8) (boot toy_modern) eq_refl eq_refl) as H.
  cbv zeta in H. destruct H as (Hsame & _ & Hlen & _).
  split; [ exact Hsame | exact Hlen ].
Defined.

(** X20 on the example kernel: the specifier added for a version-1 policy
    is the derived reference followed by 24 zeros. *)
Lemma key_specifiers_zero_padded_witness :
  (forall m : list byte, length (toy_SHA512 m) = SHA512_DIGEST_LENGTH)
  /\ map (fun added => spec_u (key_spec (snd added)))
       (additions
          (trace toy_handler
             (installKey toy_SHA512 "/data" (toy_options 1 false) (repeat x11 64)
                toy_blank_policy)
             (boot toy_modern)))
     = [derived_ref toy_SHA512 (toy_options 1 false) (repeat x11 64) ++ repeat x00 24].
Proof.
  split; [ exact toy_SHA512_length | ].
  pose proof (key_specifiers_zero_padded toy_handler toy_SHA512 toy_SHA512_length
                "/data"%string (toy_options 1 false) (repeat x11 64) toy_blank_policy
                toy_policy_v1 (boot toy_modern)) as H.
  destruct H as (_ & H).
  remember (additions
              (trace toy_handler
                 (installKey toy_SHA512 "/data" (toy_options 1 false) (repeat x11 64)
                    toy_blank_policy)
                 (boot toy_modern))) as l eqn:E.
  assert (L : length l = 1%nat) by (rewrite E; reflexivity).
  destruct l as [ | added [ | ? ? ] ]; try discriminate L.
  inversion H as [ | ? ? Hadded _ ]. cbn [map]. rewrite Hadded. reflexivity.
Defined.
